(** * EcoShop: cart and checkout workflow

    A shallow embedding of [orders/views.py], [orders/models.py] and the
    parts of [products/models.py] and [accounts/models.py] that the cart
    and checkout views read and write, followed by the properties of the
    checkout workflow.

    Layout:
    - [Dec]    : [decimal.Decimal] values (coefficient and exponent) with the
                 operations the views use;
    - [Float]  : binary64 arithmetic for the one expression that mixes an
                 [int] with a [float] literal, and [str] of a float;
    - models   : one record per table row, one per in-memory instance where
                 the two differ;
    - views    : [get_or_create_cart], [add_to_cart], [update_cart],
                 [remove_from_cart], [checkout_view];
    - theorems. *)

From Stdlib Require Import ZArith List Lia Bool Ascii String.
From Stdlib Require Import Floats.SpecFloat.
From stdpp Require Import base option list gmap strings pretty.

Local Open Scope Z_scope.

(** ** Decimal numbers *)

Module Dec.

(** A finite [decimal.Decimal]: the value is [coef * 10 ^ exp].  The sign is
    carried by the coefficient.  Arithmetic is exact: the default context
    precision of 28 digits is out of reach of values that fit the
    [max_digits=10] columns. *)
Record t := mk { coef : Z; exp : Z }.

(** [Decimal('0.13')], [Decimal('5.00')], [Decimal('0.00')] *)
Definition d0_13 : t := mk 13 (-2).
Definition d5_00 : t := mk 500 (-2).
Definition d0_00 : t := mk 0 (-2).

(** An [int] operand is converted with exponent 0. *)
Definition of_int (n : Z) : t := mk n 0.

(** The coefficient of [d] written at the exponent [e <= exp d]. *)
Definition coef_at (e : Z) (d : t) : Z := coef d * 10 ^ (exp d - e).

(** [a + b]: exponent is the smaller of the two. *)
Definition add (a b : t) : t :=
  let e := Z.min (exp a) (exp b) in
  mk (coef_at e a + coef_at e b) e.

(** [a * b]: coefficients multiply, exponents add. *)
Definition mul (a b : t) : t := mk (coef a * coef b) (exp a + exp b).

(** Comparison is by value. *)
Definition compare (a b : t) : comparison :=
  let e := Z.min (exp a) (exp b) in
  coef_at e a ?= coef_at e b.

Definition ltb (a b : t) : bool :=
  match compare a b with Lt => true | _ => false end.

Definition eqb (a b : t) : bool :=
  match compare a b with Eq => true | _ => false end.

(** Division of [c] by [p > 0] rounded to nearest, ties to even
    ([ROUND_HALF_EVEN], the rounding of the default context). *)
Definition div_half_even (c p : Z) : Z :=
  let q := c / p in
  let r := c mod p in
  match 2 * r ?= p with
  | Lt => q
  | Gt => q + 1
  | Eq => if Z.even q then q else q + 1
  end.

(** [d.quantize(Decimal(1).scaleb(e))] under the default context. *)
Definition quantize (e : Z) (d : t) : t :=
  if e <=? exp d then mk (coef_at e d) e
  else mk (div_half_even (coef d) (10 ^ (e - exp d))) e.

(** [round(d, 2)] on a Decimal is [d.quantize(Decimal('0.01'))]. *)
Definition round2 (d : t) : t := quantize (-2) d.

(** What a [DecimalField(max_digits, decimal_places)] column keeps of a
    value on save.  Django writes the field through [format_number]: the
    value is quantized to [decimal_places] in a context of precision
    [max_digits].  The result is the coefficient at exponent
    [-decimal_places], or [None] for [decimal.InvalidOperation] when it needs
    more than [max_digits] digits. *)
Definition format_number (max_digits decimal_places : Z) (d : t) : option Z :=
  let c := coef (quantize (- decimal_places) d) in
  if Z.abs c <? 10 ^ max_digits then Some c else None.

(** A two-decimal column read back from the database. *)
Definition of_cents (c : Z) : t := mk c (-2).

End Dec.

(** ** Binary64 floats *)

Module Float.

Definition prec : Z := 53.
Definition emax : Z := 1024.

(** [float(n)] for an [int] operand of a mixed operation: correctly
    rounded; an infinite result stands for [OverflowError]. *)
Definition of_int (n : Z) : spec_float := binary_normalize prec emax n 0 false.

Definition mul (x y : spec_float) : spec_float := SFmul prec emax x y.

(** The literal [0.01]: 0x3F847AE147AE147B. *)
Definition lit_0_01 : spec_float := S754_finite false 5764607523034235 (-59).

(** Sign of [a * 10^p - b * 2^q]. *)
Definition cmp10_2 (a p b q : Z) : comparison :=
  a * 10 ^ Z.max p 0 * 2 ^ Z.max (- q) 0 ?= b * 2 ^ Z.max q 0 * 10 ^ Z.max (- p) 0.

Section Shortest.
(** The positive float [m * 2^e]. *)
Variables (m : positive) (e : Z).

(** Bounds of the set of reals that round to the float, in units of
    [2^(e-2)]; the lower neighbour is closer at a power of two. *)
Definition lo4 : Z :=
  if (Zpos m =? 2 ^ (prec - 1)) && (emin prec emax <? e)
  then 4 * Zpos m - 1 else 4 * Zpos m - 2.
Definition hi4 : Z := 4 * Zpos m + 2.

(** Does [d * 10^q] read back as the float?  The bounds are included
    when the mantissa is even. *)
Definition round_trips (d q : Z) : bool :=
  match cmp10_2 d q lo4 (e - 2), cmp10_2 d q hi4 (e - 2) with
  | Gt, Lt => true
  | Eq, _ | _, Eq => Z.even (Zpos m)
  | _, _ => false
  end.

(** [floor (m * 2^e / 10^q)] *)
Definition floor_at (q : Z) : Z :=
  (Zpos m * 2 ^ Z.max e 0 * 10 ^ Z.max (- q) 0)
  / (2 ^ Z.max (- e) 0 * 10 ^ Z.max q 0).

(** The [t] with [10^t <= m * 2^e < 10^(t+1)], from the bit length. *)
Definition floor_log10 : Z :=
  let t0 := ((Z.log2 (Zpos m) + e) * 30103) / 100000 in
  if floor_at (t0 + 2) >? 0 then t0 + 2
  else if floor_at (t0 + 1) >? 0 then t0 + 1
  else if floor_at t0 >? 0 then t0 else t0 - 1.

(** The candidates with [k] digits: the two neighbours of the float on
    the grid [10^q]; the nearer one that reads back wins. *)
Definition candidate (k : Z) : option (Z * Z) :=
  let q := floor_log10 - k + 1 in
  let d := floor_at q in
  match round_trips d q, round_trips (d + 1) q with
  | true, true =>
      match cmp10_2 (2 * d + 1) q (2 * Zpos m) e with
      | Gt => Some (d, q)
      | Lt => Some (d + 1, q)
      | Eq => Some (if Z.even d then d else d + 1, q)
      end
  | true, false => Some (d, q)
  | false, true => Some (d + 1, q)
  | false, false => None
  end.

Fixpoint search (fuel : nat) (k : Z) : option (Z * Z) :=
  match fuel with
  | O => None
  | S fuel' =>
      match candidate k with
      | Some r => Some r
      | None => search fuel' (k + 1)
      end
  end.

(** The shortest digit string that reads back as the float: digits and
    decimal exponent.  Seventeen digits always suffice. *)
Definition shortest : option (Z * Z) := search 17 1.
End Shortest.

(** Drop trailing zeros of the digit string. *)
Fixpoint strip_zeros (fuel : nat) (d q : Z) : Z * Z :=
  match fuel with
  | O => (d, q)
  | S fuel' => if (d mod 10 =? 0) && negb (d =? 0)
               then strip_zeros fuel' (d / 10) (q + 1) else (d, q)
  end.

(** Number of decimal digits of [d > 0]. *)
Fixpoint ndigits_go (fuel : nat) (d : Z) : Z :=
  match fuel with
  | O => 1
  | S fuel' => if d <? 10 then 1 else 1 + ndigits_go fuel' (d / 10)
  end.
Definition ndigits (d : Z) : Z := ndigits_go 20 d.

(** [Decimal(str(x))] for a float [x].  [str] prints the shortest digits;
    with the decimal point after [decpt] digits it uses the exponent form
    when [decpt <= -4] or [decpt > 16] and the fixed form otherwise, and
    the fixed form of an integral value ends in [".0"].  [None] for an
    infinity or a NaN, which no column stores. *)
Definition to_decimal (x : spec_float) : option Dec.t :=
  match x with
  | S754_zero _ => Some (Dec.mk 0 (-1))
  | S754_finite s m e =>
      match shortest m e with
      | Some (d0, q0) =>
          let '(d, q) := strip_zeros 17 d0 q0 in
          let decpt := ndigits d + q in
          let sgn := if s then (-1) else 1 in
          if (decpt <=? -4) || (16 <? decpt) || (q <? 0)
          then Some (Dec.mk (sgn * d) q)
          else Some (Dec.mk (sgn * d * 10 ^ (q + 1)) (-1))
      | None => None
      end
  | _ => None
  end.

End Float.

(** ** Python built-ins used by the views *)

Module Py.

(** Characters that [str.strip] and [int] treat as white space (ASCII). *)
Definition is_space (a : ascii) : bool :=
  let n := N_of_ascii a in
  ((9 <=? n) && (n <=? 13) || (28 <=? n) && (n <=? 32))%N.

Definition digit_value (a : ascii) : option Z :=
  let n := N_of_ascii a in
  if ((48 <=? n) && (n <=? 57))%N then Some (Z.of_N n - 48) else None.

(** Digits with single underscores between them. *)
Fixpoint digits (acc : Z) (after_digit : bool) (l : list ascii) : option Z :=
  match l with
  | [] => if after_digit then Some acc else None
  | c :: l' =>
      match digit_value c with
      | Some v => digits (10 * acc + v) true l'
      | None =>
          if (Ascii.eqb c "_" && after_digit)%bool then digits acc false l' else None
      end
  end.

Fixpoint lstrip (l : list ascii) : list ascii :=
  match l with
  | c :: l' => if is_space c then lstrip l' else l
  | [] => []
  end.

Definition strip (l : list ascii) : list ascii := rev (lstrip (rev (lstrip l))).

(** [int(s)] for a [str] in base 10 over ASCII; [None] is [ValueError]. *)
Definition int (s : string) : option Z :=
  match strip (list_ascii_of_string s) with
  | "-"%char :: l => Z.opp <$> digits 0 false l
  | "+"%char :: l => digits 0 false l
  | l => digits 0 false l
  end.

Definition upper_char (a : ascii) : ascii :=
  let n := N_of_ascii a in
  if ((97 <=? n) && (n <=? 122))%N then ascii_of_N (n - 32) else a.

(** [s.upper()] over ASCII. *)
Fixpoint upper (s : string) : string :=
  match s with
  | EmptyString => EmptyString
  | String a s' => String (upper_char a) (upper s')
  end.

(** [sum(l)] of ints and of Decimals: a left fold from the int [0]. *)
Definition sum_int (l : list Z) : Z := fold_left Z.add l 0.
Definition sum_dec (l : list Dec.t) : Dec.t := fold_left Dec.add l (Dec.of_int 0).

End Py.

(** ** Models *)

(** [products.models.Product]; the primary key is the key of the table.
    [price] is a [DecimalField(max_digits=10, decimal_places=2)] column, kept
    in hundredths. *)
Module Product.
Record t := mk {
  name : string;
  slug : string;
  price : Z;
  stock : Z;
  eco_score : Z;
  is_active : bool
}.
Definition with_stock (s : Z) (p : t) : t :=
  mk (name p) (slug p) (price p) s (eco_score p) (is_active p).
Definition with_slug (s : string) (p : t) : t :=
  mk (name p) s (price p) (stock p) (eco_score p) (is_active p).
(** The [price] attribute of an instance loaded from the table. *)
Definition price_dec (p : t) : Dec.t := Dec.of_cents (price p).
End Product.

(** [accounts.models.User]: the loyalty fields. *)
Module User.
Record t := mk {
  eco_points : Z;
  total_orders : Z;
  co2_saved : Z
}.
End User.

(** [orders.models.Cart] *)
Module Cart.
Record t := mk {
  id : Z;
  user : option Z;
  session_key : option string
}.
End Cart.

(** [orders.models.CartItem] *)
Module CartItem.
Record t := mk {
  id : Z;
  cart : Z;
  product : Z;
  quantity : Z
}.
Definition with_quantity (q : Z) (i : t) : t := mk (id i) (cart i) (product i) q.
End CartItem.

(** [orders.models.Order]: [t] is the instance the view builds, whose
    Decimal attributes are whatever was assigned; [row] is what the table
    keeps, the [DecimalField(max_digits=10, decimal_places=2)] columns in
    hundredths. *)
Module Order.
Record shipping := mk_shipping {
  shipping_name : string;
  shipping_email : string;
  shipping_phone : string;
  shipping_address : string;
  shipping_city : string;
  shipping_country : string;
  shipping_postal_code : string;
  notes : string
}.
Record t := mk {
  form : shipping;
  user : Z;
  order_number : string;
  status : string;
  subtotal : Dec.t;
  tax : Dec.t;
  shipping_cost : Dec.t;
  total : Dec.t;
  eco_points_earned : Z;
  co2_saved : Dec.t
}.
Record row := mk_row {
  id : Z;
  r_form : shipping;
  r_user : Z;
  r_order_number : string;
  r_status : string;
  r_subtotal : Z;
  r_tax : Z;
  r_shipping_cost : Z;
  r_total : Z;
  r_eco_points_earned : Z;
  r_co2_saved : Z
}.
End Order.

(** [orders.models.OrderItem] *)
Module OrderItem.
Record t := mk {
  id : Z;
  order : Z;
  product : option Z;
  product_name : string;
  product_price : Z;
  quantity : Z;
  eco_score : Z
}.
End OrderItem.

(** The tables the views touch.  [activities] is [accounts.UserActivity]:
    user and page name. *)
Module DB.
Record t := mk {
  carts : list Cart.t;
  cart_items : list CartItem.t;
  products : gmap Z Product.t;
  users : gmap Z User.t;
  orders : list Order.row;
  order_items : list OrderItem.t;
  activities : list (Z * string)
}.
End DB.

Inductive Level := WARNING | ERROR | SUCCESS | INFO.

(** What a request can change: the tables, the session, the queued
    messages and what was printed. *)
Record World := mkWorld {
  db : DB.t;
  session_key : option string;
  cart_session_key : option string;
  messages : list (Level * string);
  stdout : list string
}.

(** The request as the views read it.  [user] is the authenticated user's
    primary key; [new_session_key] and [uuid4_hex] are the random values a
    call to [session.create()] and to [uuid.uuid4().hex] would return. *)
Module Request.
Record t := mk {
  user : option Z;
  method : string;
  POST : gmap string string;
  HTTP_REFERER : option string;
  new_session_key : string;
  uuid4_hex : string
}.
End Request.

Inductive Exn :=
| Http404
| MultipleObjectsReturned
| DoesNotExist
| InvalidOperation
| IntegrityError
| ValueError
| OverflowError.

(** The template context of the checkout page. *)
Record CheckoutContext := mkContext {
  ctx_subtotal : Dec.t;
  ctx_tax : Dec.t;
  ctx_shipping : Dec.t;
  ctx_total : Dec.t;
  ctx_eco_points : Z
}.

Inductive Response :=
| Redirect (to : string) (arg : option string)
| RedirectLogin
| Render (template : string) (ctx : CheckoutContext).

(** ** Computations over the world that may raise *)

Definition M (A : Type) : Type := World -> (Exn + A) * World.

#[global] Instance M_ret : MRet M := fun A a w => (inr a, w).
#[global] Instance M_bind : MBind M := fun A B f m w =>
  match m w with
  | (inl e, w') => (inl e, w')
  | (inr a, w') => f a w'
  end.

#[global] Instance M_fmap : FMap M := fun A B f m w =>
  match m w with
  | (inl e, w') => (inl e, w')
  | (inr a, w') => (inr (f a), w')
  end.

Definition raise {A} (e : Exn) : M A := fun w => (inl e, w).
Definition gets {A} (f : DB.t -> A) : M A := fun w => (inr (f (db w)), w).
Definition or_raise {A} (e : Exn) (o : option A) : M A :=
  match o with Some a => mret a | None => raise e end.

Definition set_db (d : DB.t) (w : World) : World :=
  mkWorld d (session_key w) (cart_session_key w) (messages w) (stdout w).
Definition modify (f : DB.t -> DB.t) : M unit := fun w => (inr tt, set_db (f (db w)) w).

Definition add_message (l : Level) (s : string) : M unit := fun w =>
  (inr tt, mkWorld (db w) (session_key w) (cart_session_key w)
                   (messages w ++ [(l, s)]) (stdout w)).
Definition print (s : string) : M unit := fun w =>
  (inr tt, mkWorld (db w) (session_key w) (cart_session_key w)
                   (messages w) (stdout w ++ [s])).

(** [with transaction.atomic():] an exception leaving the block undoes the
    writes to the tables made inside it. *)
Definition atomic {A} (body : M A) : M A := fun w =>
  match body w with
  | (inl e, w') => (inl e, set_db (db w) w')
  | r => r
  end.

(** The primary key given to a new row. *)
Definition next_pk (ids : list Z) : Z := 1 + foldr Z.max 0 ids.

(** ** Queries and properties of the models *)

(** [cart.items.all()] *)
Definition items_all (d : DB.t) (cart : Cart.t) : list CartItem.t :=
  filter (fun i => CartItem.cart i = Cart.id cart) (DB.cart_items d).

(** [.select_related('product')]: each row joined with its product. *)
Definition select_related_product (d : DB.t) (l : list CartItem.t)
  : list (CartItem.t * Product.t) :=
  omap (fun i => (fun p => (i, p)) <$> DB.products d !! CartItem.product i) l.

(** [CartItem.subtotal]; the product is fetched when the attribute is read. *)
Definition subtotal (d : DB.t) (i : CartItem.t) : option Dec.t :=
  p ← DB.products d !! CartItem.product i;
  Some (Dec.mul (Product.price_dec p) (Dec.of_int (CartItem.quantity i))).

Definition eco_points_of (d : DB.t) (i : CartItem.t) : option Z :=
  p ← DB.products d !! CartItem.product i;
  Some (Product.eco_score p * CartItem.quantity i).

(** [Cart.total_items], [Cart.total_price], [Cart.total_eco_points] *)
Definition total_items (cart : Cart.t) : M Z :=
  gets (fun d => Py.sum_int (CartItem.quantity <$> items_all d cart)).

Definition total_price (cart : Cart.t) : M Dec.t :=
  d ← gets id;
  or_raise DoesNotExist (Py.sum_dec <$> mapM (subtotal d) (items_all d cart)).

Definition total_eco_points (cart : Cart.t) : M Z :=
  d ← gets id;
  or_raise DoesNotExist (Py.sum_int <$> mapM (eco_points_of d) (items_all d cart)).

(** [for x in l: body] *)
Fixpoint for_each {A} (body : A -> M unit) (l : list A) : M unit :=
  match l with
  | [] => mret tt
  | x :: l' => body x;; for_each body l'
  end.

(** The shipping fee and the tax as both branches of [checkout_view] write
    them. *)
Definition tax_of (subtotal : Dec.t) : Dec.t := Dec.mul subtotal Dec.d0_13.
Definition shipping_of (subtotal : Dec.t) : Dec.t :=
  if Dec.ltb subtotal (Dec.of_int 50) then Dec.d5_00 else Dec.d0_00.

(** [Decimal(str(points * 0.01))] *)
Definition co2_of_points (points : Z) : M Dec.t :=
  match Float.of_int points with
  | S754_infinity _ => raise OverflowError
  | x => or_raise InvalidOperation (Float.to_decimal (Float.mul x Float.lit_0_01))
  end.

(** ** Views *)

Section Views.

(** [CheckoutForm(request.POST)]: the cleaned fields when [is_valid()]. *)
Variable clean_checkout_form : gmap string string -> option Order.shipping.
(** [django.utils.text.slugify] *)
Variable slugify : string -> string.
(** [core.emails.send_order_confirmation_email]: [Some msg] when the call
    raises an [Exception] whose text is [msg]. *)
Variable send_order_confirmation_email : Order.t -> DB.t -> option string.

(** [Cart.objects.get_or_create(...)] on the rows that match. *)
Definition get_or_create (matching : Cart.t -> bool) (new : Z -> Cart.t) : M Cart.t :=
  l ← gets (fun d => List.filter matching (DB.carts d));
  match l with
  | [] =>
      pk ← gets (fun d => next_pk (Cart.id <$> DB.carts d));
      modify (fun d => DB.mk (DB.carts d ++ [new pk]) (DB.cart_items d) (DB.products d)
                         (DB.users d) (DB.orders d) (DB.order_items d) (DB.activities d));;
      mret (new pk)
  | [c] => mret c
  | _ => raise MultipleObjectsReturned
  end.

Definition session_create (request : Request.t) : M string := fun w =>
  (inr (Request.new_session_key request),
   mkWorld (db w) (Some (Request.new_session_key request)) (cart_session_key w)
           (messages w) (stdout w)).

Definition set_cart_session_key (k : string) : M unit := fun w =>
  (inr tt, mkWorld (db w) (session_key w) (Some k) (messages w) (stdout w)).

Definition get_or_create_cart (request : Request.t) : M Cart.t :=
  match Request.user request with
  | Some uid =>
      get_or_create (fun c => bool_decide (Cart.user c = Some uid))
                    (fun pk => Cart.mk pk (Some uid) None)
  | None =>
      sk ← (fun w => (inr (session_key w), w));
      k ← match sk with
          | Some k => if bool_decide (k = "") then session_create request else mret k
          | None => session_create request
          end;
      cart ← get_or_create (fun c => bool_decide (Cart.session_key c = Some k))
                           (fun pk => Cart.mk pk None (Some k));
      set_cart_session_key k;;
      mret cart
  end.

(** [cart_item.save()] and [cart_item.delete()] *)
Definition CartItem_save (i : CartItem.t) : M unit :=
  modify (fun d =>
    DB.mk (DB.carts d)
         ((fun r => if bool_decide (CartItem.id r = CartItem.id i) then i else r)
            <$> DB.cart_items d)
         (DB.products d) (DB.users d) (DB.orders d) (DB.order_items d) (DB.activities d)).

Definition CartItem_delete (i : CartItem.t) : M unit :=
  modify (fun d =>
    DB.mk (DB.carts d)
         (filter (fun r => CartItem.id r <> CartItem.id i) (DB.cart_items d))
         (DB.products d) (DB.users d) (DB.orders d) (DB.order_items d) (DB.activities d)).

(** [get_object_or_404(CartItem, id=item_id, cart=cart)] *)
Definition get_cart_item_or_404 (item_id : Z) (cart : Cart.t) : M CartItem.t :=
  l ← gets (fun d => filter (fun r => CartItem.id r = item_id /\
                                      CartItem.cart r = Cart.id cart) (DB.cart_items d));
  match l with
  | [] => raise Http404
  | [i] => mret i
  | _ => raise MultipleObjectsReturned
  end.

(** [cart_item.product] *)
Definition product_of (i : CartItem.t) : M Product.t :=
  d ← gets id; or_raise DoesNotExist (DB.products d !! CartItem.product i).

(** [int(request.POST.get('quantity', 1))]; [None] is [ValueError]. *)
Definition posted_quantity (request : Request.t) : option Z :=
  match Request.POST request !! "quantity" with
  | Some s => Py.int s
  | None => Some 1
  end.

Definition add_to_cart (request : Request.t) (product_id : Z) : M Response :=
  d ← gets id;
  product ← or_raise Http404
    (p ← DB.products d !! product_id; if Product.is_active p then Some p else None);
  cart ← get_or_create_cart request;
  quantity ← or_raise ValueError (posted_quantity request);
  if Product.stock product <? quantity then
    add_message ERROR ("Sorry, only " +:+ pretty (Product.stock product)
                       +:+ " items available in stock!");;
    mret (Redirect "products:product_detail" (Some (Product.slug product)))
  else
    l ← gets (fun d => filter (fun r => CartItem.cart r = Cart.id cart /\
                                        CartItem.product r = product_id) (DB.cart_items d));
    match l with
    | [] =>
        pk ← gets (fun d => next_pk (CartItem.id <$> DB.cart_items d));
        modify (fun d =>
          DB.mk (DB.carts d) (DB.cart_items d ++ [CartItem.mk pk (Cart.id cart) product_id quantity])
               (DB.products d) (DB.users d) (DB.orders d) (DB.order_items d) (DB.activities d));;
        add_message SUCCESS (Product.name product +:+ " added to cart!")
    | [cart_item] =>
        CartItem_save (CartItem.with_quantity (CartItem.quantity cart_item + quantity) cart_item);;
        add_message SUCCESS ("Updated " +:+ Product.name product +:+ " quantity in cart!")
    | _ => raise MultipleObjectsReturned
    end;;
    mret (Redirect (default "products:product_list" (Request.HTTP_REFERER request)) None).

Definition update_cart (request : Request.t) (item_id : Z) : M Response :=
  cart ← get_or_create_cart request;
  cart_item ← get_cart_item_or_404 item_id cart;
  match Request.POST request !! "action" with
  | Some "increase" =>
      product ← product_of cart_item;
      if CartItem.quantity cart_item <? Product.stock product then
        CartItem_save (CartItem.with_quantity (CartItem.quantity cart_item + 1) cart_item);;
        add_message SUCCESS "Cart updated!"
      else add_message ERROR "Maximum stock reached!"
  | Some "decrease" =>
      if 1 <? CartItem.quantity cart_item then
        CartItem_save (CartItem.with_quantity (CartItem.quantity cart_item - 1) cart_item);;
        add_message SUCCESS "Cart updated!"
      else
        CartItem_delete cart_item;;
        add_message INFO "Item removed from cart!"
  | _ => mret tt
  end;;
  mret (Redirect "orders:cart" None).

Definition remove_from_cart (request : Request.t) (item_id : Z) : M Response :=
  cart ← get_or_create_cart request;
  cart_item ← get_cart_item_or_404 item_id cart;
  product ← product_of cart_item;
  CartItem_delete cart_item;;
  add_message SUCCESS (Product.name product +:+ " removed from cart!");;
  mret (Redirect "orders:cart" None).

(** [order.save()] of a new instance: each Decimal column is written
    through [format_number]; [order_number] is unique. *)
Definition Order_save (o : Order.t) : M Z :=
  cols ← or_raise InvalidOperation
    (a ← Dec.format_number 10 2 (Order.subtotal o);
     b ← Dec.format_number 10 2 (Order.tax o);
     c ← Dec.format_number 10 2 (Order.shipping_cost o);
     e ← Dec.format_number 10 2 (Order.total o);
     f ← Dec.format_number 10 2 (Order.co2_saved o);
     Some (a, b, c, e, f));
  let '(a, b, c, e, f) := cols in
  d ← gets id;
  if bool_decide (Order.order_number o ∈ Order.r_order_number <$> DB.orders d)
  then raise IntegrityError
  else
    let pk := next_pk (Order.id <$> DB.orders d) in
    modify (fun d =>
      DB.mk (DB.carts d) (DB.cart_items d) (DB.products d) (DB.users d)
           (DB.orders d ++ [Order.mk_row pk (Order.form o) (Order.user o)
                           (Order.order_number o) (Order.status o)
                           a b c e (Order.eco_points_earned o) f])
           (DB.order_items d) (DB.activities d));;
    mret pk.

(** [OrderItem.objects.create(...)] *)
Definition OrderItem_create (order_pk : Z) (product_pk : Z) (name : string)
    (price : Dec.t) (quantity eco_score : Z) : M unit :=
  cents ← or_raise InvalidOperation (Dec.format_number 10 2 price);
  modify (fun d =>
    DB.mk (DB.carts d) (DB.cart_items d) (DB.products d) (DB.users d) (DB.orders d)
         (DB.order_items d ++ [OrderItem.mk (next_pk (OrderItem.id <$> DB.order_items d))
                              order_pk (Some product_pk) name cents quantity eco_score])
         (DB.activities d)).

(** [Product.save()]: an empty slug is derived from the name, then the
    row of that primary key is written from the instance. *)
Definition Product_save (pk : Z) (p : Product.t) : M unit :=
  let p' := if bool_decide (Product.slug p = "")
            then Product.with_slug (slugify (Product.name p)) p else p in
  modify (fun d =>
    DB.mk (DB.carts d) (DB.cart_items d) (<[pk := p']> (DB.products d)) (DB.users d)
         (DB.orders d) (DB.order_items d) (DB.activities d)).

(** [user.save()] *)
Definition User_save (pk : Z) (eco_points total_orders : Z) (co2_saved : Dec.t) : M unit :=
  cents ← or_raise InvalidOperation (Dec.format_number 10 2 co2_saved);
  modify (fun d =>
    DB.mk (DB.carts d) (DB.cart_items d) (DB.products d)
         (<[pk := User.mk eco_points total_orders cents]> (DB.users d))
         (DB.orders d) (DB.order_items d) (DB.activities d)).

(** [track_user_activity(request, page)] for an authenticated user *)
Definition track_user_activity (uid : Z) (page : string) : M unit :=
  modify (fun d =>
    DB.mk (DB.carts d) (DB.cart_items d) (DB.products d) (DB.users d) (DB.orders d)
         (DB.order_items d) (DB.activities d ++ [(uid, page)])).

(** The instance the view fills in before [order.save()]: the form's
    fields, then the attributes assigned one by one.  Each read of
    [cart.total_price] and [cart.total_eco_points] queries the tables. *)
Definition new_order (request : Request.t) (uid : Z) (cart : Cart.t)
    (form : Order.shipping) : M Order.t :=
  let order_number := "ECO-" +:+ Py.upper (String.substring 0 8 (Request.uuid4_hex request)) in
  subtotal ← total_price cart;
  tax ← tax_of <$> total_price cart;
  shipping_cost ← shipping_of <$> total_price cart;
  let total := Dec.add (Dec.add subtotal tax) shipping_cost in
  eco_points_earned ← total_eco_points cart;
  co2_saved ← total_eco_points cart ≫= co2_of_points;
  mret (Order.mk form uid order_number "pending" subtotal tax shipping_cost
                 total eco_points_earned co2_saved).

(** The body of the [with transaction.atomic():] block. *)
Definition place_order (request : Request.t) (uid : Z) (user : User.t)
    (cart : Cart.t) (cart_items : list (CartItem.t * Product.t))
    (form : Order.shipping) : M Response :=
  order ← new_order request uid cart form;
  order_pk ← Order_save order;
  for_each (fun '(cart_item, product) =>
      OrderItem_create order_pk (CartItem.product cart_item) (Product.name product)
        (Product.price_dec product) (CartItem.quantity cart_item)
        (Product.eco_score product);;
      Product_save (CartItem.product cart_item)
        (Product.with_stock (Product.stock product - CartItem.quantity cart_item) product))
    cart_items;;
  User_save uid (User.eco_points user + Order.eco_points_earned order)
                (User.total_orders user + 1)
                (Dec.add (Dec.of_cents (User.co2_saved user)) (Order.co2_saved order));;
  modify (fun d =>
    DB.mk (DB.carts d)
         (filter (fun i => CartItem.cart i <> Cart.id cart) (DB.cart_items d))
         (DB.products d) (DB.users d) (DB.orders d) (DB.order_items d) (DB.activities d));;
  d ← gets id;
  match send_order_confirmation_email order d with
  | Some e => print ("Email sending failed: " +:+ e)
  | None => mret tt
  end;;
  add_message SUCCESS ("Order placed successfully! Order #" +:+ Order.order_number order
                       +:+ ". Check your email for confirmation.");;
  mret (Redirect "orders:order_confirmation" (Some (Order.order_number order))).

Definition checkout_view (request : Request.t) : M Response :=
  d0 ← gets id;
  match uid ← Request.user request; u ← DB.users d0 !! uid; Some (uid, u) with
  | None => mret RedirectLogin
  | Some (uid, user) =>
      cart ← get_or_create_cart request;
      cart_items ← gets (fun d => select_related_product d (items_all d cart));
      if bool_decide (cart_items = []) then
        add_message WARNING "Your cart is empty!";;
        mret (Redirect "products:product_list" None)
      else
        match List.find (fun '(item, product) =>
                           Product.stock product <? CartItem.quantity item) cart_items with
        | Some (item, product) =>
            add_message ERROR (Product.name product +:+ " is out of stock!");;
            mret (Redirect "orders:cart" None)
        | None =>
            placed ← (if bool_decide (Request.method request = "POST") then
                        match clean_checkout_form (Request.POST request) with
                        | Some form =>
                            Some <$> atomic (place_order request uid user cart cart_items form)
                        | None => mret None
                        end
                      else mret None);
            match placed with
            | Some response => mret response
            | None =>
                track_user_activity uid "Checkout";;
                subtotal ← total_price cart;
                let tax := tax_of subtotal in
                let shipping := shipping_of subtotal in
                let total := Dec.add (Dec.add subtotal tax) shipping in
                eco_points ← total_eco_points cart;
                mret (Render "orders/checkout.html"
                        (mkContext subtotal tax shipping total eco_points))
            end
        end
  end.

End Views.

(** * Notions used in the statements *)

(** The tables a step leaves alone. *)
Definition same_but_carts (d d' : DB.t) : Prop :=
  DB.cart_items d' = DB.cart_items d /\ DB.products d' = DB.products d /\
  DB.users d' = DB.users d /\ DB.orders d' = DB.orders d /\
  DB.order_items d' = DB.order_items d /\ DB.activities d' = DB.activities d.

(** The product row that [product.save()] writes for a cart line. *)
Definition saved_product (slugify : string -> string)
    (line : CartItem.t * Product.t) : Product.t :=
  let p := Product.with_stock (Product.stock line.2 - CartItem.quantity line.1) line.2 in
  if bool_decide (Product.slug p = "")
  then Product.with_slug (slugify (Product.name p)) p else p.

Definition loop_products (slugify : string -> string)
    (l : list (CartItem.t * Product.t)) (m : gmap Z Product.t) : gmap Z Product.t :=
  foldl (fun m line => <[CartItem.product line.1 := saved_product slugify line]> m) m l.

(** The order item created for a cart line when the table holds [ois]. *)
Definition new_order_item (order_pk : Z) (ois : list OrderItem.t)
    (line : CartItem.t * Product.t) : OrderItem.t :=
  OrderItem.mk (next_pk (OrderItem.id <$> ois)) order_pk
    (Some (CartItem.product line.1)) (Product.name line.2) (Product.price line.2)
    (CartItem.quantity line.1) (Product.eco_score line.2).

Definition loop_order_items (order_pk : Z)
    (l : list (CartItem.t * Product.t)) (ois : list OrderItem.t) : list OrderItem.t :=
  foldl (fun ois line => ois ++ [new_order_item order_pk ois line]) ois l.

Definition loop_body (slugify : string -> string) (order_pk : Z)
    : CartItem.t * Product.t -> M unit :=
  fun '(cart_item, product) =>
    OrderItem_create order_pk (CartItem.product cart_item) (Product.name product)
      (Product.price_dec product) (CartItem.quantity cart_item)
      (Product.eco_score product);;
    Product_save slugify (CartItem.product cart_item)
      (Product.with_stock (Product.stock product - CartItem.quantity cart_item) product).

(** The order number the view builds from [uuid.uuid4().hex]. *)
Definition order_number_of (request : Request.t) : string :=
  "ECO-" +:+ Py.upper (String.substring 0 8 (Request.uuid4_hex request)).

(** The tables after the transaction, from the tables before it, the order
    row written and the user row written. *)
Definition checkout_db (slugify : string -> string) (d : DB.t) (uid : Z)
    (cart : Cart.t) (lines : list (CartItem.t * Product.t))
    (row : Order.row) (user' : User.t) : DB.t :=
  DB.mk (DB.carts d)
        (filter (fun i => CartItem.cart i <> Cart.id cart) (DB.cart_items d))
        (loop_products slugify lines (DB.products d))
        (<[uid := user']> (DB.users d))
        (DB.orders d ++ [row])
        (loop_order_items (Order.id row) lines (DB.order_items d))
        (DB.activities d).

(** The stock check of [checkout_view] on a joined cart line. *)
Definition out_of_stock : CartItem.t * Product.t -> bool :=
  fun '(item, product) => Product.stock product <? CartItem.quantity item.

Definition line_cents (line : CartItem.t * Product.t) : Z :=
  Product.price line.2 * CartItem.quantity line.1.

Definition line_points (line : CartItem.t * Product.t) : Z :=
  Product.eco_score line.2 * CartItem.quantity line.1.

(** What the two-decimal columns keep of the pricing of a subtotal of [s]
    hundredths. *)
Definition tax_cents (s : Z) : Z := Dec.div_half_even (s * 13) 100.

Definition shipping_cents (s : Z) : Z := if s <? 5000 then 500 else 0.

(** The float expression of the view and its Decimal. *)
Definition co2_decimal (points : Z) : option Dec.t :=
  Float.to_decimal (Float.mul (Float.of_int points) Float.lit_0_01).

(** [unique_together = ['cart', 'product']] on [CartItem]. *)
Definition unique_together (d : DB.t) : Prop :=
  NoDup ((fun i => (CartItem.cart i, CartItem.product i)) <$> DB.cart_items d).

(** The stock of a product, 0 when there is no such product. *)
Definition stock_of (d : DB.t) (pk : Z) : Z :=
  from_option Product.stock 0 (DB.products d !! pk).

(** An order item that snapshots a cart line for the order [order_pk]. *)
Definition snapshot_of (order_pk : Z) (line : CartItem.t * Product.t)
    (oi : OrderItem.t) : Prop :=
  OrderItem.order oi = order_pk /\
  OrderItem.product oi = Some (CartItem.product line.1) /\
  OrderItem.quantity oi = CartItem.quantity line.1 /\
  OrderItem.product_name oi = Product.name line.2 /\
  OrderItem.product_price oi = Product.price line.2 /\
  OrderItem.eco_score oi = Product.eco_score line.2.

(** [other] is the outcome [quiet] up to what was printed: same result, same
    tables, same messages, same session; at most one more line on the output,
    the report of the failed e-mail. *)
Definition same_outcome {A} (quiet other : (Exn + A) * World) : Prop :=
  other.1 = quiet.1 /\
  db other.2 = db quiet.2 /\
  messages other.2 = messages quiet.2 /\
  session_key other.2 = session_key quiet.2 /\
  cart_session_key other.2 = cart_session_key quiet.2 /\
  (stdout other.2 = stdout quiet.2 \/
   exists msg, stdout other.2 = stdout quiet.2 ++ ["Email sending failed: " +:+ msg]).

(** The tables a rejected checkout must leave as they were. *)
Definition nothing_placed (d d' : DB.t) : Prop :=
  DB.orders d' = DB.orders d /\
  DB.order_items d' = DB.order_items d /\
  DB.products d' = DB.products d /\
  DB.users d' = DB.users d /\
  DB.cart_items d' = DB.cart_items d.

(** The same request with other form data. *)
Definition with_POST (post : gmap string string) (r : Request.t) : Request.t :=
  Request.mk (Request.user r) (Request.method r) post (Request.HTTP_REFERER r)
             (Request.new_session_key r) (Request.uuid4_hex r).

Definition with_cart_items (l : list CartItem.t) (d : DB.t) : DB.t :=
  DB.mk (DB.carts d) l (DB.products d) (DB.users d) (DB.orders d)
        (DB.order_items d) (DB.activities d).

Module Example.

Definition toothbrush : Product.t :=
  Product.mk "Bamboo Toothbrush" "bamboo-toothbrush" 1299 10 95 true.
Definition bottle : Product.t :=
  Product.mk "Steel Bottle" "steel-bottle" 2499 5 94 true.
Definition soap : Product.t :=
  Product.mk "Soap Bar" "soap-bar" 450 3 57 true.

Definition shopper : User.t := User.mk 10 0 150.

(** User 7 has cart 1 with two toothbrushes and one bottle. *)
Definition tables : DB.t :=
  DB.mk [Cart.mk 1 (Some 7) None]
        [CartItem.mk 1 1 1 2; CartItem.mk 2 1 2 1]
        (<[1 := toothbrush]> (<[2 := bottle]> (<[3 := soap]> ∅)))
        (<[7 := shopper]> ∅) [] [] [].

Definition world : World := mkWorld tables None None [] [].

(** The same with an empty cart, with three toothbrushes more than the stock
    has, and with one soap bar only. *)
Definition with_lines (l : list CartItem.t) : World :=
  mkWorld (with_cart_items l tables) None None [] [].
Definition world_empty : World := with_lines [].
Definition world_short : World := with_lines [CartItem.mk 1 1 2 1; CartItem.mk 2 1 1 13].
Definition world_soap : World := with_lines [CartItem.mk 1 1 3 1].

Definition post (fields : list (string * string)) : Request.t :=
  Request.mk (Some 7) "POST" (list_to_map fields) None "k3y" "0123abcd4567ef89".

Definition address : Order.shipping :=
  Order.mk_shipping "A. Shopper" "a@example.org" "555" "1 Main St" "Town" "CA" "A1A" "".

Definition clean (_ : gmap string string) : option Order.shipping := Some address.
Definition slugify (s : string) : string := s.
Definition mail_ok (_ : Order.t) (_ : DB.t) : option string := None.
Definition mail_down (_ : Order.t) (_ : DB.t) : option string := Some "connection refused".

Definition get : Request.t :=
  Request.mk (Some 7) "GET" ∅ None "k3y" "0123abcd4567ef89".

Definition cart1 : Cart.t := Cart.mk 1 (Some 7) None.

End Example.

(** Every cart item has a quantity of at least one. *)
Definition positive_quantities (d : DB.t) : Prop :=
  Forall (fun i => 1 <= CartItem.quantity i) (DB.cart_items d).

(** From tables that satisfy [P], the computation [m] either returns a value
    and tables that satisfy [Q], or raises with positive quantities. *)
Definition keeps {A} (P : DB.t -> Prop) (m : M A) (Q : A -> DB.t -> Prop) : Prop :=
  forall w, P (db w) ->
    match m w with
    | (inr a, w') => Q a (db w')
    | (inl _, w') => positive_quantities (db w')
    end.

(** * The other views and their callers *)

(** [OrderItem.subtotal]: the snapshotted price times the quantity. *)
Definition OrderItem_subtotal (oi : OrderItem.t) : Dec.t :=
  Dec.mul (Dec.of_cents (OrderItem.product_price oi)) (Dec.of_int (OrderItem.quantity oi)).

(** The template context of the cart page. *)
Record CartContext := mkCartContext {
  cart_ctx_cart : Cart.t;
  cart_ctx_items : list (CartItem.t * Product.t);
  cart_ctx_total_price : Dec.t;
  cart_ctx_total_items : Z;
  cart_ctx_total_eco_points : Z
}.

(** [cart_view]: the context it renders [orders/cart.html] with.  The
    queryset [cart_items] is read when the template is rendered. *)
Definition cart_view (request : Request.t) : M CartContext :=
  cart ← get_or_create_cart request;
  match Request.user request with
  | Some uid => track_user_activity uid "Shopping Cart"
  | None => mret tt
  end;;
  price ← total_price cart;
  items ← total_items cart;
  points ← total_eco_points cart;
  cart_items ← gets (fun d => select_related_product d (items_all d cart));
  mret (mkCartContext cart cart_items price items points).

(** What the order pages answer: the login redirect of [@login_required], or
    the page of an order with its items. *)
Inductive PageResponse :=
| PageLogin
| OrderPage (template : string) (order : Order.row) (order_items : list OrderItem.t).

(** [get_object_or_404(Order, order_number=order_number, user=request.user)] *)
Definition get_order_or_404 (order_number : string) (uid : Z) : M Order.row :=
  l ← gets (fun d => filter (fun o => Order.r_order_number o = order_number /\
                                      Order.r_user o = uid) (DB.orders d));
  match l with
  | [] => raise Http404
  | [o] => mret o
  | _ => raise MultipleObjectsReturned
  end.

(** [order.items.all()] *)
Definition order_items_all (d : DB.t) (o : Order.row) : list OrderItem.t :=
  filter (fun oi => OrderItem.order oi = Order.id o) (DB.order_items d).

Definition order_confirmation_view (request : Request.t) (order_number : string)
    : M PageResponse :=
  d0 ← gets id;
  match uid ← Request.user request; u ← DB.users d0 !! uid; Some (uid, u) with
  | None => mret PageLogin
  | Some (uid, _) =>
      order ← get_order_or_404 order_number uid;
      track_user_activity uid ("Order Confirmation: " +:+ order_number);;
      order_items ← gets (fun d => order_items_all d order);
      mret (OrderPage "orders/order_confirmation.html" order order_items)
  end.

Definition order_detail_view (request : Request.t) (order_number : string)
    : M PageResponse :=
  d0 ← gets id;
  match uid ← Request.user request; u ← DB.users d0 !! uid; Some (uid, u) with
  | None => mret PageLogin
  | Some (uid, _) =>
      order ← get_order_or_404 order_number uid;
      track_user_activity uid ("Order Detail: " +:+ order_number);;
      order_items ← gets (fun d => order_items_all d order);
      mret (OrderPage "orders/order_detail.html" order order_items)
  end.

(** [Cart.objects.get(...)] followed by [cart.total_items], with
    [Cart.DoesNotExist] caught: the body of both branches of [cart_count]. *)
Definition count_of (matching : Cart.t -> bool) : M Z :=
  l ← gets (fun d => List.filter matching (DB.carts d));
  match l with
  | [] => mret 0
  | [cart] => total_items cart
  | _ => raise MultipleObjectsReturned
  end.

(** [core.context_processors.cart_count]: the number shown on every page. *)
Definition cart_count (request : Request.t) : M Z :=
  match Request.user request with
  | Some uid => count_of (fun c => bool_decide (Cart.user c = Some uid))
  | None =>
      csk ← (fun w => (inr (cart_session_key w), w));
      match csk with
      | Some k => count_of (fun c => bool_decide (Cart.session_key c = Some k))
      | None => mret 0
      end
  end.

(** ** Notions for the further properties *)

(** Every run of [m] takes tables [d] to tables related to them by [R]. *)
Definition relates {A} (R : DB.t -> DB.t -> Prop) (m : M A) : Prop :=
  forall w r w', m w = (r, w') -> R (db w) (db w').

(** Primary keys of cart items are unique, and so are (cart, product)
    pairs. *)
Definition cart_items_wf (d : DB.t) : Prop :=
  NoDup (CartItem.id <$> DB.cart_items d) /\ unique_together d.

(** No product has a negative stock. *)
Definition stocks_nonneg (d : DB.t) : Prop :=
  map_Forall (fun _ p => 0 <= Product.stock p) (DB.products d).


(** Every order item belongs to an order of the table. *)
Definition order_items_have_orders (d : DB.t) : Prop :=
  forall oi, oi ∈ DB.order_items d -> OrderItem.order oi ∈ (Order.id <$> DB.orders d).

(** No cart line asks for more than its product has in stock. *)
Definition within_stock (d : DB.t) : Prop :=
  forall i p, i ∈ DB.cart_items d -> DB.products d !! CartItem.product i = Some p ->
              CartItem.quantity i <= Product.stock p.

(** The cart items after [cart_item.save()] of the row [i] with the quantity
    [q], and after [cart_item.delete()]. *)
Definition saved_items (q : Z) (i : CartItem.t) (l : list CartItem.t) : list CartItem.t :=
  (fun r => if bool_decide (CartItem.id r = CartItem.id i)
            then CartItem.with_quantity q i else r) <$> l.

Definition deleted_items (i : CartItem.t) (l : list CartItem.t) : list CartItem.t :=
  filter (fun r => CartItem.id r <> CartItem.id i) l.

(** The tables that are neither carts nor cart items are the same. *)
Definition cart_tables_only (d d' : DB.t) : Prop :=
  DB.products d' = DB.products d /\ DB.users d' = DB.users d /\
  DB.orders d' = DB.orders d /\ DB.order_items d' = DB.order_items d /\
  DB.activities d' = DB.activities d.

(** [p'] is the product [p] but for its stock, and for its slug when [p]
    had none: then it is the slug of its name. *)
Definition same_but_stock (slugify : string -> string) (p p' : Product.t) : Prop :=
  Product.name p' = Product.name p /\ Product.price p' = Product.price p /\
  Product.eco_score p' = Product.eco_score p /\
  Product.is_active p' = Product.is_active p /\
  (Product.slug p' = Product.slug p \/
   Product.slug p = "" /\ Product.slug p' = slugify (Product.name p)).

(** The number of items in a cart, as [Cart.total_items] counts them. *)
Definition count_in (d : DB.t) (cart : Cart.t) : Z :=
  Py.sum_int (CartItem.quantity <$> items_all d cart).

(** More of the worked scenario: the world after the checkout of user 7; a
    second user, 8, who has an account but no cart; a guest without a
    session; and the requests of the cart page's buttons. *)
Module Scenario.

Definition placed : World :=
  (checkout_view Example.clean Example.slugify Example.mail_ok
                 (Example.post []) Example.world).2.

(** User 7 puts a soap bar in the cart and the next checkout draws the
    same [uuid4] again. *)
Definition refilled : World :=
  set_db (with_cart_items [CartItem.mk 3 1 3 1] (db placed)) placed.

Definition with_visitor (w : World) : World :=
  set_db (DB.mk (DB.carts (db w)) (DB.cart_items (db w)) (DB.products (db w))
                (<[8 := User.mk 0 0 0]> (DB.users (db w))) (DB.orders (db w))
                (DB.order_items (db w)) (DB.activities (db w))) w.

Definition visitor (fields : list (string * string)) : Request.t :=
  Request.mk (Some 8) "POST" (list_to_map fields) None "k3y8" "89ab0123cdef4567".

Definition guest : Request.t :=
  Request.mk None "POST" (list_to_map [("quantity", "2")]) None "s3ss10n" "4567ef890123abcd".

Definition placed_row : Order.row :=
  Order.mk_row 1 Example.address 7 "ECO-0123ABCD" "pending" 5097 663 0 5760 284 284.

Definition placed_items : list OrderItem.t :=
  [OrderItem.mk 1 1 (Some 1) "Bamboo Toothbrush" 1299 2 95;
   OrderItem.mk 2 1 (Some 2) "Steel Bottle" 2499 1 94].

End Scenario.

(** * Properties *)

(** ** Reasoning about computations *)

Lemma bind_inr {A B} (m : M A) (f : A -> M B) w b w' :
  (m ≫= f) w = (inr b, w') ->
  exists a w1, m w = (inr a, w1) /\ f a w1 = (inr b, w').
Proof.
  unfold mbind, M_bind. destruct (m w) as [[e|a] w1]; intros H; [discriminate|].
  eauto.
Qed.

Lemma fmap_inr {A B} (f : A -> B) (m : M A) w b w' :
  (f <$> m) w = (inr b, w') ->
  exists a, m w = (inr a, w') /\ b = f a.
Proof.
  unfold fmap, M_fmap. destruct (m w) as [[e|a] w1]; intros H; [discriminate|].
  inversion H; subst. eauto.
Qed.

Lemma or_raise_inr {A} e (o : option A) w a w' :
  or_raise e o w = (inr a, w') -> o = Some a /\ w' = w.
Proof.
  destruct o; cbn; unfold mret, M_ret, raise; intros H; inversion H; auto.
Qed.

Lemma gets_eq {A} (f : DB.t -> A) w : gets f w = (inr (f (db w)), w).
Proof. reflexivity. Qed.

Lemma bind_gets {A B} (f : DB.t -> A) (k : A -> M B) w :
  (gets f ≫= k) w = k (f (db w)) w.
Proof. reflexivity. Qed.

Lemma bind_eq {A B} (m : M A) (k : A -> M B) w a w1 :
  m w = (inr a, w1) -> (m ≫= k) w = k a w1.
Proof. unfold mbind, M_bind. intros ->. reflexivity. Qed.

Lemma bind_or_raise {A B} e (a : A) (k : A -> M B) w :
  (or_raise e (Some a) ≫= k) w = k a w.
Proof. reflexivity. Qed.

Lemma atomic_inr {A} (body : M A) w a w' :
  atomic body w = (inr a, w') -> body w = (inr a, w').
Proof.
  unfold atomic. destruct (body w) as [[e|a'] w1]; intros H; [discriminate|exact H].
Qed.

Lemma same_but_carts_refl d : same_but_carts d d.
Proof. repeat split. Qed.

Lemma get_or_create_frame matching new w r w1 :
  get_or_create matching new w = (r, w1) ->
  same_but_carts (db w) (db w1) /\ messages w1 = messages w /\ stdout w1 = stdout w /\
  session_key w1 = session_key w /\
  forall c, r = inr c ->
    (db w1 = db w /\ List.filter matching (DB.carts (db w)) = [c]) \/
    (List.filter matching (DB.carts (db w)) = [] /\
     DB.carts (db w1) = DB.carts (db w) ++ [c]).
Proof.
  unfold get_or_create, mbind, M_bind, gets, modify, mret, M_ret, raise.
  destruct (List.filter matching (DB.carts (db w))) as [|c [|c' l]] eqn:E;
    intros H; inversion H; subst; cbn;
    (split; [apply same_but_carts_refl || (repeat split)|]);
    repeat split; intros c0 Hc; inversion Hc; subst; auto.
Qed.

Lemma get_or_create_cart_frame request w r w1 :
  get_or_create_cart request w = (r, w1) ->
  same_but_carts (db w) (db w1) /\ messages w1 = messages w /\ stdout w1 = stdout w.
Proof.
  unfold get_or_create_cart. destruct (Request.user request) as [uid|].
  - intros H. apply get_or_create_frame in H. tauto.
  - unfold mbind at 1, M_bind at 1. cbn.
    assert (forall k w0 r0 w2,
      (get_or_create (fun c => bool_decide (Cart.session_key c = Some k))
                     (fun pk => Cart.mk pk None (Some k)) ≫=
       (fun cart => set_cart_session_key k ;; mret cart)) w0 = (r0, w2) ->
      same_but_carts (db w0) (db w2) /\ messages w2 = messages w0 /\ stdout w2 = stdout w0)
      as Hk.
    { intros k w0 r0 w2. unfold mbind, M_bind.
      destruct (get_or_create _ _ w0) as [[e|c] w3] eqn:E;
        apply get_or_create_frame in E as (Hs & Hm & Ho & _);
        cbn; intros H; inversion H; subst; cbn; auto. }
    unfold mbind, M_bind.
    destruct (session_key w) as [k|].
    + destruct (bool_decide (k = "")).
      * cbn. intros H. apply Hk in H. exact H.
      * cbn. intros H. apply Hk in H. exact H.
    + cbn. intros H. apply Hk in H. exact H.
Qed.

Lemma items_all_same d d' cart :
  DB.cart_items d' = DB.cart_items d -> items_all d' cart = items_all d cart.
Proof. unfold items_all. intros ->. reflexivity. Qed.

Lemma select_related_same d d' l :
  DB.products d' = DB.products d ->
  select_related_product d' l = select_related_product d l.
Proof. unfold select_related_product. intros ->. reflexivity. Qed.

Lemma select_related_elem d l item product :
  item ∈ l -> DB.products d !! CartItem.product item = Some product ->
  (item, product) ∈ select_related_product d l.
Proof.
  intros Hin Hp. unfold select_related_product.
  apply list_elem_of_omap. exists item. split; [exact Hin|].
  rewrite Hp. reflexivity.
Qed.

Lemma find_exists {A} (f : A -> bool) l x :
  x ∈ l -> f x = true -> exists y, List.find f l = Some y /\ f y = true.
Proof.
  induction 1 as [x l|x y l Hin IH]; cbn; intros Hf.
  - rewrite Hf. eauto.
  - destruct (f y) eqn:E; eauto.
Qed.

Lemma checkout_rejects_empty clean slugify send request w uid user cart w1 :
  Request.user request = Some uid ->
  DB.users (db w) !! uid = Some user ->
  get_or_create_cart request w = (inr cart, w1) ->
  items_all (db w) cart = [] ->
  exists w',
    checkout_view clean slugify send request w
      = (inr (Redirect "products:product_list" None), w') /\
    messages w' = messages w ++ [(WARNING, "Your cart is empty!")] /\
    db w' = db w1.
Proof.
  intros Hu Huser Hcart Hnil.
  destruct (get_or_create_cart_frame _ _ _ _ Hcart)
    as ((Hci & Hp & Hus & Ho & Hoi & Ha) & Hm & Hout).
  unfold checkout_view.
  rewrite bind_gets. unfold id.
  rewrite Hu. cbn [mbind option_bind]. rewrite Huser. cbn [mbind option_bind].
  rewrite (bind_eq _ _ _ _ _ Hcart), bind_gets.
  rewrite (items_all_same (db w) (db w1)) by exact Hci.
  rewrite Hnil. cbn.
  eexists. split; [reflexivity|]. cbn. rewrite Hm. auto.
Qed.

Lemma checkout_rejects_short clean slugify send request w uid user cart w1 :
  Request.user request = Some uid ->
  DB.users (db w) !! uid = Some user ->
  get_or_create_cart request w = (inr cart, w1) ->
  (exists item product,
     item ∈ items_all (db w) cart /\
     DB.products (db w) !! CartItem.product item = Some product /\
     Product.stock product < CartItem.quantity item) ->
  exists text w',
    checkout_view clean slugify send request w = (inr (Redirect "orders:cart" None), w') /\
    messages w' = messages w ++ [(ERROR, text)] /\
    db w' = db w1.
Proof.
  intros Hu Huser Hcart (item & product & Hin & Hprod & Hlt).
  destruct (get_or_create_cart_frame _ _ _ _ Hcart)
    as ((Hci & Hp & Hus & Ho & Hoi & Ha) & Hm & Hout).
  unfold checkout_view.
  rewrite bind_gets. unfold id.
  rewrite Hu. cbn [mbind option_bind]. rewrite Huser. cbn [mbind option_bind].
  rewrite (bind_eq _ _ _ _ _ Hcart), bind_gets.
  rewrite (items_all_same (db w) (db w1)) by exact Hci.
  rewrite (select_related_same (db w) (db w1)) by exact Hp.
  pose proof (select_related_elem _ _ _ _ Hin Hprod) as Hjoin.
  destruct (bool_decide (select_related_product (db w) (items_all (db w) cart) = []))
    eqn:Hempty.
  { apply bool_decide_eq_true in Hempty. rewrite Hempty in Hjoin. inversion Hjoin. }
  destruct (find_exists
              (fun '(item, product) =>
                 Product.stock product <? CartItem.quantity item)
              _ (item, product) Hjoin) as ([item' product'] & -> & _).
  { apply Z.ltb_lt. exact Hlt. }
  exists (Product.name product' +:+ " is out of stock!").
  eexists. split; [reflexivity|]. cbn. rewrite Hm. auto.
Qed.

(** ** The checkout transaction, step by step *)

Lemma total_price_inr cart w tp w' :
  total_price cart w = (inr tp, w') ->
  w' = w /\ exists subs, mapM (subtotal (db w)) (items_all (db w) cart) = Some subs /\
                         tp = Py.sum_dec subs.
Proof.
  unfold total_price. rewrite bind_gets. unfold id. intros H.
  apply or_raise_inr in H as [H ->]. split; [reflexivity|].
  destruct (mapM _ _) as [subs|]; [|discriminate].
  exists subs. cbn in H. inversion H. auto.
Qed.

Lemma total_eco_points_inr cart w n w' :
  total_eco_points cart w = (inr n, w') ->
  w' = w /\ exists eps, mapM (eco_points_of (db w)) (items_all (db w) cart) = Some eps /\
                        n = Py.sum_int eps.
Proof.
  unfold total_eco_points. rewrite bind_gets. unfold id. intros H.
  apply or_raise_inr in H as [H ->]. split; [reflexivity|].
  destruct (mapM _ _) as [eps|]; [|discriminate].
  exists eps. cbn in H. inversion H. auto.
Qed.

Lemma co2_of_points_inr n w c w' :
  co2_of_points n w = (inr c, w') ->
  w' = w /\ Float.to_decimal (Float.mul (Float.of_int n) Float.lit_0_01) = Some c.
Proof.
  unfold co2_of_points.
  destruct (Float.of_int n) eqn:E; try (intros H; apply or_raise_inr in H; tauto).
  unfold raise. discriminate.
Qed.

Lemma format_number_cents c c' :
  Dec.format_number 10 2 (Dec.of_cents c) = Some c' -> c' = c.
Proof.
  unfold Dec.format_number, Dec.quantize, Dec.of_cents, Dec.coef_at. cbn.
  destruct (_ <? _); [|discriminate]. intros H; inversion H. lia.
Qed.

Lemma loop_body_inr slugify order_pk line w w' :
  loop_body slugify order_pk line w = (inr tt, w') ->
  w' = set_db (DB.mk (DB.carts (db w)) (DB.cart_items (db w))
                 (<[CartItem.product line.1 := saved_product slugify line]> (DB.products (db w)))
                 (DB.users (db w)) (DB.orders (db w))
                 (DB.order_items (db w) ++ [new_order_item order_pk (DB.order_items (db w)) line])
                 (DB.activities (db w))) w.
Proof.
  destruct line as [ci p]. unfold loop_body. intros H.
  apply bind_inr in H as ([] & w1 & H1 & H).
  unfold OrderItem_create in H1.
  apply bind_inr in H1 as (cents & w2 & Hc & H1).
  apply or_raise_inr in Hc as [Hc ->].
  apply format_number_cents in Hc. subst cents.
  unfold modify in H1. inversion H1; subst w1; clear H1.
  unfold Product_save, modify in H. inversion H; subst w'; clear H.
  reflexivity.
Qed.

Lemma for_each_loop_inr slugify order_pk l : forall w w',
  for_each (loop_body slugify order_pk) l w = (inr tt, w') ->
  w' = set_db (DB.mk (DB.carts (db w)) (DB.cart_items (db w))
                 (loop_products slugify l (DB.products (db w)))
                 (DB.users (db w)) (DB.orders (db w))
                 (loop_order_items order_pk l (DB.order_items (db w)))
                 (DB.activities (db w))) w.
Proof.
  induction l as [|line l IH]; intros w w'; cbn [for_each].
  - unfold mret, M_ret. intros H; inversion H; subst.
    destruct w' as [[] ? ? ? ?]; reflexivity.
  - intros H. apply bind_inr in H as ([] & w1 & H1 & H).
    apply loop_body_inr in H1. apply IH in H. subst w1. rewrite H. reflexivity.
Qed.

Lemma new_order_inr request uid cart form w order w' :
  new_order request uid cart form w = (inr order, w') ->
  w' = w /\
  exists subs eps co2,
    mapM (subtotal (db w)) (items_all (db w) cart) = Some subs /\
    mapM (eco_points_of (db w)) (items_all (db w) cart) = Some eps /\
    Float.to_decimal (Float.mul (Float.of_int (Py.sum_int eps)) Float.lit_0_01) = Some co2 /\
    order = Order.mk form uid (order_number_of request) "pending"
              (Py.sum_dec subs) (tax_of (Py.sum_dec subs)) (shipping_of (Py.sum_dec subs))
              (Dec.add (Dec.add (Py.sum_dec subs) (tax_of (Py.sum_dec subs)))
                       (shipping_of (Py.sum_dec subs)))
              (Py.sum_int eps) co2.
Proof.
  unfold new_order. intros H.
  apply bind_inr in H as (tp & w1 & H1 & H).
  apply total_price_inr in H1 as (-> & subs & Hsubs & ->).
  apply bind_inr in H as (tax & w1 & H1 & H).
  apply fmap_inr in H1 as (tp & H1 & ->).
  apply total_price_inr in H1 as (-> & subs' & Hsubs' & ->).
  rewrite Hsubs in Hsubs'. inversion Hsubs'; subst subs'; clear Hsubs'.
  apply bind_inr in H as (ship & w1 & H1 & H).
  apply fmap_inr in H1 as (tp & H1 & ->).
  apply total_price_inr in H1 as (-> & subs' & Hsubs' & ->).
  rewrite Hsubs in Hsubs'. inversion Hsubs'; subst subs'; clear Hsubs'.
  apply bind_inr in H as (ep & w1 & H1 & H).
  apply total_eco_points_inr in H1 as (-> & eps & Heps & ->).
  apply bind_inr in H as (co2 & w1 & H1 & H).
  apply bind_inr in H1 as (ep & w2 & H1 & H2).
  apply total_eco_points_inr in H1 as (-> & eps' & Heps' & ->).
  rewrite Heps in Heps'. inversion Heps'; subst eps'; clear Heps'.
  apply co2_of_points_inr in H2 as (-> & Hco2).
  unfold mret, M_ret in H. inversion H; subst. split; [reflexivity|].
  exists subs, eps, co2. auto.
Qed.

Lemma place_order_inr slugify send request uid user cart lines form w r w' :
  place_order slugify send request uid user cart lines form w = (inr r, w') ->
  exists order a b c e f g d,
    new_order request uid cart form w = (inr order, w) /\
    stdout w' = stdout w ++ match send order d with
                            | Some msg => ["Email sending failed: " +:+ msg]
                            | None => []
                            end /\
    Dec.format_number 10 2 (Order.subtotal order) = Some a /\
    Dec.format_number 10 2 (Order.tax order) = Some b /\
    Dec.format_number 10 2 (Order.shipping_cost order) = Some c /\
    Dec.format_number 10 2 (Order.total order) = Some e /\
    Dec.format_number 10 2 (Order.co2_saved order) = Some f /\
    Dec.format_number 10 2
      (Dec.add (Dec.of_cents (User.co2_saved user)) (Order.co2_saved order)) = Some g /\
    (Order.order_number order ∉ Order.r_order_number <$> DB.orders (db w)) /\
    db w' = checkout_db slugify (db w) uid cart lines
              (Order.mk_row (next_pk (Order.id <$> DB.orders (db w))) (Order.form order)
                 (Order.user order) (Order.order_number order) (Order.status order)
                 a b c e (Order.eco_points_earned order) f)
              (User.mk (User.eco_points user + Order.eco_points_earned order)
                       (User.total_orders user + 1) g) /\
    r = Redirect "orders:order_confirmation" (Some (Order.order_number order)).
Proof.
  unfold place_order. intros H.
  apply bind_inr in H as (order & w1 & Horder & H).
  pose proof (new_order_inr _ _ _ _ _ _ _ Horder) as [-> _].
  apply bind_inr in H as (pk & w1 & H1 & H).
  unfold Order_save in H1.
  apply bind_inr in H1 as (cols & w2 & Hcols & H1).
  apply or_raise_inr in Hcols as [Hcols ->].
  destruct (Dec.format_number 10 2 (Order.subtotal order)) as [a|] eqn:Ea; [|discriminate].
  destruct (Dec.format_number 10 2 (Order.tax order)) as [b|] eqn:Eb; [|discriminate].
  destruct (Dec.format_number 10 2 (Order.shipping_cost order)) as [c|] eqn:Ec;
    [|discriminate].
  destruct (Dec.format_number 10 2 (Order.total order)) as [e|] eqn:Ee; [|discriminate].
  destruct (Dec.format_number 10 2 (Order.co2_saved order)) as [f|] eqn:Ef; [|discriminate].
  cbn in Hcols. inversion Hcols; subst cols; clear Hcols.
  rewrite bind_gets in H1. unfold id in H1.
  destruct (bool_decide _) eqn:Hfresh in H1; [discriminate|].
  apply bool_decide_eq_false in Hfresh.
  apply bind_inr in H1 as ([] & w2 & Hins & H1).
  unfold modify in Hins. inversion Hins; subst w2; clear Hins.
  unfold mret, M_ret in H1. inversion H1; subst pk w1; clear H1.
  apply bind_inr in H as ([] & w1 & Hloop & H).
  apply (for_each_loop_inr slugify) in Hloop. subst w1.
  apply bind_inr in H as ([] & w1 & Huser & H).
  unfold User_save in Huser.
  apply bind_inr in Huser as (g & w2 & Hg & Huser).
  apply or_raise_inr in Hg as [Hg ->].
  unfold modify in Huser. inversion Huser; subst w1; clear Huser.
  apply bind_inr in H as ([] & w1 & Hclear & H).
  unfold modify in Hclear. inversion Hclear; subst w1; clear Hclear.
  rewrite bind_gets in H.
  apply bind_inr in H as ([] & w1 & Hmail & H).
  apply bind_inr in H as ([] & w2 & Hmsg & H).
  unfold mret, M_ret in H. inversion H; subst r w2; clear H.
  unfold add_message in Hmsg. inversion Hmsg; clear Hmsg.
  assert (db w1 = db (set_db
    (checkout_db slugify (db w) uid cart lines
       (Order.mk_row (next_pk (Order.id <$> DB.orders (db w))) (Order.form order)
          (Order.user order) (Order.order_number order) (Order.status order)
          a b c e (Order.eco_points_earned order) f)
       (User.mk (User.eco_points user + Order.eco_points_earned order)
                (User.total_orders user + 1) g)) w)) as Hdb.
  { destruct (send _ _) as [msg|]; unfold print, mret, M_ret in Hmail;
      inversion Hmail; reflexivity. }
  match type of Hmail with
  | context [send order ?d] => exists order, a, b, c, e, f, g, d
  end.
  split_and!; try assumption; try reflexivity.
  cbn [stdout].
  destruct (send _ _) as [msg|]; unfold print, mret, M_ret in Hmail;
    inversion Hmail; cbn; [reflexivity|symmetry; apply app_nil_r].
Qed.

Lemma checkout_success_inv clean slugify send request w n w' :
  checkout_view clean slugify send request w
    = (inr (Redirect "orders:order_confirmation" (Some n)), w') ->
  exists uid user cart w1 form,
    Request.user request = Some uid /\
    DB.users (db w) !! uid = Some user /\
    get_or_create_cart request w = (inr cart, w1) /\
    select_related_product (db w1) (items_all (db w1) cart) <> [] /\
    List.find out_of_stock (select_related_product (db w1) (items_all (db w1) cart)) = None /\
    Request.method request = "POST" /\
    clean (Request.POST request) = Some form /\
    place_order slugify send request uid user cart
      (select_related_product (db w1) (items_all (db w1) cart)) form w1
      = (inr (Redirect "orders:order_confirmation" (Some n)), w').
Proof.
  unfold checkout_view. rewrite bind_gets. unfold id.
  destruct (Request.user request) as [uid|] eqn:Hu; cbn [mbind option_bind];
    [|discriminate].
  destruct (DB.users (db w) !! uid) as [user|] eqn:Huser; cbn [mbind option_bind];
    [|discriminate].
  intros H. apply bind_inr in H as (cart & w1 & Hcart & H).
  rewrite bind_gets in H.
  destruct (bool_decide _) eqn:Hne in H; [discriminate|].
  apply bool_decide_eq_false in Hne.
  change (fun '(item, product) => Product.stock product <? CartItem.quantity item)
    with out_of_stock in H.
  destruct (List.find out_of_stock _) as [[item product]|] eqn:Hfind in H; [discriminate|].
  apply bind_inr in H as (placed & w2 & Hplaced & H).
  destruct (bool_decide (Request.method request = "POST")) eqn:Hpost in Hplaced.
  2:{ unfold mret, M_ret in Hplaced. inversion Hplaced; subst placed w2.
      apply bind_inr in H as ([] & w3 & _ & H).
      apply bind_inr in H as (tp & w4 & _ & H).
      apply bind_inr in H as (ep & w5 & _ & H). discriminate. }
  apply bool_decide_eq_true in Hpost.
  destruct (clean (Request.POST request)) as [form|] eqn:Hform.
  2:{ unfold mret, M_ret in Hplaced. inversion Hplaced; subst placed w2.
      apply bind_inr in H as ([] & w3 & _ & H).
      apply bind_inr in H as (tp & w4 & _ & H).
      apply bind_inr in H as (ep & w5 & _ & H). discriminate. }
  apply fmap_inr in Hplaced as (r & Hatomic & ->).
  apply atomic_inr in Hatomic.
  unfold mret, M_ret in H. inversion H; subst r w2; clear H.
  exists uid, user, cart, w1, form. split_and!; auto.
Qed.

(** ** Decimal arithmetic of the pricing snapshot *)

(** Evaluates the operations on integer literals that unfolding the decimal
    operations leaves behind. *)
Ltac is_Zlit t :=
  match t with Z0 => idtac | Zpos _ => idtac | Zneg _ => idtac end.

Ltac zeval_bin f a b :=
  is_Zlit a; is_Zlit b;
  let v := eval vm_compute in (f a b) in change (f a b) with v.

Ltac zeval :=
  repeat match goal with
  | |- context [Z.opp ?a] =>
      is_Zlit a; let v := eval vm_compute in (Z.opp a) in change (Z.opp a) with v
  | |- context [Z.min ?a ?b] => zeval_bin Z.min a b
  | |- context [Z.add ?a ?b] => zeval_bin Z.add a b
  | |- context [Z.sub ?a ?b] => zeval_bin Z.sub a b
  | |- context [Z.pow ?a ?b] => zeval_bin Z.pow a b
  | |- context [Z.leb ?a ?b] => zeval_bin Z.leb a b
  end.

Lemma div_half_even_spec c p :
  0 < p ->
  2 * Z.abs (c - Dec.div_half_even c p * p) <= p /\
  (2 * Z.abs (c - Dec.div_half_even c p * p) = p -> Z.even (Dec.div_half_even c p) = true).
Proof.
  intros Hp. unfold Dec.div_half_even.
  pose proof (Z.div_mod c p ltac:(lia)) as Hdm.
  pose proof (Z.mod_pos_bound c p Hp) as Hb.
  destruct (2 * (c mod p) ?= p) eqn:E.
  - apply Z.compare_eq in E.
    destruct (Z.even (c / p)) eqn:Ev; split; try lia; intros _.
    + exact Ev.
    + rewrite Z.even_add, Ev. reflexivity.
  - rewrite Z.compare_lt_iff in E. split; lia.
  - rewrite Z.compare_gt_iff in E. split; lia.
Qed.

(** Adding whole hundredths commutes with rounding when the whole part is
    even or the rounding is not a tie. *)
Lemma div_half_even_add c k :
  (2 * (c mod 100) = 100 -> Z.even k = true) ->
  Dec.div_half_even (c + 100 * k) 100 = k + Dec.div_half_even c 100.
Proof.
  intros Hk. unfold Dec.div_half_even.
  replace (c + 100 * k) with (c + k * 100) by lia.
  rewrite Z.div_add, Z.mod_add by lia.
  destruct (2 * (c mod 100) ?= 100) eqn:E; try lia.
  apply Z.compare_eq in E. specialize (Hk E).
  rewrite Z.even_add, Hk. destruct (Z.even (c / 100)); cbn; lia.
Qed.

(** The tax is a tie only for subtotals that end in fifty hundredths. *)
Lemma tax_tie_even s ship :
  ship = 0 \/ ship = 500 ->
  2 * ((s * 13) mod 100) = 100 -> Z.even (s + ship) = true.
Proof.
  intros Hship Htie.
  pose proof (Z.div_mod (s * 13) 100 ltac:(lia)) as Hdm.
  assert (Z.even s = true) as Hs.
  { destruct (Z.even s) eqn:Ev; [reflexivity|].
    exfalso.
    assert (Z.odd s = true) as Ho by (rewrite <- Z.negb_even, Ev; reflexivity).
    apply Z.odd_spec in Ho as [h Hh]. lia. }
  rewrite Z.even_add, Hs. destruct Hship; subst; reflexivity.
Qed.

Lemma sum_dec_cents_from (cs : list Z) : forall acc,
  fold_left Dec.add ((fun c => Dec.mk c (-2)) <$> cs) (Dec.mk acc (-2))
  = Dec.mk (fold_left Z.add cs acc) (-2).
Proof.
  induction cs as [|c cs IH]; intros acc; cbn; [reflexivity|].
  rewrite <- IH. f_equal. unfold Dec.add, Dec.coef_at. cbn.
  rewrite Z.min_id, Z.sub_diag, Z.pow_0_r. f_equal. lia.
Qed.

Lemma sum_dec_cents (cs : list Z) :
  cs <> [] ->
  Py.sum_dec ((fun c => Dec.mk c (-2)) <$> cs) = Dec.mk (Py.sum_int cs) (-2).
Proof.
  destruct cs as [|c cs]; [congruence|]. intros _.
  unfold Py.sum_dec, Py.sum_int. cbn [fmap list_fmap fold_left].
  replace (Dec.add (Dec.of_int 0) (Dec.mk c (-2))) with (Dec.mk (0 + c) (-2)).
  - apply sum_dec_cents_from.
  - unfold Dec.add, Dec.coef_at, Dec.of_int. cbn.
    change (0 `min` (-2)) with (-2). f_equal. lia.
Qed.

Lemma mapM_subtotal_lines d items subs :
  mapM (subtotal d) items = Some subs ->
  (select_related_product d items).*1 = items /\
  subs = (fun line => Dec.mk (line_cents line) (-2)) <$> select_related_product d items.
Proof.
  rewrite mapM_Some. induction 1 as [|i sub items subs Hi _ [IH1 IH2]].
  - split; reflexivity.
  - unfold subtotal in Hi. unfold select_related_product in *.
    destruct (DB.products d !! CartItem.product i) as [p|] eqn:Ep; [|discriminate].
    cbn in Hi. inversion Hi; subst sub; clear Hi.
    cbn [omap list_omap]. rewrite Ep. cbn [fmap option_fmap option_map list_fmap].
    split.
    + cbn. f_equal. exact IH1.
    + cbn. rewrite <- IH2. f_equal.
Qed.

Lemma mapM_eco_lines d items eps :
  mapM (eco_points_of d) items = Some eps ->
  eps = line_points <$> select_related_product d items.
Proof.
  rewrite mapM_Some. induction 1 as [|i ep items eps Hi _ IH].
  - reflexivity.
  - unfold eco_points_of in Hi. unfold select_related_product in *.
    destruct (DB.products d !! CartItem.product i) as [p|] eqn:Ep; [|discriminate].
    cbn in Hi. inversion Hi; subst ep; clear Hi.
    cbn [omap list_omap]. rewrite Ep. cbn. f_equal. exact IH.
Qed.

Lemma shipping_of_cents s :
  shipping_of (Dec.mk s (-2)) = Dec.of_cents (shipping_cents s).
Proof.
  unfold shipping_of, shipping_cents, Dec.ltb, Dec.compare, Dec.coef_at, Dec.of_int.
  cbn [Dec.coef Dec.exp].
  change ((-2) `min` 0) with (-2).
  change (10 ^ (-2 - -2)) with 1. change (50 * 10 ^ (0 - -2)) with 5000.
  rewrite Z.mul_1_r. unfold Z.ltb.
  destruct (s ?= 5000); reflexivity.
Qed.

Lemma format_tax s b :
  Dec.format_number 10 2 (tax_of (Dec.mk s (-2))) = Some b -> b = tax_cents s.
Proof.
  unfold Dec.format_number, tax_of, Dec.mul, Dec.quantize, tax_cents.
  cbn [Dec.coef Dec.exp Dec.d0_13]. zeval. cbn [Dec.coef Dec.exp]. zeval.
  destruct (_ <? _); [|discriminate]. intros H; inversion H. reflexivity.
Qed.

Lemma format_total s e :
  Dec.format_number 10 2
    (Dec.add (Dec.add (Dec.mk s (-2)) (tax_of (Dec.mk s (-2)))) (shipping_of (Dec.mk s (-2))))
  = Some e ->
  e = s + tax_cents s + shipping_cents s.
Proof.
  rewrite shipping_of_cents.
  unfold Dec.format_number, tax_of, Dec.mul, Dec.add, Dec.quantize, Dec.coef_at,
    Dec.of_cents, tax_cents. cbn [Dec.coef Dec.exp Dec.d0_13]. zeval.
  cbn [Dec.coef Dec.exp]. zeval.
  destruct (_ <? _); [|discriminate]. intros H; inversion H; clear H.
  replace ((s * 100 + s * 13 * 1) * 1 + shipping_cents s * 100)
    with (s * 13 + 100 * (s + shipping_cents s)) by lia.
  rewrite div_half_even_add; [lia|].
  apply tax_tie_even. unfold shipping_cents. destruct (s <? 5000); auto.
Qed.

(** ** A successful checkout, in one statement *)

Lemma checkout_success_spec clean slugify send request w n w' :
  checkout_view clean slugify send request w
    = (inr (Redirect "orders:order_confirmation" (Some n)), w') ->
  exists uid user cart w1 form co2 f g,
    let lines := select_related_product (db w1) (items_all (db w1) cart) in
    let s := Py.sum_int (line_cents <$> lines) in
    let points := Py.sum_int (line_points <$> lines) in
    Request.user request = Some uid /\
    DB.users (db w) !! uid = Some user /\
    get_or_create_cart request w = (inr cart, w1) /\
    lines.*1 = items_all (db w1) cart /\
    lines <> [] /\
    List.find out_of_stock lines = None /\
    Request.method request = "POST" /\
    clean (Request.POST request) = Some form /\
    n = order_number_of request /\
    (n ∉ Order.r_order_number <$> DB.orders (db w1)) /\
    total_price cart w1 = (inr (Dec.of_cents s), w1) /\
    total_eco_points cart w1 = (inr points, w1) /\
    co2_decimal points = Some co2 /\
    new_order request uid cart form w1
      = (inr (Order.mk form uid n "pending" (Dec.of_cents s) (tax_of (Dec.of_cents s))
                (shipping_of (Dec.of_cents s))
                (Dec.add (Dec.add (Dec.of_cents s) (tax_of (Dec.of_cents s)))
                         (shipping_of (Dec.of_cents s)))
                points co2), w1) /\
    Dec.format_number 10 2 co2 = Some f /\
    Dec.format_number 10 2 (Dec.add (Dec.of_cents (User.co2_saved user)) co2) = Some g /\
    db w' = checkout_db slugify (db w1) uid cart lines
              (Order.mk_row (next_pk (Order.id <$> DB.orders (db w1))) form uid n "pending"
                 s (tax_cents s) (shipping_cents s)
                 (s + tax_cents s + shipping_cents s) points f)
              (User.mk (User.eco_points user + points) (User.total_orders user + 1) g).
Proof.
  intros H.
  apply checkout_success_inv in H
    as (uid & user & cart & w1 & form & Hu & Huser & Hcart & Hne & Hfind & Hpost & Hform & H).
  apply place_order_inr in H
    as (order & a & b & c & e & f & g & d & Horder & _ & Ha & Hb & Hc & He & Hf & Hg
        & Hfresh & Hdb & Hr).
  pose proof (new_order_inr _ _ _ _ _ _ _ Horder)
    as (_ & subs & eps & co2 & Hsubs & Heps & Hco2 & Heq).
  assert (total_price cart w1 = (inr (Py.sum_dec subs), w1)) as Htp.
  { unfold total_price. rewrite bind_gets. unfold id. rewrite Hsubs. reflexivity. }
  assert (total_eco_points cart w1 = (inr (Py.sum_int eps), w1)) as Hep.
  { unfold total_eco_points. rewrite bind_gets. unfold id. rewrite Heps. reflexivity. }
  apply mapM_subtotal_lines in Hsubs as [Hfst ->].
  apply mapM_eco_lines in Heps. subst eps.
  set (lines := select_related_product (db w1) (items_all (db w1) cart)) in *.
  assert (Py.sum_dec ((fun line => Dec.mk (line_cents line) (-2)) <$> lines)
          = Dec.of_cents (Py.sum_int (line_cents <$> lines))) as Hsum.
  { unfold Dec.of_cents. rewrite <- sum_dec_cents.
    - rewrite <- list_fmap_compose. reflexivity.
    - destruct lines; [congruence|discriminate]. }
  rewrite Hsum in Heq, Htp. subst order.
  cbn [Order.subtotal Order.tax Order.shipping_cost Order.total Order.co2_saved
       Order.form Order.user Order.order_number Order.status Order.eco_points_earned] in *.
  inversion Hr; subst n; clear Hr.
  apply (format_number_cents _ a) in Ha.
  apply format_tax in Hb. apply format_total in He.
  unfold Dec.of_cents in Hc. rewrite shipping_of_cents in Hc.
  apply format_number_cents in Hc.
  subst a b c e.
  exists uid, user, cart, w1, form, co2, f, g. cbn zeta.
  split_and!; auto.
Qed.

Lemma checkout_db_orders slugify d uid cart lines row user' :
  DB.orders (checkout_db slugify d uid cart lines row user') = DB.orders d ++ [row].
Proof. reflexivity. Qed.

(** C2: the order row created by a successful checkout keeps, in its
    two-decimal tax column, the subtotal times 0.13 rounded to two decimal
    places: it is [round(subtotal * Decimal('0.13'), 2)], that is, the
    hundredth nearest to thirteen percent of the subtotal, the even one on a
    tie. *)
Theorem checkout_tax_is_rounded_rate clean slugify send request w n w' :
  checkout_view clean slugify send request w
    = (inr (Redirect "orders:order_confirmation" (Some n)), w') ->
  exists row,
    DB.orders (db w') = DB.orders (db w) ++ [row] /\
    Order.r_order_number row = n /\
    Dec.of_cents (Order.r_tax row)
      = Dec.round2 (Dec.mul (Dec.of_cents (Order.r_subtotal row)) Dec.d0_13) /\
    2 * Z.abs (13 * Order.r_subtotal row - 100 * Order.r_tax row) <= 100 /\
    (2 * Z.abs (13 * Order.r_subtotal row - 100 * Order.r_tax row) = 100 ->
     Z.even (Order.r_tax row) = true).
Proof.
  intros H.
  apply checkout_success_spec in H
    as (uid & user & cart & w1 & form & co2 & f & g & H). cbn zeta in H.
  destruct H as (_ & _ & Hcart & _ & _ & _ & _ & _ & Hn & _ & _ & _ & _ & _ & _ & _ & Hdb).
  apply get_or_create_cart_frame in Hcart as ((_ & _ & _ & Ho & _) & _).
  set (s := Py.sum_int _) in Hdb.
  eexists. rewrite Hdb, checkout_db_orders, Ho. split; [reflexivity|].
  cbn [Order.r_order_number Order.r_tax Order.r_subtotal].
  split; [reflexivity|].
  pose proof (div_half_even_spec (s * 13) 100 ltac:(lia)) as [Hnear Htie].
  unfold tax_cents. split_and!.
  - unfold Dec.round2, Dec.quantize, Dec.mul, Dec.of_cents.
    cbn [Dec.coef Dec.exp Dec.d0_13]. zeval. cbn [Dec.coef Dec.exp]. zeval.
    reflexivity.
  - replace (13 * s - 100 * Dec.div_half_even (s * 13) 100)
      with (s * 13 - Dec.div_half_even (s * 13) 100 * 100) by lia.
    exact Hnear.
  - replace (13 * s - 100 * Dec.div_half_even (s * 13) 100)
      with (s * 13 - Dec.div_half_even (s * 13) 100 * 100) by lia.
    exact Htie.
Qed.

Lemma ltb_cents_50 s : Dec.ltb (Dec.of_cents s) (Dec.of_int 50) = (s <? 5000).
Proof.
  unfold Dec.ltb, Dec.compare, Dec.coef_at, Dec.of_cents, Dec.of_int.
  cbn [Dec.coef Dec.exp]. zeval. rewrite Z.mul_1_r. reflexivity.
Qed.

Lemma checkout_render_inv clean slugify send request w template ctx w' :
  checkout_view clean slugify send request w = (inr (Render template ctx), w') ->
  exists cart w1 w2,
    get_or_create_cart request w = (inr cart, w1) /\
    total_price cart w2 = (inr (ctx_subtotal ctx), w2) /\
    ctx_tax ctx = tax_of (ctx_subtotal ctx) /\
    ctx_shipping ctx = shipping_of (ctx_subtotal ctx) /\
    ctx_total ctx = Dec.add (Dec.add (ctx_subtotal ctx) (ctx_tax ctx)) (ctx_shipping ctx).
Proof.
  unfold checkout_view. rewrite bind_gets. unfold id.
  destruct (Request.user request) as [uid|]; cbn [mbind option_bind]; [|discriminate].
  destruct (DB.users (db w) !! uid) as [user|]; cbn [mbind option_bind]; [|discriminate].
  intros H. apply bind_inr in H as (cart & w1 & Hcart & H).
  rewrite bind_gets in H.
  destruct (bool_decide _) in H; [discriminate|].
  destruct (List.find _ _) as [[item product]|] in H; [discriminate|].
  apply bind_inr in H as (placed & w2 & Hplaced & H).
  destruct placed as [response|].
  - exfalso.
    destruct (bool_decide (Request.method request = "POST")) in Hplaced;
      [|discriminate].
    destruct (clean (Request.POST request)) as [form|]; [|discriminate].
    apply fmap_inr in Hplaced as (r & Hatomic & Hr). inversion Hr; subst r.
    apply atomic_inr in Hatomic.
    apply place_order_inr in Hatomic
      as (? & ? & ? & ? & ? & ? & ? & ? & _ & _ & _ & _ & _ & _ & _ & _ & _ & _ & Hresp).
    unfold mret, M_ret in H. inversion H; subst. discriminate.
  - apply bind_inr in H as ([] & w3 & _ & H).
    apply bind_inr in H as (tp & w4 & Htp & H).
    pose proof (total_price_inr _ _ _ _ Htp) as [-> _].
    apply bind_inr in H as (ep & w5 & _ & H).
    unfold mret, M_ret in H. inversion H; subst; clear H. cbn.
    exists cart, w1, w3. auto.
Qed.

(** C4: the shipping fee computed from a cart total is 0.00 when the total is
    at least 50 and 5.00 when it is below, both on the checkout page and in
    the order a successful checkout creates; the created order row has its
    subtotal equal to the cart total, and its total equal to subtotal plus tax
    plus shipping cost. *)
Theorem checkout_shipping_and_total clean slugify send request w w' :
  (forall template ctx,
     checkout_view clean slugify send request w = (inr (Render template ctx), w') ->
     (Dec.ltb (ctx_subtotal ctx) (Dec.of_int 50) = false -> ctx_shipping ctx = Dec.d0_00) /\
     (Dec.ltb (ctx_subtotal ctx) (Dec.of_int 50) = true -> ctx_shipping ctx = Dec.d5_00) /\
     ctx_total ctx = Dec.add (Dec.add (ctx_subtotal ctx) (ctx_tax ctx)) (ctx_shipping ctx)) /\
  (forall n,
     checkout_view clean slugify send request w
       = (inr (Redirect "orders:order_confirmation" (Some n)), w') ->
     exists cart w1 total_price_ row,
       get_or_create_cart request w = (inr cart, w1) /\
       total_price cart w1 = (inr total_price_, w1) /\
       DB.orders (db w') = DB.orders (db w) ++ [row] /\
       Dec.of_cents (Order.r_subtotal row) = total_price_ /\
       (Dec.ltb total_price_ (Dec.of_int 50) = false -> Order.r_shipping_cost row = 0) /\
       (Dec.ltb total_price_ (Dec.of_int 50) = true -> Order.r_shipping_cost row = 500) /\
       Order.r_total row
         = Order.r_subtotal row + Order.r_tax row + Order.r_shipping_cost row).
Proof.
  split.
  - intros template ctx H.
    apply checkout_render_inv in H as (cart & w1 & w2 & _ & _ & _ & Hship & Htotal).
    split_and!; [| |exact Htotal]; rewrite Hship; unfold shipping_of.
    + intros ->. reflexivity.
    + intros ->. reflexivity.
  - intros n H.
    apply checkout_success_spec in H
      as (uid & user & cart & w1 & form & co2 & f & g & H). cbn zeta in H.
    destruct H as (_ & _ & Hcart & _ & _ & _ & _ & _ & _ & _ & Htp & _ & _ & _ & _ & _ & Hdb).
    pose proof (get_or_create_cart_frame _ _ _ _ Hcart) as ((_ & _ & _ & Ho & _) & _).
    set (s := Py.sum_int _) in *.
    exists cart, w1, (Dec.of_cents s). eexists.
    rewrite Hdb, checkout_db_orders, Ho.
    split; [exact Hcart|]. split; [exact Htp|]. split; [reflexivity|].
    cbn [Order.r_subtotal Order.r_tax Order.r_shipping_cost Order.r_total].
    rewrite ltb_cents_50. unfold shipping_cents.
    split_and!; try reflexivity; intros ->; reflexivity.
Qed.

Lemma checkout_db_users slugify d uid cart lines row user' :
  DB.users (checkout_db slugify d uid cart lines row user') = <[uid := user']> (DB.users d).
Proof. reflexivity. Qed.

(** C6: after a successful checkout the purchasing user's [eco_points] is the
    value before plus the sum, over the cart lines, of the product's current
    [eco_score] times the line's quantity, and [total_orders] has grown by
    one. *)
Theorem checkout_credits_loyalty clean slugify send request w n w' :
  checkout_view clean slugify send request w
    = (inr (Redirect "orders:order_confirmation" (Some n)), w') ->
  exists uid user user' cart w1,
    Request.user request = Some uid /\
    get_or_create_cart request w = (inr cart, w1) /\
    DB.users (db w) !! uid = Some user /\
    DB.users (db w') !! uid = Some user' /\
    User.eco_points user'
      = User.eco_points user
        + Py.sum_int ((fun line => Product.eco_score line.2 * CartItem.quantity line.1)
                        <$> select_related_product (db w) (items_all (db w) cart)) /\
    total_eco_points cart w
      = (inr (Py.sum_int ((fun line => Product.eco_score line.2 * CartItem.quantity line.1)
                            <$> select_related_product (db w) (items_all (db w) cart))), w) /\
    User.total_orders user' = User.total_orders user + 1.
Proof.
  intros H.
  apply checkout_success_spec in H
    as (uid & user & cart & w1 & form & co2 & f & g & H). cbn zeta in H.
  destruct H as (Hu & Huser & Hcart & _ & _ & _ & _ & _ & _ & _ & _ & Hep & _ & _ & _ & _ & Hdb).
  pose proof (get_or_create_cart_frame _ _ _ _ Hcart)
    as ((Hci & Hp & Hus & _) & _).
  rewrite (items_all_same (db w) (db w1)) in * by exact Hci.
  rewrite (select_related_same (db w) (db w1)) in * by exact Hp.
  eexists uid, user, _, cart, w1.
  rewrite Hdb, checkout_db_users, lookup_insert_eq.
  split_and!; try reflexivity; try assumption.
  unfold total_eco_points in *. rewrite bind_gets in *. unfold id in *.
  rewrite (items_all_same (db w) (db w1)) in Hep by exact Hci.
  assert (mapM (eco_points_of (db w1)) (items_all (db w) cart)
          = mapM (eco_points_of (db w)) (items_all (db w) cart)) as Hm.
  { apply mapM_ext. intros i. unfold eco_points_of. rewrite Hp. reflexivity. }
  rewrite Hm in Hep.
  destruct (mapM _ _) as [eps|]; cbn in *; [|discriminate].
  unfold mret, M_ret in *. inversion Hep as [Heq]. unfold line_points.
  rewrite Heq. reflexivity.
Qed.

(** ** Stock and order items *)

Lemma NoDup_fmap_eq {A B} `{EqDecision B} (f : A -> B) (l : list A) x y :
  NoDup (f <$> l) -> x ∈ l -> y ∈ l -> f x = f y -> x = y.
Proof.
  induction l as [|a l IH]; cbn; intros Hnd Hx Hy Hf.
  - inversion Hx.
  - apply NoDup_cons in Hnd as [Hnotin Hnd].
    apply elem_of_cons in Hx as [->|Hx]; apply elem_of_cons in Hy as [->|Hy]; auto.
    + exfalso. apply Hnotin. rewrite Hf. apply list_elem_of_fmap. eauto.
    + exfalso. apply Hnotin. rewrite <- Hf. apply list_elem_of_fmap. eauto.
Qed.

Lemma items_all_NoDup d cart :
  unique_together d -> NoDup (CartItem.product <$> items_all d cart).
Proof.
  intros Hu. unfold unique_together in Hu.
  apply NoDup_fmap_2_strong.
  - intros x y Hx Hy Hp. unfold items_all in Hx, Hy.
    apply list_elem_of_filter in Hx as [Hcx Hx].
    apply list_elem_of_filter in Hy as [Hcy Hy].
    apply (NoDup_fmap_eq _ _ x y Hu Hx Hy). congruence.
  - apply NoDup_filter. eapply NoDup_fmap_1. exact Hu.
Qed.

Lemma select_related_elem_inv d items item product :
  (item, product) ∈ select_related_product d items ->
  item ∈ items /\ DB.products d !! CartItem.product item = Some product.
Proof.
  unfold select_related_product. intros H.
  apply list_elem_of_omap in H as (i & Hi & H).
  destruct (DB.products d !! CartItem.product i) as [p|] eqn:E; [|discriminate].
  cbn in H. inversion H; subst. auto.
Qed.

Lemma saved_product_stock slugify line :
  Product.stock (saved_product slugify line)
  = Product.stock line.2 - CartItem.quantity line.1.
Proof. unfold saved_product. destruct (bool_decide _); reflexivity. Qed.

Lemma loop_products_app slugify l1 l2 m :
  loop_products slugify (l1 ++ l2) m = loop_products slugify l2 (loop_products slugify l1 m).
Proof. unfold loop_products. apply foldl_app. Qed.

Lemma loop_products_other slugify lines m pk :
  pk ∉ (fun line : CartItem.t * Product.t => CartItem.product line.1) <$> lines ->
  loop_products slugify lines m !! pk = m !! pk.
Proof.
  revert m. induction lines as [|line lines IH]; intros m Hpk; [reflexivity|].
  cbn in Hpk. apply not_elem_of_cons in Hpk as [Hne Hpk].
  change (loop_products slugify (line :: lines) m)
    with (loop_products slugify lines
            (<[CartItem.product line.1 := saved_product slugify line]> m)).
  rewrite IH by exact Hpk. apply lookup_insert_ne. congruence.
Qed.

Lemma loop_products_line slugify lines m line :
  NoDup ((fun line : CartItem.t * Product.t => CartItem.product line.1) <$> lines) ->
  line ∈ lines ->
  loop_products slugify lines m !! CartItem.product line.1
  = Some (saved_product slugify line).
Proof.
  revert m. induction lines as [|l0 lines IH]; intros m Hnd Hin; [inversion Hin|].
  cbn in Hnd. apply NoDup_cons in Hnd as [Hnotin Hnd].
  change (loop_products slugify (l0 :: lines) m)
    with (loop_products slugify lines
            (<[CartItem.product l0.1 := saved_product slugify l0]> m)).
  apply elem_of_cons in Hin as [->|Hin].
  - rewrite loop_products_other by exact Hnotin. apply lookup_insert_eq.
  - apply IH; assumption.
Qed.

Lemma loop_order_items_spec order_pk lines : forall ois,
  exists news,
    loop_order_items order_pk lines ois = ois ++ news /\
    Forall2 (snapshot_of order_pk) lines news.
Proof.
  induction lines as [|line lines IH]; intros ois.
  - exists []. split; [symmetry; apply app_nil_r|constructor].
  - destruct (IH (ois ++ [new_order_item order_pk ois line])) as (news & Heq & Hall).
    exists (new_order_item order_pk ois line :: news). split.
    + change (loop_order_items order_pk (line :: lines) ois)
        with (loop_order_items order_pk lines (ois ++ [new_order_item order_pk ois line])).
      rewrite Heq, <- app_assoc. reflexivity.
    + constructor; [|exact Hall]. repeat split.
Qed.

Lemma get_or_create_cart_elem request w cart w1 :
  get_or_create_cart request w = (inr cart, w1) -> cart ∈ DB.carts (db w1).
Proof.
  assert (forall matching new w0 c w2,
            get_or_create matching new w0 = (inr c, w2) -> c ∈ DB.carts (db w2)) as Hgc.
  { intros matching new w0 c w2 H.
    apply get_or_create_frame in H as (_ & _ & _ & _ & H).
    destruct (H c eq_refl) as [[-> Hf]|[_ ->]].
    - apply list_elem_of_In. eapply (proj1 (filter_In matching c _)).
      rewrite Hf. left. reflexivity.
    - apply elem_of_app. right. apply list_elem_of_singleton. reflexivity. }
  unfold get_or_create_cart. destruct (Request.user request) as [uid|].
  - apply Hgc.
  - intros H. apply bind_inr in H as (sk & w2 & _ & H).
    apply bind_inr in H as (k & w3 & _ & H).
    apply bind_inr in H as (c & w4 & Hc & H).
    apply bind_inr in H as ([] & w5 & Hset & H).
    unfold mret, M_ret in H. inversion H; subst; clear H.
    unfold set_cart_session_key in Hset. inversion Hset; subst; clear Hset. cbn.
    eapply Hgc. exact Hc.
Qed.

Lemma cleared_cart_has_no_items (pk : Z) (l : list CartItem.t) :
  filter (fun i => CartItem.cart i = pk) (filter (fun i => CartItem.cart i <> pk) l) = [].
Proof.
  induction l as [|i l IH]; [reflexivity|].
  rewrite (filter_cons (fun i => CartItem.cart i <> pk)).
  destruct (decide (CartItem.cart i <> pk)) as [Hd|Hd]; [|exact IH].
  rewrite filter_cons. destruct (decide (CartItem.cart i = pk)); [tauto|exact IH].
Qed.

(** C3: a successful checkout adds exactly one order row and, for each cart
    line in order, one order item of that order with the line's product and
    quantity; each purchased product's stock goes down by the quantity on its
    line and no other product changes, so the purchased quantities add up to
    the total decrease in stock; afterwards the cart has no items and the cart
    row is still there. *)
Theorem checkout_creates_order_and_moves_stock clean slugify send request w n w' :
  unique_together (db w) ->
  checkout_view clean slugify send request w
    = (inr (Redirect "orders:order_confirmation" (Some n)), w') ->
  exists cart w1 row new_items,
    get_or_create_cart request w = (inr cart, w1) /\
    DB.orders (db w') = DB.orders (db w) ++ [row] /\
    Order.r_order_number row = n /\
    DB.order_items (db w') = DB.order_items (db w) ++ new_items /\
    Forall2 (fun item oi =>
               OrderItem.order oi = Order.id row /\
               OrderItem.product oi = Some (CartItem.product item) /\
               OrderItem.quantity oi = CartItem.quantity item)
            (items_all (db w) cart) new_items /\
    (forall item, item ∈ items_all (db w) cart ->
       exists p p',
         DB.products (db w) !! CartItem.product item = Some p /\
         DB.products (db w') !! CartItem.product item = Some p' /\
         Product.stock p' = Product.stock p - CartItem.quantity item) /\
    (forall pk, pk ∉ CartItem.product <$> items_all (db w) cart ->
       DB.products (db w') !! pk = DB.products (db w) !! pk) /\
    Py.sum_int (CartItem.quantity <$> items_all (db w) cart)
      = Py.sum_int ((fun item => stock_of (db w) (CartItem.product item)
                                 - stock_of (db w') (CartItem.product item))
                      <$> items_all (db w) cart) /\
    items_all (db w) cart <> [] /\
    items_all (db w') cart = [] /\
    cart ∈ DB.carts (db w').
Proof.
  intros Hunique H.
  apply checkout_success_spec in H
    as (uid & user & cart & w1 & form & co2 & f & g & H). cbn zeta in H.
  destruct H as (_ & _ & Hcart & Hfst & Hne & _ & _ & _ & Hn & _ & _ & _ & _ & _ & _ & _ & Hdb).
  pose proof (get_or_create_cart_frame _ _ _ _ Hcart)
    as ((Hci & Hp & Hus & Ho & Hoi & _) & _).
  pose proof (get_or_create_cart_elem _ _ _ _ Hcart) as Hcart_in.
  rewrite (items_all_same (db w) (db w1)) in * by exact Hci.
  rewrite (select_related_same (db w) (db w1)) in * by exact Hp.
  set (items := items_all (db w) cart) in *.
  set (lines := select_related_product (db w) items) in *.
  assert (NoDup ((fun line : CartItem.t * Product.t => CartItem.product line.1) <$> lines))
    as Hnd.
  { pose proof (items_all_NoDup (db w) cart Hunique) as Hnd. fold items in Hnd.
    rewrite <- Hfst in Hnd. rewrite <- list_fmap_compose in Hnd. exact Hnd. }
  assert (forall item, item ∈ items ->
            exists p, (item, p) ∈ lines /\ DB.products (db w) !! CartItem.product item = Some p)
    as Hline.
  { intros item Hin. rewrite <- Hfst in Hin.
    apply list_elem_of_fmap in Hin as ([i p] & -> & Hin).
    exists p. split; [exact Hin|].
    apply select_related_elem_inv in Hin. tauto. }
  assert (forall item, item ∈ items ->
            exists p p',
              DB.products (db w) !! CartItem.product item = Some p /\
              DB.products (db w') !! CartItem.product item = Some p' /\
              Product.stock p' = Product.stock p - CartItem.quantity item) as Hstock.
  { intros item Hin. destruct (Hline item Hin) as (p & Hlp & Hprod).
    exists p, (saved_product slugify (item, p)). split; [exact Hprod|].
    rewrite Hdb. cbn [checkout_db DB.products]. rewrite Hp. split.
    - apply (loop_products_line slugify lines _ (item, p) Hnd Hlp).
    - apply saved_product_stock. }
  assert (items <> []) as Hitems.
  { intros Hnil. apply Hne. unfold lines. rewrite Hnil. reflexivity. }
  destruct (loop_order_items_spec (next_pk (Order.id <$> DB.orders (db w1))) lines
              (DB.order_items (db w1))) as (news & Hnews & Hsnap).
  eexists cart, w1, _, news.
  fold items.
  rewrite Hdb. cbn [checkout_db DB.orders DB.order_items DB.products DB.carts DB.cart_items].
  rewrite Ho, Hoi in *. cbn [Order.id Order.r_order_number].
  split_and!.
  - exact Hcart.
  - reflexivity.
  - reflexivity.
  - exact Hnews.
  - rewrite <- Hfst. apply Forall2_fmap_l.
    eapply Forall2_impl; [exact Hsnap|].
    intros line oi (H1 & H2 & H3 & _). cbn. auto.
  - intros item Hin. destruct (Hstock item Hin) as (p & p' & H1 & H2 & H3).
    exists p, p'. rewrite Hdb in H2. auto.
  - intros pk Hpk. rewrite Hp. apply loop_products_other.
    rewrite <- Hfst in Hpk. rewrite <- list_fmap_compose in Hpk. exact Hpk.
  - f_equal. apply Forall_fmap_ext_1. apply Forall_forall. intros item Hin.
    destruct (Hstock item Hin) as (p & p' & H1 & H2 & H3).
    rewrite Hdb in H2. cbn [checkout_db DB.products] in H2.
    unfold stock_of. cbn [checkout_db DB.products]. rewrite H1, H2. cbn. lia.
  - exact Hitems.
  - unfold items_all. cbn [checkout_db DB.cart_items].
    apply cleared_cart_has_no_items.
  - exact Hcart_in.
Qed.

(** ** The confirmation e-mail *)

Lemma same_outcome_refl {A} (r : (Exn + A) * World) : same_outcome r r.
Proof. unfold same_outcome. split_and!; auto. Qed.

Lemma bind_same_outcome {A B} (m : M A) (k1 k2 : A -> M B) w :
  (forall a w1, same_outcome (k1 a w1) (k2 a w1)) ->
  same_outcome ((m ≫= k1) w) ((m ≫= k2) w).
Proof.
  intros Hk. unfold mbind, M_bind. destruct (m w) as [[e|a] w1].
  - apply same_outcome_refl.
  - apply Hk.
Qed.

Lemma place_order_same_outcome slugify send request uid user cart lines form w :
  same_outcome
    (place_order slugify (fun _ _ => None) request uid user cart lines form w)
    (place_order slugify send request uid user cart lines form w).
Proof.
  unfold place_order.
  apply bind_same_outcome. intros order w1.
  apply bind_same_outcome. intros pk w2.
  apply bind_same_outcome. intros [] w3.
  apply bind_same_outcome. intros [] w4.
  apply bind_same_outcome. intros [] w5.
  rewrite !bind_gets. unfold id.
  destruct (send order (db w5)) as [msg|].
  - unfold same_outcome. cbn. split_and!; eauto.
  - apply same_outcome_refl.
Qed.

(** C9: whatever the order-confirmation e-mail does, raise or return, the
    checkout has the outcome it has with an e-mail that returns: the same
    response, the same tables (order, order items, stocks, loyalty fields,
    cleared cart), the same messages and session.  A checkout that succeeds
    with a working e-mail succeeds with a failing one, none of its writes is
    undone, and the exception leaves one printed line, "Email sending failed:"
    with its text. *)
Theorem checkout_survives_notification_failure clean slugify send request w :
  same_outcome (checkout_view clean slugify (fun _ _ => None) request w)
               (checkout_view clean slugify send request w) /\
  forall n w',
    checkout_view clean slugify (fun _ _ => None) request w
      = (inr (Redirect "orders:order_confirmation" (Some n)), w') ->
    exists w'' order d,
      checkout_view clean slugify send request w
        = (inr (Redirect "orders:order_confirmation" (Some n)), w'') /\
      db w'' = db w' /\ messages w'' = messages w' /\
      stdout w'' = stdout w ++ match send order d with
                               | Some msg => ["Email sending failed: " +:+ msg]
                               | None => []
                               end.
Proof.
  assert (same_outcome (checkout_view clean slugify (fun _ _ => None) request w)
                       (checkout_view clean slugify send request w)) as Hsame.
  { unfold checkout_view. rewrite !bind_gets. unfold id.
    destruct (_ ≫= _) as [[uid user]|]; [|apply same_outcome_refl].
    apply bind_same_outcome. intros cart w1.
    rewrite !bind_gets.
    destruct (bool_decide _); [apply same_outcome_refl|].
    destruct (List.find _ _) as [[item product]|]; [apply same_outcome_refl|].
    destruct (bool_decide (Request.method request = "POST"));
      [|apply same_outcome_refl].
    destruct (clean (Request.POST request)) as [form|]; [|apply same_outcome_refl].
    pose proof (place_order_same_outcome slugify send request uid user cart
                  (select_related_product (db w1) (items_all (db w1) cart)) form w1)
      as Hplace.
    unfold mbind, M_bind, fmap, M_fmap, atomic.
    destruct (place_order slugify (fun _ _ => None) _ _ _ _ _ _ w1) as [[e|r] wq];
      destruct (place_order slugify send _ _ _ _ _ _ w1) as [[e'|r'] wo];
      destruct Hplace as (Hr & Hdb & Hm & Hs & Hc & Hout); cbn in *;
      try discriminate; inversion Hr; subst;
      unfold same_outcome; cbn; split_and!; auto. }
  split; [exact Hsame|].
  intros n w' Hq. rewrite Hq in Hsame.
  destruct (checkout_view clean slugify send request w) as [r w''] eqn:Hrun.
  destruct Hsame as (Hr & Hdb & Hm & _). cbn in *. subst r.
  apply checkout_success_inv in Hrun
    as (uid & user & cart & w1 & form & _ & _ & Hcart & _ & _ & _ & _ & Hplace).
  apply get_or_create_cart_frame in Hcart as (_ & _ & Hout).
  apply place_order_inr in Hplace
    as (order & ? & ? & ? & ? & ? & ? & d & _ & Hlog & _).
  exists w'', order, d. rewrite <- Hout. auto.
Qed.

(** ** Rejections *)

(** C1: a checkout on an empty cart is answered with a warning and a
    redirect to the product list; a checkout on a cart with a line whose
    product has less stock than the line's quantity is answered with an error
    and a redirect to the cart.  In both cases no order and no order item is
    created, no product and no user row changes, and the cart items are as
    before. *)
Theorem checkout_rejected_before_any_mutation
    clean slugify send request w uid user cart w1 :
  Request.user request = Some uid ->
  DB.users (db w) !! uid = Some user ->
  get_or_create_cart request w = (inr cart, w1) ->
  (items_all (db w) cart = [] ->
   exists w',
     checkout_view clean slugify send request w
       = (inr (Redirect "products:product_list" None), w') /\
     messages w' = messages w ++ [(WARNING, "Your cart is empty!")] /\
     nothing_placed (db w) (db w')) /\
  ((exists item product,
      item ∈ items_all (db w) cart /\
      DB.products (db w) !! CartItem.product item = Some product /\
      Product.stock product < CartItem.quantity item) ->
   exists text w',
     checkout_view clean slugify send request w = (inr (Redirect "orders:cart" None), w') /\
     messages w' = messages w ++ [(ERROR, text)] /\
     nothing_placed (db w) (db w')).
Proof.
  intros Hu Huser Hcart.
  destruct (get_or_create_cart_frame _ _ _ _ Hcart)
    as ((Hci & Hp & Hus & Ho & Hoi & Ha) & _).
  assert (nothing_placed (db w) (db w1)) as Hsame by (repeat split; assumption).
  split.
  - intros Hnil.
    destruct (checkout_rejects_empty clean slugify send _ _ _ _ _ _ Hu Huser Hcart Hnil)
      as (w' & Hrun & Hm & Hdb).
    exists w'. rewrite Hdb. auto.
  - intros Hshort.
    destruct (checkout_rejects_short clean slugify send _ _ _ _ _ _ Hu Huser Hcart Hshort)
      as (text & w' & Hrun & Hm & Hdb).
    exists text, w'. rewrite Hdb. auto.
Qed.

(** C7: adding to the cart a quantity larger than the product's stock is
    answered with the error message about the available stock and a redirect
    to the product page; the products, and the items of every cart, are as
    before. *)
Theorem add_to_cart_out_of_stock_rejected request product_id w product cart w1 quantity :
  DB.products (db w) !! product_id = Some product ->
  Product.is_active product = true ->
  get_or_create_cart request w = (inr cart, w1) ->
  posted_quantity request = Some quantity ->
  Product.stock product < quantity ->
  exists w',
    add_to_cart request product_id w
      = (inr (Redirect "products:product_detail" (Some (Product.slug product))), w') /\
    messages w' = messages w ++ [(ERROR, "Sorry, only " +:+ pretty (Product.stock product)
                                         +:+ " items available in stock!")] /\
    DB.products (db w') = DB.products (db w) /\
    DB.cart_items (db w') = DB.cart_items (db w) /\
    (forall c, items_all (db w') c = items_all (db w) c) /\
    DB.orders (db w') = DB.orders (db w) /\
    DB.order_items (db w') = DB.order_items (db w).
Proof.
  intros Hp Hactive Hcart Hq Hlt.
  destruct (get_or_create_cart_frame _ _ _ _ Hcart)
    as ((Hci & Hpr & Hus & Ho & Hoi & Ha) & Hm & Hout).
  unfold add_to_cart. rewrite bind_gets. unfold id.
  rewrite Hp. cbn [mbind option_bind]. rewrite Hactive.
  rewrite bind_or_raise, (bind_eq _ _ _ _ _ Hcart), Hq, bind_or_raise.
  apply Z.ltb_lt in Hlt. rewrite Hlt.
  eexists. split; [reflexivity|]. cbn. rewrite Hm.
  split_and!; auto. intros c. apply items_all_same. exact Hci.
Qed.

(** ** Adding to the cart *)

Lemma next_pk_fresh ids x : x ∈ ids -> x < next_pk ids.
Proof.
  unfold next_pk. induction 1 as [x l|x y l _ IH]; cbn; lia.
Qed.

Lemma get_or_create_cart_existing request w uid cart :
  Request.user request = Some uid ->
  List.filter (fun c => bool_decide (Cart.user c = Some uid)) (DB.carts (db w)) = [cart] ->
  get_or_create_cart request w = (inr cart, w).
Proof.
  intros Hu Hf. unfold get_or_create_cart, get_or_create. rewrite Hu, bind_gets, Hf.
  reflexivity.
Qed.

Lemma add_to_cart_new request product_id w product cart w1 quantity :
  DB.products (db w) !! product_id = Some product ->
  Product.is_active product = true ->
  get_or_create_cart request w = (inr cart, w1) ->
  posted_quantity request = Some quantity ->
  quantity <= Product.stock product ->
  filter (fun r => CartItem.cart r = Cart.id cart /\ CartItem.product r = product_id)
         (DB.cart_items (db w1)) = [] ->
  exists w',
    add_to_cart request product_id w
      = (inr (Redirect (default "products:product_list" (Request.HTTP_REFERER request)) None),
         w') /\
    db w' = with_cart_items
              (DB.cart_items (db w1)
               ++ [CartItem.mk (next_pk (CartItem.id <$> DB.cart_items (db w1)))
                               (Cart.id cart) product_id quantity]) (db w1) /\
    messages w' = messages w1 ++ [(SUCCESS, Product.name product +:+ " added to cart!")].
Proof.
  intros Hp Hactive Hcart Hq Hle Hnone.
  unfold add_to_cart. rewrite bind_gets. unfold id.
  rewrite Hp. cbn [mbind option_bind]. rewrite Hactive.
  rewrite bind_or_raise, (bind_eq _ _ _ _ _ Hcart), Hq, bind_or_raise.
  apply Z.ltb_ge in Hle. rewrite Hle.
  rewrite bind_gets, Hnone.
  eexists. split; [reflexivity|]. cbn. auto.
Qed.

Lemma add_to_cart_existing request product_id w product cart w1 quantity cart_item :
  DB.products (db w) !! product_id = Some product ->
  Product.is_active product = true ->
  get_or_create_cart request w = (inr cart, w1) ->
  posted_quantity request = Some quantity ->
  quantity <= Product.stock product ->
  filter (fun r => CartItem.cart r = Cart.id cart /\ CartItem.product r = product_id)
         (DB.cart_items (db w1)) = [cart_item] ->
  exists w',
    add_to_cart request product_id w
      = (inr (Redirect (default "products:product_list" (Request.HTTP_REFERER request)) None),
         w') /\
    db w' = with_cart_items
              ((fun r => if bool_decide (CartItem.id r = CartItem.id cart_item)
                         then CartItem.with_quantity
                                (CartItem.quantity cart_item + quantity) cart_item
                         else r) <$> DB.cart_items (db w1)) (db w1) /\
    messages w' = messages w1
                  ++ [(SUCCESS, "Updated " +:+ Product.name product +:+ " quantity in cart!")].
Proof.
  intros Hp Hactive Hcart Hq Hle Hone.
  unfold add_to_cart. rewrite bind_gets. unfold id.
  rewrite Hp. cbn [mbind option_bind]. rewrite Hactive.
  rewrite bind_or_raise, (bind_eq _ _ _ _ _ Hcart), Hq, bind_or_raise.
  apply Z.ltb_ge in Hle. rewrite Hle.
  rewrite bind_gets, Hone.
  eexists. split; [reflexivity|]. cbn. auto.
Qed.

Lemma fmap_update_fresh (new : CartItem.t) (l : list CartItem.t) (f : CartItem.t -> CartItem.t) :
  (forall r, r ∈ l -> CartItem.id r < CartItem.id new) ->
  (fun r => if bool_decide (CartItem.id r = CartItem.id new) then f r else r) <$> l = l.
Proof.
  intros Hlt. rewrite <- (list_fmap_id l) at 2.
  apply Forall_fmap_ext_1. apply Forall_forall. intros r Hr.
  rewrite bool_decide_eq_false_2; [reflexivity|].
  specialize (Hlt r Hr). lia.
Qed.

(** C10: [add_to_cart] compares the stock with the quantity of the request
    only.  With a product of stock [s] not yet in the user's cart, two calls
    with quantities [q1 <= s] and [q2 <= s] both succeed and leave one cart
    line of quantity [q1 + q2]; when [q1 + q2 > s] that line exceeds the stock,
    nothing in [add_to_cart] objects, and the checkout that follows is the one
    to reject the cart, with a redirect to the cart page and no order
    placed. *)
Theorem add_to_cart_checks_only_new_quantity
    clean slugify send request post1 post2 w uid user cart product_id product q1 q2 :
  Request.user request = Some uid ->
  DB.users (db w) !! uid = Some user ->
  List.filter (fun c => bool_decide (Cart.user c = Some uid)) (DB.carts (db w)) = [cart] ->
  filter (fun r => CartItem.cart r = Cart.id cart /\ CartItem.product r = product_id)
         (DB.cart_items (db w)) = [] ->
  DB.products (db w) !! product_id = Some product ->
  Product.is_active product = true ->
  posted_quantity (with_POST post1 request) = Some q1 ->
  posted_quantity (with_POST post2 request) = Some q2 ->
  q1 <= Product.stock product ->
  q2 <= Product.stock product ->
  Product.stock product < q1 + q2 ->
  exists w1 w2 w3 item text,
    add_to_cart (with_POST post1 request) product_id w
      = (inr (Redirect (default "products:product_list" (Request.HTTP_REFERER request)) None),
         w1) /\
    add_to_cart (with_POST post2 request) product_id w1
      = (inr (Redirect (default "products:product_list" (Request.HTTP_REFERER request)) None),
         w2) /\
    messages w2 = messages w
                  ++ [(SUCCESS, Product.name product +:+ " added to cart!");
                      (SUCCESS, "Updated " +:+ Product.name product +:+ " quantity in cart!")] /\
    DB.cart_items (db w2) = DB.cart_items (db w) ++ [item] /\
    item ∈ items_all (db w2) cart /\
    CartItem.product item = product_id /\
    CartItem.quantity item = q1 + q2 /\
    DB.products (db w2) !! product_id = Some product /\
    Product.stock product < CartItem.quantity item /\
    checkout_view clean slugify send request w2 = (inr (Redirect "orders:cart" None), w3) /\
    messages w3 = messages w2 ++ [(ERROR, text)] /\
    db w3 = db w2.
Proof.
  intros Hu Huser Hcarts Hnone Hp Hactive Hq1 Hq2 Hle1 Hle2 Hgt.
  set (pk := next_pk (CartItem.id <$> DB.cart_items (db w))).
  set (new := CartItem.mk pk (Cart.id cart) product_id q1).
  pose proof (get_or_create_cart_existing (with_POST post1 request) w uid cart Hu Hcarts)
    as Hcart1.
  destruct (add_to_cart_new (with_POST post1 request) product_id w product cart w q1
              Hp Hactive Hcart1 Hq1 Hle1 Hnone) as (w1 & Hadd1 & Hdb1 & Hm1).
  fold pk in Hdb1. fold new in Hdb1.
  assert (get_or_create_cart (with_POST post2 request) w1 = (inr cart, w1)) as Hcart2.
  { apply (get_or_create_cart_existing _ _ uid); [exact Hu|].
    rewrite Hdb1. exact Hcarts. }
  assert (DB.products (db w1) !! product_id = Some product) as Hp1.
  { rewrite Hdb1. exact Hp. }
  assert (filter (fun r => CartItem.cart r = Cart.id cart /\ CartItem.product r = product_id)
                 (DB.cart_items (db w1)) = [new]) as Hone.
  { rewrite Hdb1. cbn [with_cart_items DB.cart_items].
    rewrite filter_app, Hnone, app_nil_l.
    rewrite filter_cons, filter_nil. destruct (decide _) as [_|Hn]; [reflexivity|].
    exfalso. apply Hn. split; reflexivity. }
  destruct (add_to_cart_existing (with_POST post2 request) product_id w1 product cart w1 q2 new
              Hp1 Hactive Hcart2 Hq2 Hle2 Hone) as (w2 & Hadd2 & Hdb2 & Hm2).
  set (item := CartItem.mk pk (Cart.id cart) product_id (q1 + q2)).
  assert (DB.cart_items (db w2) = DB.cart_items (db w) ++ [item]) as Hitems2.
  { rewrite Hdb2, Hdb1. cbn [with_cart_items DB.cart_items].
    rewrite fmap_app. f_equal.
    - apply fmap_update_fresh. intros r Hr. cbn. unfold pk.
      apply next_pk_fresh. apply list_elem_of_fmap. eauto.
    - cbn. rewrite bool_decide_eq_true_2 by reflexivity. reflexivity. }
  assert (DB.products (db w2) = DB.products (db w)) as Hprods2.
  { rewrite Hdb2, Hdb1. reflexivity. }
  assert (item ∈ items_all (db w2) cart) as Hin.
  { unfold items_all. rewrite Hitems2. apply list_elem_of_filter. split; [reflexivity|].
    apply elem_of_app. right. apply list_elem_of_singleton. reflexivity. }
  assert (get_or_create_cart request w2 = (inr cart, w2)) as Hcart3.
  { apply (get_or_create_cart_existing _ _ uid); [exact Hu|].
    rewrite Hdb2, Hdb1. exact Hcarts. }
  assert (DB.users (db w2) !! uid = Some user) as Huser2.
  { rewrite Hdb2, Hdb1. exact Huser. }
  destruct (checkout_rejects_short clean slugify send request w2 uid user cart w2
              Hu Huser2 Hcart3) as (text & w3 & Hrun & Hm3 & Hdb3).
  { exists item, product. split; [exact Hin|]. rewrite Hprods2. split; [exact Hp|].
    cbn. exact Hgt. }
  exists w1, w2, w3, item, text.
  split_and!; try assumption; try reflexivity.
  - rewrite Hm2, Hm1, <- app_assoc. reflexivity.
  - rewrite Hprods2. exact Hp.
Qed.

(** ** A worked scenario *)

Example example_checkout :
  let r := checkout_view Example.clean Example.slugify Example.mail_ok
                         (Example.post []) Example.world in
  r.1 = inr (Redirect "orders:order_confirmation" (Some "ECO-0123ABCD")) /\
  DB.orders (db r.2)
    = [Order.mk_row 1 Example.address 7 "ECO-0123ABCD" "pending" 5097 663 0 5760 284 284] /\
  DB.users (db r.2) !! 7 = Some (User.mk 294 1 434) /\
  Product.stock <$> DB.products (db r.2) !! 1 = Some 8 /\
  Product.stock <$> DB.products (db r.2) !! 2 = Some 4 /\
  DB.cart_items (db r.2) = [].
Proof. vm_compute. repeat split. Qed.

Lemma example_checkout_run :
  checkout_view Example.clean Example.slugify Example.mail_ok (Example.post []) Example.world
  = (inr (Redirect "orders:order_confirmation" (Some "ECO-0123ABCD")),
     (checkout_view Example.clean Example.slugify Example.mail_ok
                    (Example.post []) Example.world).2).
Proof. vm_compute. reflexivity. Qed.

Lemma example_unique_together : unique_together (db Example.world).
Proof. apply (bool_decide_unpack _). vm_compute. exact I. Qed.

Lemma checkout_rejected_before_any_mutation_witness :
  (exists w',
     checkout_view Example.clean Example.slugify Example.mail_ok
                   (Example.post []) Example.world_empty
       = (inr (Redirect "products:product_list" None), w') /\
     messages w' = messages Example.world_empty ++ [(WARNING, "Your cart is empty!")] /\
     nothing_placed (db Example.world_empty) (db w')) /\
  (exists text w',
     checkout_view Example.clean Example.slugify Example.mail_ok
                   (Example.post []) Example.world_short
       = (inr (Redirect "orders:cart" None), w') /\
     messages w' = messages Example.world_short ++ [(ERROR, text)] /\
     nothing_placed (db Example.world_short) (db w')).
Proof.
  split.
  - apply (proj1 (checkout_rejected_before_any_mutation
                    Example.clean Example.slugify Example.mail_ok (Example.post [])
                    Example.world_empty 7 Example.shopper Example.cart1 Example.world_empty
                    eq_refl eq_refl eq_refl)).
    reflexivity.
  - apply (proj2 (checkout_rejected_before_any_mutation
                    Example.clean Example.slugify Example.mail_ok (Example.post [])
                    Example.world_short 7 Example.shopper Example.cart1 Example.world_short
                    eq_refl eq_refl eq_refl)).
    exists (CartItem.mk 2 1 1 13), Example.toothbrush.
    split; [|split]; [|reflexivity|vm_compute; reflexivity].
    apply list_elem_of_In. vm_compute. right. left. reflexivity.
Defined.

Lemma checkout_tax_is_rounded_rate_witness :
  exists row,
    DB.orders (db (checkout_view Example.clean Example.slugify Example.mail_ok
                                 (Example.post []) Example.world).2)
      = DB.orders (db Example.world) ++ [row] /\
    Order.r_order_number row = "ECO-0123ABCD" /\
    Dec.of_cents (Order.r_tax row)
      = Dec.round2 (Dec.mul (Dec.of_cents (Order.r_subtotal row)) Dec.d0_13) /\
    2 * Z.abs (13 * Order.r_subtotal row - 100 * Order.r_tax row) <= 100 /\
    (2 * Z.abs (13 * Order.r_subtotal row - 100 * Order.r_tax row) = 100 ->
     Z.even (Order.r_tax row) = true).
Proof.
  apply (checkout_tax_is_rounded_rate Example.clean Example.slugify Example.mail_ok
           (Example.post []) Example.world "ECO-0123ABCD").
  vm_compute. reflexivity.
Defined.

Lemma checkout_creates_order_and_moves_stock_witness :
  unique_together (db Example.world) /\
  exists cart w1 row new_items,
    let w := Example.world in
    let w' := (checkout_view Example.clean Example.slugify Example.mail_ok
                             (Example.post []) Example.world).2 in
    get_or_create_cart (Example.post []) w = (inr cart, w1) /\
    DB.orders (db w') = DB.orders (db w) ++ [row] /\
    Order.r_order_number row = "ECO-0123ABCD" /\
    DB.order_items (db w') = DB.order_items (db w) ++ new_items /\
    Forall2 (fun item oi =>
               OrderItem.order oi = Order.id row /\
               OrderItem.product oi = Some (CartItem.product item) /\
               OrderItem.quantity oi = CartItem.quantity item)
            (items_all (db w) cart) new_items /\
    (forall item, item ∈ items_all (db w) cart ->
       exists p p',
         DB.products (db w) !! CartItem.product item = Some p /\
         DB.products (db w') !! CartItem.product item = Some p' /\
         Product.stock p' = Product.stock p - CartItem.quantity item) /\
    (forall pk, pk ∉ CartItem.product <$> items_all (db w) cart ->
       DB.products (db w') !! pk = DB.products (db w) !! pk) /\
    Py.sum_int (CartItem.quantity <$> items_all (db w) cart)
      = Py.sum_int ((fun item => stock_of (db w) (CartItem.product item)
                                 - stock_of (db w') (CartItem.product item))
                      <$> items_all (db w) cart) /\
    items_all (db w) cart <> [] /\
    items_all (db w') cart = [] /\
    cart ∈ DB.carts (db w').
Proof.
  split; [exact example_unique_together|].
  apply (checkout_creates_order_and_moves_stock
           Example.clean Example.slugify Example.mail_ok (Example.post []) Example.world
           "ECO-0123ABCD" _ example_unique_together).
  vm_compute. reflexivity.
Defined.

Lemma checkout_shipping_and_total_witness :
  (exists ctx w',
     checkout_view Example.clean Example.slugify Example.mail_ok Example.get Example.world
       = (inr (Render "orders/checkout.html" ctx), w') /\
     Dec.ltb (ctx_subtotal ctx) (Dec.of_int 50) = false /\
     ctx_shipping ctx = Dec.d0_00 /\
     ctx_total ctx = Dec.add (Dec.add (ctx_subtotal ctx) (ctx_tax ctx)) (ctx_shipping ctx)) /\
  (exists cart w1 total_price_ row,
     let w := Example.world in
     let w' := (checkout_view Example.clean Example.slugify Example.mail_ok
                              (Example.post []) Example.world).2 in
     get_or_create_cart (Example.post []) w = (inr cart, w1) /\
     total_price cart w1 = (inr total_price_, w1) /\
     DB.orders (db w') = DB.orders (db w) ++ [row] /\
     Dec.of_cents (Order.r_subtotal row) = total_price_ /\
     (Dec.ltb total_price_ (Dec.of_int 50) = false -> Order.r_shipping_cost row = 0) /\
     (Dec.ltb total_price_ (Dec.of_int 50) = true -> Order.r_shipping_cost row = 500) /\
     Order.r_total row
       = Order.r_subtotal row + Order.r_tax row + Order.r_shipping_cost row).
Proof.
  split.
  - eexists _, _. split; [vm_compute; reflexivity|].
    split; [vm_compute; reflexivity|].
    pose proof (proj1 (checkout_shipping_and_total
                         Example.clean Example.slugify Example.mail_ok Example.get
                         Example.world _) _ _ ltac:(vm_compute; reflexivity))
      as (H0 & _ & Ht).
    split; [apply H0; vm_compute; reflexivity|exact Ht].
  - apply (proj2 (checkout_shipping_and_total
                    Example.clean Example.slugify Example.mail_ok (Example.post [])
                    Example.world _) "ECO-0123ABCD").
    vm_compute. reflexivity.
Defined.

Lemma checkout_credits_loyalty_witness :
  exists uid user user' cart w1,
    let request := Example.post [] in
    let w := Example.world in
    let w' := (checkout_view Example.clean Example.slugify Example.mail_ok
                             (Example.post []) Example.world).2 in
    Request.user request = Some uid /\
    get_or_create_cart request w = (inr cart, w1) /\
    DB.users (db w) !! uid = Some user /\
    DB.users (db w') !! uid = Some user' /\
    User.eco_points user'
      = User.eco_points user
        + Py.sum_int ((fun line => Product.eco_score line.2 * CartItem.quantity line.1)
                        <$> select_related_product (db w) (items_all (db w) cart)) /\
    total_eco_points cart w
      = (inr (Py.sum_int ((fun line => Product.eco_score line.2 * CartItem.quantity line.1)
                            <$> select_related_product (db w) (items_all (db w) cart))), w) /\
    User.total_orders user' = User.total_orders user + 1.
Proof.
  apply (checkout_credits_loyalty Example.clean Example.slugify Example.mail_ok
           (Example.post []) Example.world "ECO-0123ABCD").
  vm_compute. reflexivity.
Defined.

Lemma add_to_cart_out_of_stock_rejected_witness :
  let request := Example.post [("quantity", "11")] in
  Product.stock Example.toothbrush < 11 /\
  exists w',
    add_to_cart request 1 Example.world
      = (inr (Redirect "products:product_detail" (Some "bamboo-toothbrush")), w') /\
    messages w' = messages Example.world
                  ++ [(ERROR, "Sorry, only 10 items available in stock!")] /\
    DB.products (db w') = DB.products (db Example.world) /\
    DB.cart_items (db w') = DB.cart_items (db Example.world) /\
    (forall c, items_all (db w') c = items_all (db Example.world) c) /\
    DB.orders (db w') = DB.orders (db Example.world) /\
    DB.order_items (db w') = DB.order_items (db Example.world).
Proof.
  split; [vm_compute; reflexivity|].
  apply (add_to_cart_out_of_stock_rejected (Example.post [("quantity", "11")]) 1
           Example.world Example.toothbrush Example.cart1 Example.world 11).
  - reflexivity.
  - reflexivity.
  - reflexivity.
  - vm_compute. reflexivity.
  - vm_compute. reflexivity.
Defined.

Lemma checkout_survives_notification_failure_witness :
  exists w'' order d,
    checkout_view Example.clean Example.slugify Example.mail_down
                  (Example.post []) Example.world
      = (inr (Redirect "orders:order_confirmation" (Some "ECO-0123ABCD")), w'') /\
    db w'' = db (checkout_view Example.clean Example.slugify Example.mail_ok
                               (Example.post []) Example.world).2 /\
    messages w'' = messages (checkout_view Example.clean Example.slugify Example.mail_ok
                                           (Example.post []) Example.world).2 /\
    stdout w'' = stdout Example.world
                 ++ match Example.mail_down order d with
                    | Some msg => ["Email sending failed: " +:+ msg]
                    | None => []
                    end.
Proof.
  apply (proj2 (checkout_survives_notification_failure
                  Example.clean Example.slugify Example.mail_down (Example.post [])
                  Example.world) "ECO-0123ABCD").
  vm_compute. reflexivity.
Defined.

Lemma add_to_cart_checks_only_new_quantity_witness :
  let request := Example.post [] in
  let post1 : gmap string string := {["quantity" := "2"]} in
  let post2 : gmap string string := {["quantity" := "3"]} in
  (2 <= Product.stock Example.soap /\ 3 <= Product.stock Example.soap /\
   Product.stock Example.soap < 2 + 3) /\
  exists w1 w2 w3 item text,
    add_to_cart (with_POST post1 request) 3 Example.world
      = (inr (Redirect "products:product_list" None), w1) /\
    add_to_cart (with_POST post2 request) 3 w1
      = (inr (Redirect "products:product_list" None), w2) /\
    messages w2 = messages Example.world
                  ++ [(SUCCESS, "Soap Bar added to cart!");
                      (SUCCESS, "Updated Soap Bar quantity in cart!")] /\
    DB.cart_items (db w2) = DB.cart_items (db Example.world) ++ [item] /\
    item ∈ items_all (db w2) Example.cart1 /\
    CartItem.product item = 3 /\
    CartItem.quantity item = 2 + 3 /\
    DB.products (db w2) !! 3 = Some Example.soap /\
    Product.stock Example.soap < CartItem.quantity item /\
    checkout_view Example.clean Example.slugify Example.mail_ok request w2
      = (inr (Redirect "orders:cart" None), w3) /\
    messages w3 = messages w2 ++ [(ERROR, text)] /\
    db w3 = db w2.
Proof.
  cbv zeta. split; [vm_compute; repeat split; discriminate|].
  apply (add_to_cart_checks_only_new_quantity
           Example.clean Example.slugify Example.mail_ok (Example.post [])
           {["quantity" := "2"]} {["quantity" := "3"]} Example.world 7 Example.shopper
           Example.cart1 3 Example.soap 2 3).
  - reflexivity.
  - reflexivity.
  - reflexivity.
  - vm_compute. reflexivity.
  - reflexivity.
  - reflexivity.
  - vm_compute. reflexivity.
  - vm_compute. reflexivity.
  - vm_compute. discriminate.
  - vm_compute. discriminate.
  - vm_compute. reflexivity.
Defined.

(** ** Quantities of cart items *)

Lemma keeps_bind {A B} P (m : M A) Q (k : A -> M B) R :
  keeps P m Q -> (forall a, keeps (Q a) (k a) R) -> keeps P (m ≫= k) R.
Proof.
  intros Hm Hk w HP. specialize (Hm w HP). unfold mbind, M_bind.
  destruct (m w) as [[e|a] w1]; [exact Hm|]. apply Hk. exact Hm.
Qed.

Lemma keeps_weaken {A} (P P' : DB.t -> Prop) (m : M A) (Q Q' : A -> DB.t -> Prop) :
  keeps P m Q -> (forall d, P' d -> P d) -> (forall a d, Q a d -> Q' a d) -> keeps P' m Q'.
Proof.
  intros Hm HP HQ w Hw. specialize (Hm w (HP _ Hw)).
  destruct (m w) as [[e|a] w1]; auto.
Qed.

Lemma keeps_ret {A} (P : A -> DB.t -> Prop) (a : A) : keeps (P a) (mret a) P.
Proof. intros w HP. exact HP. Qed.

Lemma keeps_add_message (P : DB.t -> Prop) l s : keeps P (add_message l s) (fun _ => P).
Proof. intros w HP. exact HP. Qed.

Lemma keeps_get_or_create_cart request :
  keeps positive_quantities (get_or_create_cart request) (fun _ => positive_quantities).
Proof.
  intros w HP. destruct (get_or_create_cart request w) as [r w1] eqn:E.
  apply get_or_create_cart_frame in E as ((Hci & _) & _).
  unfold positive_quantities in *. rewrite Hci. destruct r; exact HP.
Qed.

Lemma keeps_get_cart_item item_id cart :
  keeps positive_quantities (get_cart_item_or_404 item_id cart)
        (fun i d => positive_quantities d /\ 1 <= CartItem.quantity i).
Proof.
  intros w HP. unfold get_cart_item_or_404. rewrite bind_gets.
  destruct (filter _ _) as [|i [|i' l]] eqn:E; cbn; try exact HP.
  split; [exact HP|].
  assert (i ∈ filter (fun r => CartItem.id r = item_id /\ CartItem.cart r = Cart.id cart)
                     (DB.cart_items (db w))) as Hin by (rewrite E; left).
  apply list_elem_of_filter in Hin as [_ Hin].
  unfold positive_quantities in HP. rewrite Forall_forall in HP. auto.
Qed.

Lemma keeps_CartItem_save i :
  1 <= CartItem.quantity i ->
  keeps positive_quantities (CartItem_save i) (fun _ => positive_quantities).
Proof.
  intros Hq w HP. cbn. unfold positive_quantities in *. cbn.
  apply Forall_fmap. eapply Forall_impl; [exact HP|].
  intros r Hr. cbn. destruct (bool_decide _); assumption.
Qed.

Lemma keeps_CartItem_delete i :
  keeps positive_quantities (CartItem_delete i) (fun _ => positive_quantities).
Proof.
  intros w HP. cbn. unfold positive_quantities in *. cbn.
  apply Forall_forall. intros r Hr. apply list_elem_of_filter in Hr as [_ Hr].
  rewrite Forall_forall in HP. auto.
Qed.

Lemma keeps_product_of i (P : DB.t -> Prop) :
  (forall d, P d -> positive_quantities d) ->
  keeps P (product_of i) (fun _ => P).
Proof.
  intros HPq w HP. unfold product_of. rewrite bind_gets. unfold id.
  destruct (DB.products (db w) !! CartItem.product i); cbn; auto.
Qed.

(** [update_cart] keeps every quantity at one or more: a decrease at
    quantity one deletes the line. *)
Lemma update_cart_keeps_quantities request item_id :
  keeps positive_quantities (update_cart request item_id) (fun _ => positive_quantities).
Proof.
  unfold update_cart.
  eapply keeps_bind; [apply keeps_get_or_create_cart|]. intros cart.
  eapply keeps_bind; [apply keeps_get_cart_item|]. intros cart_item.
  eapply keeps_bind with (Q := fun _ => positive_quantities);
    [|intros []; apply (keeps_ret (fun _ => positive_quantities))].
  assert (forall (m : M unit),
            keeps positive_quantities m (fun _ => positive_quantities) ->
            keeps (fun d => positive_quantities d /\ 1 <= CartItem.quantity cart_item) m
                  (fun _ => positive_quantities)) as Hweak.
  { intros m Hm. eapply keeps_weaken; [exact Hm| |]; cbn; tauto. }
  destruct (Request.POST request !! "action") as [action|];
    [|apply Hweak, (keeps_ret (fun _ => positive_quantities))].
  destruct (decide (action = "increase")) as [->|Hinc].
  - eapply keeps_bind; [apply keeps_product_of; tauto|]. intros product.
    destruct (_ <? _).
    + intros w [HP Hq]. revert w HP.
      change (keeps positive_quantities
                (CartItem_save (CartItem.with_quantity (CartItem.quantity cart_item + 1)
                                                       cart_item);;
                 add_message SUCCESS "Cart updated!") (fun _ => positive_quantities)).
      eapply keeps_bind; [apply keeps_CartItem_save; cbn; lia|].
      intros []. apply keeps_add_message.
    + apply Hweak, keeps_add_message.
  - destruct (decide (action = "decrease")) as [->|Hdec].
    + destruct (1 <? CartItem.quantity cart_item) eqn:Hone.
      * apply Z.ltb_lt in Hone. apply Hweak.
        eapply keeps_bind; [apply keeps_CartItem_save; cbn; lia|].
        intros []. apply keeps_add_message.
      * apply Hweak.
        eapply keeps_bind; [apply keeps_CartItem_delete|].
        intros []. apply keeps_add_message.
    + assert (forall (T : Type) (a b c : T),
                match action with
                | "increase" => a | "decrease" => b | _ => c
                end = c) as Hother.
      { intros T a b c.
        repeat (match goal with
                | |- context [match ?s with EmptyString => _ | String _ _ => _ end] =>
                    destruct s; try reflexivity
                | |- context [match ?a with Ascii _ _ _ _ _ _ _ _ => _ end] =>
                    destruct a as [[] [] [] [] [] [] [] []]; try reflexivity
                end); congruence. }
      rewrite Hother. apply Hweak, (keeps_ret (fun _ => positive_quantities)).
Qed.

Lemma remove_from_cart_keeps_quantities request item_id :
  keeps positive_quantities (remove_from_cart request item_id) (fun _ => positive_quantities).
Proof.
  unfold remove_from_cart.
  eapply keeps_bind; [apply keeps_get_or_create_cart|]. intros cart.
  eapply keeps_bind; [apply keeps_get_cart_item|]. intros cart_item.
  eapply keeps_bind; [apply keeps_product_of; tauto|]. intros product.
  eapply keeps_weaken with (P := positive_quantities) (Q := fun _ => positive_quantities);
    [|tauto|auto].
  eapply keeps_bind; [apply keeps_CartItem_delete|]. intros [].
  eapply keeps_bind; [apply keeps_add_message|]. intros [].
  apply (keeps_ret (fun _ => positive_quantities)).
Qed.

(** [add_to_cart] keeps the quantities positive when the posted quantity is
    at least one; nothing in the view requires that it is. *)
Lemma add_to_cart_keeps_quantities request product_id :
  (forall q, posted_quantity request = Some q -> 1 <= q) ->
  keeps positive_quantities (add_to_cart request product_id) (fun _ => positive_quantities).
Proof.
  intros Hposted. unfold add_to_cart.
  apply keeps_bind with (Q := fun _ => positive_quantities);
    [intros w HP; exact HP|]. intros d.
  apply keeps_bind with (Q := fun _ => positive_quantities).
  { intros w HP. destruct (_ ≫= _); exact HP. }
  intros product.
  eapply keeps_bind; [apply keeps_get_or_create_cart|]. intros cart.
  apply keeps_bind with (Q := fun q d => positive_quantities d /\ 1 <= q).
  { intros w HP. destruct (posted_quantity request) as [q|] eqn:E; cbn; auto. }
  intros quantity.
  destruct (_ <? _).
  { intros w [HP _]. exact HP. }
  intros w [HP Hq]. rewrite bind_gets.
  destruct (filter _ _) as [|cart_item [|i' l]] eqn:E; cbn.
  - unfold positive_quantities in *. cbn. apply Forall_app. split; [exact HP|].
    constructor; [exact Hq|constructor].
  - assert (cart_item ∈ filter (fun r => CartItem.cart r = Cart.id cart /\
                                         CartItem.product r = product_id)
                               (DB.cart_items (db w))) as Hin by (rewrite E; left).
    apply list_elem_of_filter in Hin as [_ Hin].
    unfold positive_quantities in *. cbn.
    pose proof (proj1 (Forall_forall _ _) HP _ Hin) as Hq0. cbn in Hq0.
    apply Forall_fmap. eapply Forall_impl; [exact HP|].
    intros r Hr. cbn. destruct (bool_decide _); cbn; [lia|assumption].
  - exact HP.
Qed.

(** C8 (the code departs from it): in a cart whose quantities are all
    positive, [add_to_cart] with the posted quantity "0" adds a line of
    quantity 0, and with "-3" on a line of quantity 2 leaves that line at -1;
    the stock check [product.stock < quantity] passes for both. *)
Theorem add_to_cart_accepts_nonpositive_quantity :
  positive_quantities (db Example.world) /\
  (let r := add_to_cart (Example.post [("quantity", "0")]) 3 Example.world in
   r.1 = inr (Redirect "products:product_list" None) /\
   DB.cart_items (db r.2)
     = DB.cart_items (db Example.world) ++ [CartItem.mk 3 1 3 0] /\
   ~ positive_quantities (db r.2)) /\
  (let r := add_to_cart (Example.post [("quantity", "-3")]) 1 Example.world in
   r.1 = inr (Redirect "products:product_list" None) /\
   DB.cart_items (db r.2) = [CartItem.mk 1 1 1 (-1); CartItem.mk 2 1 2 1] /\
   ~ positive_quantities (db r.2)).
Proof.
  cbv zeta. split_and!.
  - unfold positive_quantities. vm_compute DB.cart_items.
    repeat constructor; cbn; lia.
  - vm_compute. reflexivity.
  - vm_compute. reflexivity.
  - unfold positive_quantities. intros H.
    assert (CartItem.mk 3 1 3 0 ∈
              DB.cart_items (db (add_to_cart (Example.post [("quantity", "0")]) 3
                                             Example.world).2)) as Hin.
    { apply list_elem_of_In. vm_compute. auto. }
    apply (proj1 (Forall_forall _ _) H) in Hin. cbn in Hin. lia.
  - vm_compute. reflexivity.
  - vm_compute. reflexivity.
  - unfold positive_quantities. intros H.
    assert (CartItem.mk 1 1 1 (-1) ∈
              DB.cart_items (db (add_to_cart (Example.post [("quantity", "-3")]) 1
                                             Example.world).2)) as Hin.
    { apply list_elem_of_In. vm_compute. auto. }
    apply (proj1 (Forall_forall _ _) H) in Hin. cbn in Hin. lia.
Qed.

(** ** The CO2 snapshot *)

(** [0.01] is the double nearest to one hundredth: its distance to 1/100 is
    at most half a unit in the last place, [2^-60]. *)
Lemma lit_0_01_nearest :
  Float.lit_0_01 = S754_finite false 5764607523034235 (-59) /\
  Z.abs (100 * 5764607523034235 - 2 ^ 59) * 2 <= 100.
Proof. split; [reflexivity|]. vm_compute. discriminate. Qed.

(** C5 (the code departs from it): for a cart worth 57 eco points the view
    multiplies the [int] 57 by the [float] 0.01; the product is the double
    0.5700000000000001, one unit in the last place above the double that
    prints as 0.57, and [Decimal(str(...))]
    makes it the [co2_saved] of the order instance, which is not equal to
    57 times 0.01.  The two-decimal column rounds it to 0.57. *)
Theorem checkout_co2_saved_is_a_float_product :
  let request := Example.post [] in
  let w := Example.world_soap in
  total_eco_points Example.cart1 w = (inr 57, w) /\
  Float.mul (Float.of_int 57) Float.lit_0_01 = S754_finite false 5134103575202366 (-53) /\
  Float.to_decimal (S754_finite false 5134103575202365 (-53)) = Some (Dec.mk 57 (-2)) /\
  (exists order,
     new_order request 7 Example.cart1 Example.address w = (inr order, w) /\
     Order.eco_points_earned order = 57 /\
     Order.co2_saved order = Dec.mk 5700000000000001 (-16) /\
     Dec.eqb (Order.co2_saved order) (Dec.mul (Dec.of_int 57) (Dec.mk 1 (-2))) = false) /\
  (let r := checkout_view Example.clean Example.slugify Example.mail_ok request w in
   r.1 = inr (Redirect "orders:order_confirmation" (Some "ECO-0123ABCD")) /\
   Order.r_co2_saved <$> DB.orders (db r.2) = [57]).
Proof.
  cbv zeta. split_and!.
  - vm_compute. reflexivity.
  - vm_compute. reflexivity.
  - vm_compute. reflexivity.
  - eexists. split; [vm_compute; reflexivity|]. split_and!; vm_compute; reflexivity.
  - vm_compute. reflexivity.
  - vm_compute. reflexivity.
Qed.

(** The order instance of the worked scenario carries the tax as the view
    assigned it, four decimal places long; the row keeps it at two. *)
Example example_instance_and_row :
  (exists order,
     new_order (Example.post []) 7 Example.cart1 Example.address Example.world
       = (inr order, Example.world) /\
     Order.subtotal order = Dec.mk 5097 (-2) /\
     Order.tax order = Dec.mk 66261 (-4) /\
     Order.total order = Dec.mk 575961 (-4) /\
     Order.co2_saved order = Dec.mk 284 (-2)) /\
  Order.r_tax <$> DB.orders (db (checkout_view Example.clean Example.slugify Example.mail_ok
                                               (Example.post []) Example.world).2) = [663].
Proof.
  split; [eexists; split; [vm_compute; reflexivity|]|]; vm_compute; auto.
Qed.

(** * Further properties *)

(** ** Runs and the tables they relate *)

Lemma bind_inv {A B} (m : M A) (k : A -> M B) w r w' :
  (m ≫= k) w = (r, w') ->
  (exists e, m w = (inl e, w') /\ r = inl e) \/
  (exists a w1, m w = (inr a, w1) /\ k a w1 = (r, w')).
Proof.
  unfold mbind, M_bind. destruct (m w) as [[e|a] w1]; intros H.
  - left. inversion H; subst. eauto.
  - right. eauto.
Qed.

Lemma bind_inl {A B} (m : M A) (k : A -> M B) w e w1 :
  m w = (inl e, w1) -> (m ≫= k) w = (inl e, w1).
Proof. unfold mbind, M_bind. intros ->. reflexivity. Qed.

Lemma relates_bind {A B} (R : DB.t -> DB.t -> Prop) `{!Transitive R}
    (m : M A) (k : A -> M B) :
  relates R m -> (forall a, relates R (k a)) -> relates R (m ≫= k).
Proof.
  intros Hm Hk w r w' H. apply bind_inv in H as [(e & H & _)|(a & w1 & H1 & H2)].
  - eapply Hm; eauto.
  - etransitivity; [eapply Hm|eapply Hk]; eauto.
Qed.

Lemma relates_weaken {A} (R R' : DB.t -> DB.t -> Prop) (m : M A) :
  (forall d d', R d d' -> R' d d') -> relates R m -> relates R' m.
Proof. intros HR Hm w r w' H. eauto. Qed.

Lemma relates_same {A} (R : DB.t -> DB.t -> Prop) `{!Reflexive R} (m : M A) :
  (forall w r w', m w = (r, w') -> db w' = db w) -> relates R m.
Proof. intros Hm w r w' H. rewrite (Hm _ _ _ H). reflexivity. Qed.

Lemma ret_same {A} (a : A) w r w' : (mret a : M A) w = (r, w') -> db w' = db w.
Proof. unfold mret, M_ret. intros H; inversion H; reflexivity. Qed.

Lemma raise_same {A} e w (r : Exn + A) w' : raise e w = (r, w') -> db w' = db w.
Proof. unfold raise. intros H; inversion H; reflexivity. Qed.

Lemma or_raise_same {A} e (o : option A) w r w' :
  or_raise e o w = (r, w') -> db w' = db w.
Proof. destruct o; [apply ret_same|apply raise_same]. Qed.

Lemma add_message_same l s w r w' : add_message l s w = (r, w') -> db w' = db w.
Proof. unfold add_message. intros H; inversion H; reflexivity. Qed.

Lemma total_price_same cart w r w' : total_price cart w = (r, w') -> db w' = db w.
Proof.
  unfold total_price. rewrite bind_gets. apply or_raise_same.
Qed.

Lemma total_eco_points_same cart w r w' :
  total_eco_points cart w = (r, w') -> db w' = db w.
Proof.
  unfold total_eco_points. rewrite bind_gets. apply or_raise_same.
Qed.

Lemma total_items_same cart w r w' : total_items cart w = (r, w') -> db w' = db w.
Proof. unfold total_items, gets. intros H; inversion H; reflexivity. Qed.

#[global] Instance nothing_placed_refl : Reflexive nothing_placed.
Proof. intros d. repeat split. Qed.

#[global] Instance nothing_placed_trans : Transitive nothing_placed.
Proof.
  intros d1 d2 d3 (A1 & A2 & A3 & A4 & A5) (B1 & B2 & B3 & B4 & B5).
  repeat split; congruence.
Qed.

Lemma relates_get_or_create_cart request :
  relates nothing_placed (get_or_create_cart request).
Proof.
  intros w r w' H. apply get_or_create_cart_frame in H as ((? & ? & ? & ? & ? & ?) & _).
  repeat split; assumption.
Qed.

Lemma relates_track_user_activity uid page :
  relates nothing_placed (track_user_activity uid page).
Proof.
  intros w r w' H. unfold track_user_activity, modify in H. inversion H; subst.
  repeat split.
Qed.

(** The part of [checkout_view] that shows the page. *)
Lemma relates_checkout_page uid cart :
  relates nothing_placed
    (track_user_activity uid "Checkout";;
     subtotal ← total_price cart;
     eco_points ← total_eco_points cart;
     mret (Render "orders/checkout.html"
             (mkContext subtotal (tax_of subtotal) (shipping_of subtotal)
                (Dec.add (Dec.add subtotal (tax_of subtotal)) (shipping_of subtotal))
                eco_points))).
Proof.
  apply relates_bind; [apply _|apply relates_track_user_activity|]. intros [].
  apply relates_bind; [apply _|apply relates_same; [apply _|apply total_price_same]|].
  intros subtotal.
  apply relates_bind;
    [apply _|apply relates_same; [apply _|apply total_eco_points_same]|].
  intros eco_points. apply relates_same; [apply _|apply ret_same].
Qed.

Lemma checkout_view_outcomes clean slugify send request w r w' :
  checkout_view clean slugify send request w = (r, w') ->
  (exists n, r = inr (Redirect "orders:order_confirmation" (Some n))) \/
  nothing_placed (db w) (db w').
Proof.
  unfold checkout_view. rewrite bind_gets. unfold id.
  destruct (_ ≫= _) as [[uid user]|].
  2:{ intros H. right. apply ret_same in H. rewrite H. reflexivity. }
  intros H. apply bind_inv in H as [(e & H & _)|(cart & w1 & Hcart & H)].
  { right. eapply relates_get_or_create_cart; eauto. }
  pose proof (relates_get_or_create_cart _ _ _ _ Hcart) as Hw1.
  rewrite bind_gets in H.
  destruct (bool_decide _).
  { right. inversion H; subst. exact Hw1. }
  destruct (List.find _ _) as [[item product]|].
  { right. inversion H; subst. exact Hw1. }
  apply bind_inv in H as [(e & H & _)|(placed & w2 & Hplaced & H)].
  - right.
    destruct (bool_decide (Request.method request = "POST"));
      [|apply ret_same in H; rewrite H; exact Hw1].
    destruct (clean (Request.POST request)) as [form|];
      [|apply ret_same in H; rewrite H; exact Hw1].
    unfold fmap, M_fmap, atomic in H.
    destruct (place_order _ _ _ _ _ _ _ _ w1) as [[e'|resp] w3];
      inversion H; subst. exact Hw1.
  - destruct (bool_decide (Request.method request = "POST")).
    + destruct (clean (Request.POST request)) as [form|].
      * apply fmap_inr in Hplaced as (resp & Hatomic & ->).
        apply atomic_inr in Hatomic.
        apply place_order_inr in Hatomic
          as (order & ? & ? & ? & ? & ? & ? & ? & _ & _ & _ & _ & _ & _ & _ & _ & _ & _ & ->).
        left. unfold mret, M_ret in H. inversion H; subst. eauto.
      * right. unfold mret, M_ret in Hplaced. inversion Hplaced; subst.
        etransitivity; [exact Hw1|]. eapply relates_checkout_page. exact H.
    + right. unfold mret, M_ret in Hplaced. inversion Hplaced; subst.
      etransitivity; [exact Hw1|]. eapply relates_checkout_page. exact H.
Qed.

(** X1: every outcome of [checkout_view] other than the redirect to the
    order confirmation leaves the orders, order items, products, users and
    cart items as they were: a rejection, the page of a GET request or of an
    invalid form, and an exception inside the transaction (a duplicate order
    number, an amount that does not fit its column), which the atomic block
    rolls back. *)
Theorem checkout_view_all_or_nothing clean slugify send request w r w' :
  checkout_view clean slugify send request w = (r, w') ->
  (exists n, r = inr (Redirect "orders:order_confirmation" (Some n))) \/
  nothing_placed (db w) (db w').
Proof. apply checkout_view_outcomes. Qed.

(** ** Invariants of the checkout *)

Lemma checkout_db_order_items slugify d uid cart lines row user' :
  DB.order_items (checkout_db slugify d uid cart lines row user')
  = loop_order_items (Order.id row) lines (DB.order_items d).
Proof. reflexivity. Qed.

Lemma checkout_db_products slugify d uid cart lines row user' :
  DB.products (checkout_db slugify d uid cart lines row user')
  = loop_products slugify lines (DB.products d).
Proof. reflexivity. Qed.


Lemma loop_products_Forall slugify (P : Z -> Product.t -> Prop) lines : forall m,
  map_Forall P m ->
  Forall (fun line => P (CartItem.product line.1) (saved_product slugify line)) lines ->
  map_Forall P (loop_products slugify lines m).
Proof.
  induction lines as [|line lines IH]; intros m Hm Hl; [exact Hm|].
  apply Forall_cons in Hl as [Hline Hl].
  change (loop_products slugify (line :: lines) m)
    with (loop_products slugify lines
            (<[CartItem.product line.1 := saved_product slugify line]> m)).
  apply IH; [|exact Hl]. apply map_Forall_insert_2; assumption.
Qed.

Lemma find_none_Forall {A} (f : A -> bool) l :
  List.find f l = None -> Forall (fun x => f x = false) l.
Proof.
  intros H. apply Forall_forall. intros x Hx.
  apply (find_none f l H). apply list_elem_of_In. exact Hx.
Qed.

(** X3: no stock goes negative: if no product has a negative stock before
    [checkout_view], none has one after it, whatever the outcome.  The stock
    written for a line is the stock read minus the quantity, and the view only
    gets there when the quantity is at most the stock read. *)
Theorem checkout_keeps_stocks_nonneg clean slugify send request w r w' :
  stocks_nonneg (db w) ->
  checkout_view clean slugify send request w = (r, w') ->
  stocks_nonneg (db w').
Proof.
  unfold stocks_nonneg. intros Hs H.
  destruct (checkout_view_outcomes _ _ _ _ _ _ _ H) as [[n ->]|(_ & _ & Hp & _)].
  - apply checkout_success_spec in H
      as (uid & user & cart & w1 & form & co2 & f & g & H). cbn zeta in H.
    destruct H as (_ & _ & Hcart & _ & _ & Hfind & _ & _ & _ & _ & _ & _ & _ & _ & _ & _ & Hdb).
    apply get_or_create_cart_frame in Hcart as ((_ & Hp & _) & _).
    rewrite Hdb, checkout_db_products, Hp.
    apply loop_products_Forall; [exact Hs|].
    apply find_none_Forall in Hfind.
    eapply Forall_impl; [exact Hfind|].
    intros [item product] Hline. cbn in Hline. apply Z.ltb_ge in Hline.
    rewrite saved_product_stock. cbn. lia.
  - rewrite Hp. exact Hs.
Qed.

Lemma snapshot_subtotals order_pk lines news :
  Forall2 (snapshot_of order_pk) lines news ->
  OrderItem_subtotal <$> news = (fun line => Dec.mk (line_cents line) (-2)) <$> lines.
Proof.
  induction 1 as [|line oi lines news (_ & _ & Hq & _ & Hp & _) _ IH]; [reflexivity|].
  cbn. f_equal; [|exact IH].
  unfold OrderItem_subtotal, line_cents, Dec.mul, Dec.of_cents, Dec.of_int.
  rewrite Hq, Hp. reflexivity.
Qed.

(** X4: the order items of a placed order add up to its subtotal: the sum of
    [OrderItem.subtotal] (snapshotted price times quantity) over the items
    created by a successful checkout equals the subtotal kept in the order
    row. *)
Theorem order_items_add_up_to_subtotal clean slugify send request w n w' :
  checkout_view clean slugify send request w
    = (inr (Redirect "orders:order_confirmation" (Some n)), w') ->
  exists row new_items,
    DB.orders (db w') = DB.orders (db w) ++ [row] /\
    DB.order_items (db w') = DB.order_items (db w) ++ new_items /\
    Forall (fun oi => OrderItem.order oi = Order.id row) new_items /\
    Py.sum_dec (OrderItem_subtotal <$> new_items) = Dec.of_cents (Order.r_subtotal row).
Proof.
  intros H.
  apply checkout_success_spec in H
    as (uid & user & cart & w1 & form & co2 & f & g & H). cbn zeta in H.
  destruct H as (_ & _ & Hcart & _ & Hne & _ & _ & _ & _ & _ & _ & _ & _ & _ & _ & _ & Hdb).
  apply get_or_create_cart_frame in Hcart as ((_ & _ & _ & Ho & Hoi & _) & _).
  set (lines := select_related_product (db w1) (items_all (db w1) cart)) in *.
  destruct (loop_order_items_spec (next_pk (Order.id <$> DB.orders (db w1))) lines
              (DB.order_items (db w1))) as (news & Hnews & Hsnap).
  eexists _, news. rewrite Hdb, checkout_db_orders, checkout_db_order_items.
  cbn [Order.id Order.r_subtotal]. rewrite Hnews, Ho, Hoi.
  split_and!; try reflexivity.
  - rewrite Ho in Hsnap. clear -Hsnap.
    induction Hsnap as [|? ? ? ? (Hpk & _) _ IH]; constructor; assumption.
  - rewrite (snapshot_subtotals _ _ _ Hsnap).
    rewrite (list_fmap_compose line_cents (fun c => Dec.mk c (-2))).
    apply sum_dec_cents. destruct lines; [congruence|discriminate].
Qed.

Lemma other_cart_keeps_items (pk pk' : Z) (l : list CartItem.t) :
  pk' <> pk ->
  filter (fun i => CartItem.cart i = pk') (filter (fun i => CartItem.cart i <> pk) l)
  = filter (fun i => CartItem.cart i = pk') l.
Proof.
  intros Hne. induction l as [|i l IH]; [reflexivity|].
  rewrite (filter_cons (fun i => CartItem.cart i <> pk)).
  rewrite (filter_cons (fun i => CartItem.cart i = pk') i l).
  destruct (decide (CartItem.cart i <> pk)) as [Hd|Hd].
  - rewrite filter_cons. destruct (decide (CartItem.cart i = pk')); rewrite IH; reflexivity.
  - destruct (decide (CartItem.cart i = pk')) as [He|He]; [|exact IH].
    exfalso. apply Hd. congruence.
Qed.

(** X5: a successful checkout touches the purchaser's rows only: every
    other user's loyalty fields, the items of every other cart and the table
    of carts are as they were when the cart was looked up. *)
Theorem checkout_leaves_others_alone clean slugify send request w n w' :
  checkout_view clean slugify send request w
    = (inr (Redirect "orders:order_confirmation" (Some n)), w') ->
  exists uid cart w1,
    Request.user request = Some uid /\
    get_or_create_cart request w = (inr cart, w1) /\
    (forall uid', uid' <> uid -> DB.users (db w') !! uid' = DB.users (db w) !! uid') /\
    (forall c, Cart.id c <> Cart.id cart -> items_all (db w') c = items_all (db w) c) /\
    DB.carts (db w') = DB.carts (db w1) /\
    DB.activities (db w') = DB.activities (db w).
Proof.
  intros H.
  apply checkout_success_spec in H
    as (uid & user & cart & w1 & form & co2 & f & g & H). cbn zeta in H.
  destruct H as (Hu & _ & Hcart & _ & _ & _ & _ & _ & _ & _ & _ & _ & _ & _ & _ & _ & Hdb).
  pose proof (get_or_create_cart_frame _ _ _ _ Hcart)
    as ((Hci & _ & Hus & _ & _ & Ha) & _).
  exists uid, cart, w1. rewrite Hdb. split_and!; try assumption; try reflexivity.
  - intros uid' Hne. rewrite checkout_db_users, Hus. apply lookup_insert_ne. congruence.
  - intros c Hc. unfold items_all. cbn [checkout_db DB.cart_items]. rewrite Hci.
    apply other_cart_keeps_items. exact Hc.
Qed.

(** ** The order pages *)

Lemma order_page_inv (view : Request.t -> string -> M PageResponse) template prefix
    request order_number w t o items w' :
  (forall request order_number,
     view request order_number
     = (d0 ← gets id;
        match uid ← Request.user request; u ← DB.users d0 !! uid; Some (uid, u) with
        | None => mret PageLogin
        | Some (uid, _) =>
            order ← get_order_or_404 order_number uid;
            track_user_activity uid (prefix +:+ order_number);;
            order_items ← gets (fun d => order_items_all d order);
            mret (OrderPage template order order_items)
        end)) ->
  view request order_number w = (inr (OrderPage t o items), w') ->
  exists uid,
    Request.user request = Some uid /\
    Order.r_user o = uid /\
    Order.r_order_number o = order_number /\
    o ∈ DB.orders (db w) /\
    items = order_items_all (db w) o /\
    t = template /\
    nothing_placed (db w) (db w') /\
    DB.activities (db w') = DB.activities (db w) ++ [(uid, prefix +:+ order_number)].
Proof.
  intros Hview. rewrite Hview, bind_gets. unfold id.
  destruct (Request.user request) as [uid|]; cbn [mbind option_bind]; [|discriminate].
  destruct (DB.users (db w) !! uid) as [user|]; cbn [mbind option_bind]; [|discriminate].
  intros H. apply bind_inr in H as (order & w1 & Hget & H).
  unfold get_order_or_404 in Hget. rewrite bind_gets in Hget.
  destruct (filter _ _) as [|o' [|o'' l]] eqn:Ef; try discriminate.
  unfold mret, M_ret in Hget. inversion Hget; subst o' w1; clear Hget.
  assert (order ∈ filter (fun o => Order.r_order_number o = order_number /\
                                   Order.r_user o = uid) (DB.orders (db w))) as Hin
    by (rewrite Ef; left).
  apply list_elem_of_filter in Hin as [[Hn Hu] Hin].
  apply bind_inr in H as ([] & w1 & Htrack & H).
  unfold track_user_activity, modify in Htrack. inversion Htrack; subst w1; clear Htrack.
  rewrite bind_gets in H. unfold mret, M_ret in H. inversion H; subst; clear H.
  exists (Order.r_user o). split_and!; try reflexivity; try assumption.
  cbn. repeat split.
Qed.

(** X6: the order pages show a user's own orders only: when
    [order_confirmation_view] or [order_detail_view] answers with a page, the
    order on it has the requested number and belongs to the requesting user,
    its items are that order's items, and the view has written nothing but one
    activity row. *)
Theorem order_pages_show_own_orders request order_number w t o items w' :
  order_confirmation_view request order_number w = (inr (OrderPage t o items), w') \/
  order_detail_view request order_number w = (inr (OrderPage t o items), w') ->
  exists uid,
    Request.user request = Some uid /\
    Order.r_user o = uid /\
    Order.r_order_number o = order_number /\
    o ∈ DB.orders (db w) /\
    items = order_items_all (db w) o /\
    nothing_placed (db w) (db w').
Proof.
  intros [H|H].
  - eapply (order_page_inv order_confirmation_view) in H; [|reflexivity].
    destruct H as (uid & ? & ? & ? & ? & ? & _ & ? & _). exists uid.
    split_and!; assumption.
  - eapply (order_page_inv order_detail_view) in H; [|reflexivity].
    destruct H as (uid & ? & ? & ? & ? & ? & _ & ? & _). exists uid.
    split_and!; assumption.
Qed.

Lemma filter_none {A} (P : A -> Prop) `{!forall x, Decision (P x)} (l : list A) :
  (forall x, x ∈ l -> ~ P x) -> filter P l = [].
Proof.
  induction l as [|x l IH]; intros Hno; [reflexivity|].
  rewrite filter_cons. destruct (decide (P x)) as [HP|_].
  - exfalso. apply (Hno x); [left|exact HP].
  - apply IH. intros y Hy. apply Hno. right. exact Hy.
Qed.

(** X7: an order of somebody else is not found: when no order with the
    requested number belongs to the requesting user, both order pages raise
    [Http404], whoever owns an order with that number, and nothing is
    written, not even the activity row. *)
Theorem order_pages_hide_foreign_orders request order_number w uid user :
  Request.user request = Some uid ->
  DB.users (db w) !! uid = Some user ->
  (forall o, o ∈ DB.orders (db w) -> Order.r_order_number o = order_number ->
             Order.r_user o <> uid) ->
  order_confirmation_view request order_number w = (inl Http404, w) /\
  order_detail_view request order_number w = (inl Http404, w).
Proof.
  intros Hu Huser Hforeign.
  assert (filter (fun o => Order.r_order_number o = order_number /\ Order.r_user o = uid)
                 (DB.orders (db w)) = []) as Hnone.
  { apply filter_none. intros o Ho [Hn Hown]. exact (Hforeign o Ho Hn Hown). }
  assert (get_order_or_404 order_number uid w = (inl Http404, w)) as Hget.
  { unfold get_order_or_404. rewrite bind_gets, Hnone. reflexivity. }
  unfold order_confirmation_view, order_detail_view.
  rewrite !bind_gets. unfold id. rewrite Hu. cbn [mbind option_bind].
  rewrite Huser. cbn [mbind option_bind].
  rewrite !(bind_inl _ _ _ _ _ Hget). split; reflexivity.
Qed.

Lemma fresh_order_has_no_items d pk :
  order_items_have_orders d ->
  pk = next_pk (Order.id <$> DB.orders d) ->
  filter (fun oi => OrderItem.order oi = pk) (DB.order_items d) = [].
Proof.
  intros Hfk ->. apply filter_none. intros oi Hoi Heq.
  specialize (Hfk oi Hoi). apply next_pk_fresh in Hfk. lia.
Qed.

Lemma filter_all {A} (P : A -> Prop) `{!forall x, Decision (P x)} (l : list A) :
  Forall P l -> filter P l = l.
Proof.
  induction 1 as [|x l HP _ IH]; [reflexivity|].
  rewrite filter_cons. destruct (decide (P x)); [|tauto]. rewrite IH. reflexivity.
Qed.

Lemma order_confirmation_view_found request order_number w uid user row :
  Request.user request = Some uid ->
  DB.users (db w) !! uid = Some user ->
  filter (fun o => Order.r_order_number o = order_number /\ Order.r_user o = uid)
         (DB.orders (db w)) = [row] ->
  exists w',
    order_confirmation_view request order_number w
      = (inr (OrderPage "orders/order_confirmation.html" row (order_items_all (db w) row)),
         w') /\
    nothing_placed (db w) (db w').
Proof.
  intros Hu Huser Hfind.
  assert (get_order_or_404 order_number uid w = (inr row, w)) as Hget.
  { unfold get_order_or_404. rewrite bind_gets, Hfind. reflexivity. }
  unfold order_confirmation_view.
  rewrite bind_gets. unfold id. rewrite Hu. cbn [mbind option_bind].
  rewrite Huser. cbn [mbind option_bind].
  rewrite (bind_eq _ _ _ _ _ Hget).
  eexists. split; [reflexivity|]. cbn. repeat split.
Qed.

(** X8: the confirmation page after a checkout shows the order just placed:
    following the redirect of a successful checkout, [order_confirmation_view]
    renders the new order row with exactly the order items the checkout
    created, one per cart line, provided the order items in the table all
    belong to orders of the table. *)
Theorem confirmation_shows_placed_order clean slugify send request w n w' :
  order_items_have_orders (db w) ->
  checkout_view clean slugify send request w
    = (inr (Redirect "orders:order_confirmation" (Some n)), w') ->
  exists row new_items w'',
    DB.orders (db w') = DB.orders (db w) ++ [row] /\
    DB.order_items (db w') = DB.order_items (db w) ++ new_items /\
    order_confirmation_view request n w'
      = (inr (OrderPage "orders/order_confirmation.html" row new_items), w'') /\
    nothing_placed (db w') (db w'').
Proof.
  intros Hfk H.
  apply checkout_success_spec in H
    as (uid & user & cart & w1 & form & co2 & f & g & H). cbn zeta in H.
  destruct H as (Hu & Huser & Hcart & _ & _ & _ & _ & _ & Hn & Hfresh & _ & _ & _ & _ & _ & _
                 & Hdb).
  apply get_or_create_cart_frame in Hcart as ((_ & _ & _ & Ho & Hoi & _) & _).
  set (lines := select_related_product (db w1) (items_all (db w1) cart)) in *.
  set (pk := next_pk (Order.id <$> DB.orders (db w1))) in *.
  destruct (loop_order_items_spec pk lines (DB.order_items (db w1)))
    as (news & Hnews & Hsnap).
  set (row := Order.mk_row pk form uid n "pending" _ _ _ _ _ _) in Hdb.
  assert (DB.orders (db w') = DB.orders (db w) ++ [row]) as Horders.
  { rewrite Hdb, checkout_db_orders, Ho. reflexivity. }
  assert (DB.order_items (db w') = DB.order_items (db w) ++ news) as Hitems.
  { rewrite Hdb, checkout_db_order_items. cbn [Order.id row]. rewrite Hnews, Hoi.
    reflexivity. }
  assert (filter (fun o => Order.r_order_number o = n /\ Order.r_user o = uid)
                 (DB.orders (db w')) = [row]) as Hfind.
  { rewrite Horders, filter_app.
    rewrite (filter_none _ (DB.orders (db w))).
    - rewrite filter_cons, filter_nil. destruct (decide _) as [_|Hno]; [reflexivity|].
      exfalso. apply Hno. split; reflexivity.
    - intros o Hin [Hnum _]. apply Hfresh. rewrite Ho.
      apply list_elem_of_fmap. exists o. auto. }
  assert (order_items_all (db w') row = news) as Hpage.
  { unfold order_items_all. rewrite Hitems, filter_app.
    rewrite (fresh_order_has_no_items (db w) (Order.id row) Hfk)
      by (cbn; unfold pk; rewrite Ho; reflexivity).
    cbn [app]. apply filter_all. clear -Hsnap.
    induction Hsnap as [|? ? ? ? (Hpk & _) _ IH]; constructor; [exact Hpk|exact IH]. }
  assert (exists user', DB.users (db w') !! uid = Some user') as [user' Huser'].
  { rewrite Hdb, checkout_db_users, lookup_insert_eq. eauto. }
  destruct (order_confirmation_view_found request n w' uid user' row Hu Huser' Hfind)
    as (w'' & Hview & Hsame).
  rewrite Hpage in Hview.
  exists row, news, w''. auto.
Qed.

(** ** When the checkout goes through *)

Lemma mapM_lines_complete d items :
  Forall (fun i => is_Some (DB.products d !! CartItem.product i)) items ->
  mapM (subtotal d) items
    = Some ((fun line => Dec.mk (line_cents line) (-2)) <$> select_related_product d items) /\
  mapM (eco_points_of d) items = Some (line_points <$> select_related_product d items) /\
  (select_related_product d items).*1 = items.
Proof.
  induction 1 as [|i items [p Hp] _ (IH1 & IH2 & IH3)]; [repeat split|].
  unfold select_related_product in *. cbn [omap list_omap]. rewrite Hp.
  cbn [fmap option_fmap option_map]. rewrite !mapM_Some in *. split_and!.
  - cbn. constructor; [|exact IH1].
    unfold subtotal. rewrite Hp. cbn. unfold line_cents, Dec.mul. cbn. do 2 f_equal.
  - cbn. constructor; [|exact IH2]. unfold eco_points_of. rewrite Hp. reflexivity.
  - cbn. f_equal. exact IH3.
Qed.

Lemma format_number_fits c :
  Z.abs c < 10 ^ 10 -> Dec.format_number 10 2 (Dec.of_cents c) = Some c.
Proof.
  intros Hc. unfold Dec.format_number, Dec.quantize, Dec.of_cents, Dec.coef_at.
  cbn [Dec.coef Dec.exp]. zeval. cbn [Dec.coef Dec.exp]. zeval.
  rewrite Z.mul_1_r. change (10 ^ 10) with 10000000000 in Hc.
  apply Z.ltb_lt in Hc. rewrite Hc. reflexivity.
Qed.

Lemma format_tax_fits s :
  Z.abs (tax_cents s) < 10 ^ 10 ->
  Dec.format_number 10 2 (tax_of (Dec.of_cents s)) = Some (tax_cents s).
Proof.
  intros Hc. unfold Dec.format_number, tax_of, Dec.mul, Dec.quantize, tax_cents, Dec.of_cents
    in *.
  cbn [Dec.coef Dec.exp Dec.d0_13]. zeval. cbn [Dec.coef Dec.exp]. zeval.
  change (10 ^ 10) with 10000000000 in Hc.
  apply Z.ltb_lt in Hc. rewrite Hc. reflexivity.
Qed.

Lemma format_total_fits s :
  Z.abs (s + tax_cents s + shipping_cents s) < 10 ^ 10 ->
  Dec.format_number 10 2
    (Dec.add (Dec.add (Dec.of_cents s) (tax_of (Dec.of_cents s)))
             (shipping_of (Dec.of_cents s)))
  = Some (s + tax_cents s + shipping_cents s).
Proof.
  intros Hc. unfold Dec.of_cents at 3. rewrite shipping_of_cents.
  unfold Dec.format_number, tax_of, Dec.mul, Dec.add, Dec.quantize, Dec.coef_at,
    Dec.of_cents, tax_cents in *. cbn [Dec.coef Dec.exp Dec.d0_13]. zeval.
  cbn [Dec.coef Dec.exp]. zeval.
  replace ((s * 100 + s * 13 * 1) * 1 + shipping_cents s * 100)
    with (s * 13 + 100 * (s + shipping_cents s)) by lia.
  rewrite div_half_even_add.
  - replace (s + shipping_cents s + Dec.div_half_even (s * 13) 100)
      with (s + Dec.div_half_even (s * 13) 100 + shipping_cents s) by lia.
    change (10 ^ 10) with 10000000000 in Hc.
    apply Z.ltb_lt in Hc. rewrite Hc. reflexivity.
  - apply tax_tie_even. unfold shipping_cents. destruct (s <? 5000); auto.
Qed.

Lemma co2_of_points_complete points co2 w :
  co2_decimal points = Some co2 -> co2_of_points points w = (inr co2, w).
Proof.
  unfold co2_decimal, co2_of_points. intros H.
  destruct (Float.of_int points) eqn:E; try (rewrite H; reflexivity).
  cbn in H. destruct s; discriminate.
Qed.

Lemma loop_body_complete slugify order_pk line w :
  Z.abs (Product.price line.2) < 10 ^ 10 ->
  exists w', loop_body slugify order_pk line w = (inr tt, w').
Proof.
  destruct line as [item product]. cbn [snd]. intros Hp.
  change (loop_body slugify order_pk (item, product))
    with (OrderItem_create order_pk (CartItem.product item) (Product.name product)
            (Dec.of_cents (Product.price product)) (CartItem.quantity item)
            (Product.eco_score product);;
          Product_save slugify (CartItem.product item)
            (Product.with_stock (Product.stock product - CartItem.quantity item) product)).
  assert (exists w1,
            OrderItem_create order_pk (CartItem.product item) (Product.name product)
              (Dec.of_cents (Product.price product)) (CartItem.quantity item)
              (Product.eco_score product) w = (inr tt, w1)) as [w1 Hcreate].
  { unfold OrderItem_create. rewrite (format_number_fits _ Hp), bind_or_raise.
    eexists. reflexivity. }
  rewrite (bind_eq _ _ _ _ _ Hcreate). eexists. reflexivity.
Qed.

Lemma for_each_loop_complete slugify order_pk lines : forall w,
  Forall (fun line => Z.abs (Product.price line.2) < 10 ^ 10) lines ->
  exists w', for_each (loop_body slugify order_pk) lines w = (inr tt, w').
Proof.
  induction lines as [|line lines IH]; intros w Hfit.
  - eexists. reflexivity.
  - apply Forall_cons in Hfit as [Hp Hfit]. cbn [for_each].
    destruct (loop_body_complete slugify order_pk line w Hp) as [w1 Hstep].
    rewrite (bind_eq _ _ _ _ _ Hstep). apply IH. exact Hfit.
Qed.

Lemma place_order_complete slugify send request uid user cart lines form w co2 :
  let joined := select_related_product (db w) (items_all (db w) cart) in
  let s := Py.sum_int (line_cents <$> joined) in
  let points := Py.sum_int (line_points <$> joined) in
  items_all (db w) cart <> [] ->
  Forall (fun i => is_Some (DB.products (db w) !! CartItem.product i))
         (items_all (db w) cart) ->
  Forall (fun line => Z.abs (Product.price line.2) < 10 ^ 10) lines ->
  (order_number_of request ∉ Order.r_order_number <$> DB.orders (db w)) ->
  Z.abs s < 10 ^ 10 ->
  Z.abs (tax_cents s) < 10 ^ 10 ->
  Z.abs (s + tax_cents s + shipping_cents s) < 10 ^ 10 ->
  co2_decimal points = Some co2 ->
  is_Some (Dec.format_number 10 2 co2) ->
  is_Some (Dec.format_number 10 2 (Dec.add (Dec.of_cents (User.co2_saved user)) co2)) ->
  exists w',
    place_order slugify send request uid user cart lines form w
    = (inr (Redirect "orders:order_confirmation" (Some (order_number_of request))), w').
Proof.
  intros joined s points Hne Hprods Hfit Hfresh Hs Htax Htotal Hco2 [f Hf] [g Hg].
  destruct (mapM_lines_complete _ _ Hprods) as (Hsubs & Heps & Hfst).
  fold joined in Hsubs, Heps, Hfst.
  assert (joined <> []) as Hjoined.
  { intros Hnil. apply Hne. rewrite <- Hfst, Hnil. reflexivity. }
  assert (total_price cart w = (inr (Dec.of_cents s), w)) as Htp.
  { unfold total_price. rewrite bind_gets. unfold id. rewrite Hsubs. cbn.
    rewrite (list_fmap_compose line_cents (fun c => Dec.mk c (-2))).
    rewrite sum_dec_cents; [reflexivity|].
    destruct joined; [congruence|discriminate]. }
  assert (total_eco_points cart w = (inr points, w)) as Hep.
  { unfold total_eco_points. rewrite bind_gets. unfold id. rewrite Heps. reflexivity. }
  set (order := Order.mk form uid (order_number_of request) "pending" (Dec.of_cents s)
                  (tax_of (Dec.of_cents s)) (shipping_of (Dec.of_cents s))
                  (Dec.add (Dec.add (Dec.of_cents s) (tax_of (Dec.of_cents s)))
                           (shipping_of (Dec.of_cents s))) points co2).
  assert (new_order request uid cart form w = (inr order, w)) as Horder.
  { unfold new_order.
    assert ((tax_of <$> total_price cart) w = (inr (tax_of (Dec.of_cents s)), w)) as Ht
      by (unfold fmap, M_fmap; rewrite Htp; reflexivity).
    assert ((shipping_of <$> total_price cart) w = (inr (shipping_of (Dec.of_cents s)), w))
      as Hsh by (unfold fmap, M_fmap; rewrite Htp; reflexivity).
    assert ((total_eco_points cart ≫= co2_of_points) w = (inr co2, w)) as Hc
      by (rewrite (bind_eq _ _ _ _ _ Hep); apply co2_of_points_complete; exact Hco2).
    rewrite (bind_eq _ _ _ _ _ Htp), (bind_eq _ _ _ _ _ Ht), (bind_eq _ _ _ _ _ Hsh),
      (bind_eq _ _ _ _ _ Hep), (bind_eq _ _ _ _ _ Hc).
    reflexivity. }
  assert (exists w1, Order_save order w
                     = (inr (next_pk (Order.id <$> DB.orders (db w))), w1)) as [w1 Hsave].
  { unfold Order_save. cbn [Order.subtotal Order.tax Order.shipping_cost Order.total
                            Order.co2_saved order].
    rewrite (format_number_fits _ Hs), (format_tax_fits _ Htax),
      (format_total_fits _ Htotal).
    rewrite (shipping_of_cents s : shipping_of (Dec.of_cents s) = _).
    rewrite (format_number_fits (shipping_cents s))
      by (unfold shipping_cents; destruct (s <? 5000); cbn; lia).
    rewrite Hf. cbn [mbind option_bind].
    rewrite bind_or_raise, bind_gets. unfold id. cbn [Order.order_number order].
    rewrite bool_decide_eq_false_2 by exact Hfresh.
    eexists. reflexivity. }
  unfold place_order.
  rewrite (bind_eq _ _ _ _ _ Horder), (bind_eq _ _ _ _ _ Hsave).
  destruct (for_each_loop_complete slugify (next_pk (Order.id <$> DB.orders (db w)))
              lines w1 Hfit) as [w2 Hloop].
  change (fun '(cart_item, product) =>
            OrderItem_create _ (CartItem.product cart_item) (Product.name product)
              (Product.price_dec product) (CartItem.quantity cart_item)
              (Product.eco_score product);;
            Product_save slugify (CartItem.product cart_item)
              (Product.with_stock (Product.stock product - CartItem.quantity cart_item)
                                  product))
    with (loop_body slugify (next_pk (Order.id <$> DB.orders (db w)))).
  rewrite (bind_eq _ _ _ _ _ Hloop).
  assert (exists w3,
            User_save uid (User.eco_points user + Order.eco_points_earned order)
              (User.total_orders user + 1)
              (Dec.add (Dec.of_cents (User.co2_saved user)) (Order.co2_saved order)) w2
            = (inr tt, w3)) as [w3 Huser].
  { unfold User_save. cbn [Order.co2_saved order]. rewrite Hg, bind_or_raise.
    eexists. reflexivity. }
  rewrite (bind_eq _ _ _ _ _ Huser).
  cbv [mbind M_bind modify gets id]. cbv beta iota.
  destruct (send _ _) as [msg|]; eexists; reflexivity.
Qed.

Lemma Forall_find_none {A} (f : A -> bool) l :
  Forall (fun x => f x = false) l -> List.find f l = None.
Proof.
  induction 1 as [|x l Hx _ IH]; [reflexivity|]. cbn. rewrite Hx. exact IH.
Qed.

(** X9: the checkout goes through whenever its preconditions hold: for an
    authenticated POST with a valid form, a non-empty cart whose lines all
    have an existing product with enough stock and with a slug (so that
    [Product.save] has none to derive for the unique slug column), an order
    number not yet in use, and amounts that fit their ten-digit columns,
    [checkout_view] answers with the redirect to the confirmation of that
    order number. *)
Theorem checkout_succeeds clean slugify send request w uid user cart w1 form co2 :
  let lines := select_related_product (db w) (items_all (db w) cart) in
  let s := Py.sum_int (line_cents <$> lines) in
  let points := Py.sum_int (line_points <$> lines) in
  Request.user request = Some uid ->
  DB.users (db w) !! uid = Some user ->
  get_or_create_cart request w = (inr cart, w1) ->
  Request.method request = "POST" ->
  clean (Request.POST request) = Some form ->
  items_all (db w) cart <> [] ->
  Forall (fun i => is_Some (DB.products (db w) !! CartItem.product i))
         (items_all (db w) cart) ->
  Forall (fun line => CartItem.quantity line.1 <= Product.stock line.2 /\
                      Z.abs (Product.price line.2) < 10 ^ 10 /\
                      Product.slug line.2 <> "") lines ->
  (order_number_of request ∉ Order.r_order_number <$> DB.orders (db w)) ->
  Z.abs s < 10 ^ 10 ->
  Z.abs (tax_cents s) < 10 ^ 10 ->
  Z.abs (s + tax_cents s + shipping_cents s) < 10 ^ 10 ->
  co2_decimal points = Some co2 ->
  is_Some (Dec.format_number 10 2 co2) ->
  is_Some (Dec.format_number 10 2 (Dec.add (Dec.of_cents (User.co2_saved user)) co2)) ->
  exists w',
    checkout_view clean slugify send request w
    = (inr (Redirect "orders:order_confirmation" (Some (order_number_of request))), w').
Proof.
  intros lines s points Hu Huser Hcart Hpost Hform Hne Hprods Hlines Hfresh Hs Htax Htotal
         Hco2 Hf Hg.
  pose proof (get_or_create_cart_frame _ _ _ _ Hcart)
    as ((Hci & Hp & Hus & Ho & _) & _).
  assert (items_all (db w1) cart = items_all (db w) cart) as Hitems
    by (apply items_all_same; exact Hci).
  assert (select_related_product (db w1) (items_all (db w1) cart) = lines) as Hjoin.
  { rewrite Hitems. apply select_related_same. exact Hp. }
  destruct (place_order_complete slugify send request uid user cart lines form w1 co2)
    as [w' Hplace].
  - rewrite Hitems. exact Hne.
  - rewrite Hitems, Hp. exact Hprods.
  - eapply Forall_impl; [exact Hlines|]. cbn. tauto.
  - rewrite Ho. exact Hfresh.
  - rewrite Hjoin. exact Hs.
  - rewrite Hjoin. exact Htax.
  - rewrite Hjoin. exact Htotal.
  - rewrite Hjoin. exact Hco2.
  - exact Hf.
  - exact Hg.
  - exists w'. unfold checkout_view. rewrite bind_gets. unfold id.
    rewrite Hu. cbn [mbind option_bind]. rewrite Huser. cbn [mbind option_bind].
    rewrite (bind_eq _ _ _ _ _ Hcart), bind_gets, Hjoin.
    rewrite bool_decide_eq_false_2.
    2:{ destruct (mapM_lines_complete _ _ Hprods) as (_ & _ & Hfst).
        fold lines in Hfst. intros Hnil. apply Hne. rewrite <- Hfst, Hnil. reflexivity. }
    rewrite (Forall_find_none
               (fun '(item, product) => Product.stock product <? CartItem.quantity item)).
    2:{ eapply Forall_impl; [exact Hlines|]. intros [item product] [Hq _]. cbn in *.
        apply Z.ltb_ge. exact Hq. }
    rewrite bool_decide_eq_true_2 by exact Hpost. rewrite Hform.
    unfold mbind, M_bind, fmap, M_fmap, atomic. rewrite Hplace. reflexivity.
Qed.

(** ** Looking up the cart *)

Lemma get_or_create_found matching new w c w1 :
  (forall pk, matching (new pk) = true) ->
  get_or_create matching new w = (inr c, w1) ->
  List.filter matching (DB.carts (db w1)) = [c] /\
  session_key w1 = session_key w /\ cart_session_key w1 = cart_session_key w.
Proof.
  intros Hnew. unfold get_or_create. rewrite bind_gets.
  destruct (List.filter matching (DB.carts (db w))) as [|c0 [|c1 l]] eqn:E.
  - rewrite bind_gets. cbn. intros H. inversion H; subst; clear H. cbn.
    rewrite List.filter_app, E. cbn. rewrite Hnew. auto.
  - cbn. intros H. inversion H; subst. auto.
  - discriminate.
Qed.

Lemma get_or_create_cart_found request w cart w1 :
  get_or_create_cart request w = (inr cart, w1) ->
  match Request.user request with
  | Some uid =>
      List.filter (fun c => bool_decide (Cart.user c = Some uid)) (DB.carts (db w1)) = [cart] /\
      w1 = set_db (db w1) w
  | None =>
      exists k,
        (session_key w = Some k /\ k <> "" \/ k = Request.new_session_key request) /\
        List.filter (fun c => bool_decide (Cart.session_key c = Some k)) (DB.carts (db w1))
        = [cart] /\
        w1 = mkWorld (db w1) (Some k) (Some k) (messages w) (stdout w)
  end.
Proof.
  unfold get_or_create_cart. destruct (Request.user request) as [uid|].
  - intros H. pose proof (get_or_create_frame _ _ _ _ _ H) as (_ & Hm & Hout & _).
    apply get_or_create_found in H as (Hf & Hs & Hc).
    2:{ intros pk. apply bool_decide_eq_true_2. reflexivity. }
    split; [exact Hf|]. destruct w1; cbn in *. unfold set_db. congruence.
  - intros H. apply bind_inr in H as (sk & w2 & Hsk & H). inversion Hsk; subst; clear Hsk.
    apply bind_inr in H as (k & w3 & Hk & H).
    apply bind_inr in H as (c & w4 & Hc & H).
    apply bind_inr in H as ([] & w5 & Hset & H).
    unfold mret, M_ret in H. inversion H; subst; clear H.
    unfold set_cart_session_key in Hset. inversion Hset; subst; clear Hset. cbn.
    pose proof (get_or_create_frame _ _ _ _ _ Hc) as (_ & Hm & Hout & _).
    apply get_or_create_found in Hc as (Hf & Hs & Hcs).
    2:{ intros pk. apply bool_decide_eq_true_2. reflexivity. }
    exists k. split; [|split; [exact Hf|]].
    + destruct (session_key w2) as [k0|] eqn:Esk.
      * destruct (bool_decide (k0 = "")) eqn:Ek.
        -- right. unfold session_create in Hk. inversion Hk. reflexivity.
        -- left. apply bool_decide_eq_false in Ek. unfold mret, M_ret in Hk.
           inversion Hk; subst. auto.
      * right. unfold session_create in Hk. inversion Hk. reflexivity.
    + rewrite Hm, Hout, Hs.
      assert (session_key w3 = Some k /\ messages w3 = messages w2
              /\ stdout w3 = stdout w2) as (-> & -> & ->); [|reflexivity].
      destruct (session_key w2) as [k0|] eqn:Esk.
      * destruct (bool_decide (k0 = "")).
        -- unfold session_create in Hk. inversion Hk. auto.
        -- unfold mret, M_ret in Hk. inversion Hk; subst. auto.
      * unfold session_create in Hk. inversion Hk. auto.
Qed.

(** X10: looking the cart up twice gives the same cart: after a call of
    [get_or_create_cart] that returned a cart, a second call for the same
    request returns that cart again and changes nothing, neither the tables nor
    the session; the cart is a row of the table, and it is the cart of the
    user when the request has one, of the session otherwise. *)
Theorem get_or_create_cart_idempotent request w cart w1 :
  get_or_create_cart request w = (inr cart, w1) ->
  get_or_create_cart request w1 = (inr cart, w1) /\
  cart ∈ DB.carts (db w1) /\
  match Request.user request with
  | Some uid => Cart.user cart = Some uid
  | None => Cart.session_key cart = session_key w1 /\ cart_session_key w1 = session_key w1
  end.
Proof.
  intros H. pose proof (get_or_create_cart_elem _ _ _ _ H) as Hin.
  pose proof (get_or_create_cart_found _ _ _ _ H) as Hfound.
  unfold get_or_create_cart. destruct (Request.user request) as [uid|].
  - destruct Hfound as [Hf _]. split_and!; [|exact Hin|].
    + unfold get_or_create. rewrite bind_gets, Hf. reflexivity.
    + assert (List.In cart (List.filter (fun c => bool_decide (Cart.user c = Some uid))
                                        (DB.carts (db w1)))) as Hc
        by (rewrite Hf; left; reflexivity).
      apply filter_In in Hc as [_ Hc]. apply bool_decide_eq_true in Hc. exact Hc.
  - destruct Hfound as (k & Hk & Hf & Hw1).
    assert (List.In cart (List.filter (fun c => bool_decide (Cart.session_key c = Some k))
                                      (DB.carts (db w1)))) as Hc
      by (rewrite Hf; left; reflexivity).
    apply filter_In in Hc as [_ Hc]. apply bool_decide_eq_true in Hc.
    rewrite Hw1 in *. cbn [db session_key cart_session_key] in *.
    split_and!; auto.
    unfold mbind at 1, M_bind at 1. cbn [session_key].
    destruct (bool_decide (k = "")) eqn:Ek.
    + apply bool_decide_eq_true in Ek.
      assert (k = Request.new_session_key request) as Hnew
        by (destruct Hk as [[_ Hk]| ->]; [congruence|reflexivity]).
      unfold mbind at 1, M_bind at 1. unfold session_create at 1.
      cbn [db cart_session_key messages stdout].
      rewrite <- Hnew.
      unfold mbind at 1, M_bind at 1. unfold get_or_create. rewrite bind_gets.
      cbn [db]. rewrite Hf. reflexivity.
    + unfold mbind at 1, M_bind at 1. cbn.
      unfold mbind at 1, M_bind at 1. unfold get_or_create. rewrite bind_gets.
      cbn [db]. rewrite Hf. reflexivity.
Qed.

(** X11: the cart badge counts the cart the views work on: once
    [get_or_create_cart] has returned a cart, [cart_count] for the same
    request finds that cart (by the user, or by the [cart_session_key] the
    lookup left in the session) and answers with its total number of items. *)
Theorem cart_count_matches_cart request w cart w1 :
  get_or_create_cart request w = (inr cart, w1) ->
  cart_count request w1 = (inr (count_in (db w1) cart), w1).
Proof.
  intros H. apply get_or_create_cart_found in H. unfold cart_count, count_of.
  destruct (Request.user request) as [uid|].
  - destruct H as [Hf _]. rewrite bind_gets, Hf. reflexivity.
  - destruct H as (k & _ & Hf & Hw1). rewrite Hw1 in *. cbn [db] in *.
    unfold mbind at 1, M_bind at 1. cbn [cart_session_key].
    rewrite bind_gets. cbn [db]. rewrite Hf. reflexivity.
Qed.

(** ** What the cart views write *)

Lemma action_cases (action : option string) {T} (a b c : T) :
  match action with
  | Some "increase" => a
  | Some "decrease" => b
  | _ => c
  end
  = if decide (action = Some "increase") then a
    else if decide (action = Some "decrease") then b else c.
Proof.
  destruct (decide (action = Some "increase")) as [->|Hinc]; [reflexivity|].
  destruct (decide (action = Some "decrease")) as [->|Hdec]; [reflexivity|].
  destruct action as [action|]; [|reflexivity].
  repeat (match goal with
          | |- context [match ?s with EmptyString => _ | String _ _ => _ end] =>
              destruct s; try reflexivity
          | |- context [match ?a with Ascii _ _ _ _ _ _ _ _ => _ end] =>
              destruct a as [[] [] [] [] [] [] [] []]; try reflexivity
          end); congruence.
Qed.

Lemma get_cart_item_or_404_inv item_id cart w r w' :
  get_cart_item_or_404 item_id cart w = (r, w') ->
  w' = w /\
  (r = inl Http404 \/ r = inl MultipleObjectsReturned \/
   exists i, r = inr i /\
     i ∈ DB.cart_items (db w) /\ CartItem.id i = item_id /\ CartItem.cart i = Cart.id cart).
Proof.
  unfold get_cart_item_or_404. rewrite bind_gets.
  destruct (filter _ _) as [|i [|i' l]] eqn:E; cbn; intros H; inversion H; subst;
    (split; [reflexivity|]); auto.
  right. right. exists i. split; [reflexivity|].
  assert (i ∈ filter (fun r => CartItem.id r = item_id /\ CartItem.cart r = Cart.id cart)
                     (DB.cart_items (db w'))) as Hin by (rewrite E; left).
  apply list_elem_of_filter in Hin as [[Hid Hc] Hin]. auto.
Qed.

Lemma cart_tables_only_refl d : cart_tables_only d d.
Proof. repeat split. Qed.

Lemma cart_tables_only_lookup request w r w1 :
  get_or_create_cart request w = (r, w1) ->
  cart_tables_only (db w) (db w1) /\ DB.cart_items (db w1) = DB.cart_items (db w).
Proof.
  intros H. apply get_or_create_cart_frame in H as ((? & ? & ? & ? & ? & ?) & _).
  repeat split; assumption.
Qed.

(** The three things [update_cart] can do to the addressed row. *)
Lemma update_cart_db request item_id w r w' :
  update_cart request item_id w = (r, w') ->
  cart_tables_only (db w) (db w') /\
  (DB.cart_items (db w') = DB.cart_items (db w) \/
   exists cart w1 i,
     get_or_create_cart request w = (inr cart, w1) /\
     i ∈ DB.cart_items (db w) /\ CartItem.id i = item_id /\
     CartItem.cart i = Cart.id cart /\
     ((exists p, DB.products (db w) !! CartItem.product i = Some p /\
                 CartItem.quantity i < Product.stock p /\
                 DB.cart_items (db w')
                 = saved_items (CartItem.quantity i + 1) i (DB.cart_items (db w))) \/
      (1 < CartItem.quantity i /\
       DB.cart_items (db w')
       = saved_items (CartItem.quantity i - 1) i (DB.cart_items (db w))) \/
      (CartItem.quantity i <= 1 /\
       DB.cart_items (db w') = deleted_items i (DB.cart_items (db w))))).
Proof.
  unfold update_cart. intros H.
  apply bind_inv in H as [(e & H & _)|(cart & w1 & Hcart & H)].
  { apply cart_tables_only_lookup in H as [? ?]. auto. }
  destruct (cart_tables_only_lookup _ _ _ _ Hcart) as [Hfr Hci].
  destruct Hfr as (Hp & Hus & Ho & Hoi & Ha).
  apply bind_inv in H as [(e & H & _)|(i & w2 & Hget & H)].
  { apply get_cart_item_or_404_inv in H as [-> _]. split; [repeat split; assumption|auto]. }
  apply get_cart_item_or_404_inv in Hget as [-> Hi].
  destruct Hi as [Hi|[Hi|(i' & Hi & Hin & Hid & Hc)]]; try discriminate.
  inversion Hi; subst i'; clear Hi. rewrite Hci in Hin.
  rewrite action_cases in H.
  destruct (decide _) as [_|_]; [|destruct (decide _) as [_|_]].
  - (* increase *)
    apply bind_inv in H as [(e & H & _)|([] & w2 & Hact & H)].
    + apply bind_inv in H as [(e' & H & _)|(p & w3 & Hprod & H)].
      * unfold product_of in H. rewrite bind_gets in H. apply or_raise_same in H.
        split; [repeat split; congruence|left; congruence].
      * unfold product_of in Hprod. rewrite bind_gets in Hprod. unfold id in Hprod.
        apply or_raise_inr in Hprod as [Hprod ->].
        destruct (_ <? _); [|discriminate]. discriminate.
    + apply ret_same in H.
      apply bind_inr in Hact as (p & w3 & Hprod & Hact).
      unfold product_of in Hprod. rewrite bind_gets in Hprod. unfold id in Hprod.
      apply or_raise_inr in Hprod as [Hprod ->].
      destruct (CartItem.quantity i <? Product.stock p) eqn:Hlt.
      * apply Z.ltb_lt in Hlt. inversion Hact; subst w2; clear Hact. cbn in H.
        rewrite H. cbn. split; [repeat split; assumption|].
        right. exists cart, w1, i. split_and!; auto. left. exists p.
        rewrite <- Hp, <- Hci. auto.
      * apply add_message_same in Hact. split; [repeat split; congruence|left; congruence].
  - (* decrease *)
    apply bind_inv in H as [(e & H & _)|([] & w2 & Hact & H)].
    + destruct (1 <? CartItem.quantity i); discriminate.
    + apply ret_same in H.
      destruct (1 <? CartItem.quantity i) eqn:Hlt.
      * apply Z.ltb_lt in Hlt. inversion Hact; subst w2; clear Hact. cbn in H.
        rewrite H. cbn. split; [repeat split; assumption|].
        right. exists cart, w1, i. split_and!; auto. right. left.
        rewrite <- Hci. auto.
      * apply Z.ltb_ge in Hlt. inversion Hact; subst w2; clear Hact. cbn in H.
        rewrite H. cbn. split; [repeat split; assumption|].
        right. exists cart, w1, i. split_and!; auto. right. right.
        rewrite <- Hci. auto.
  - cbn in H. inversion H; subst. split; [repeat split; assumption|auto].
Qed.

Lemma remove_from_cart_db request item_id w r w' :
  remove_from_cart request item_id w = (r, w') ->
  cart_tables_only (db w) (db w') /\
  (DB.cart_items (db w') = DB.cart_items (db w) \/
   exists cart w1 i,
     get_or_create_cart request w = (inr cart, w1) /\
     i ∈ DB.cart_items (db w) /\ CartItem.id i = item_id /\
     CartItem.cart i = Cart.id cart /\
     DB.cart_items (db w') = deleted_items i (DB.cart_items (db w))).
Proof.
  unfold remove_from_cart. intros H.
  apply bind_inv in H as [(e & H & _)|(cart & w1 & Hcart & H)].
  { apply cart_tables_only_lookup in H as [? ?]. auto. }
  destruct (cart_tables_only_lookup _ _ _ _ Hcart) as [Hfr Hci].
  destruct Hfr as (Hp & Hus & Ho & Hoi & Ha).
  apply bind_inv in H as [(e & H & _)|(i & w2 & Hget & H)].
  { apply get_cart_item_or_404_inv in H as [-> _]. split; [repeat split; assumption|auto]. }
  apply get_cart_item_or_404_inv in Hget as [-> Hi].
  destruct Hi as [Hi|[Hi|(i' & Hi & Hin & Hid & Hc)]]; try discriminate.
  inversion Hi; subst i'; clear Hi. rewrite Hci in Hin.
  apply bind_inv in H as [(e & H & _)|(p & w2 & Hprod & H)].
  { unfold product_of in H. rewrite bind_gets in H. apply or_raise_same in H.
    split; [repeat split; congruence|left; congruence]. }
  unfold product_of in Hprod. rewrite bind_gets in Hprod. unfold id in Hprod.
  apply or_raise_inr in Hprod as [Hprod ->].
  cbn in H. inversion H; subst; clear H. cbn.
  split; [repeat split; assumption|].
  right. exists cart, w1, i. split_and!; auto. rewrite <- Hci. reflexivity.
Qed.

Lemma add_to_cart_db request product_id w r w' :
  add_to_cart request product_id w = (r, w') ->
  cart_tables_only (db w) (db w') /\
  ((DB.cart_items (db w') = DB.cart_items (db w) /\
    forall to, r <> inr (Redirect to None)) \/
   exists cart w1 q,
     get_or_create_cart request w = (inr cart, w1) /\
     posted_quantity request = Some q /\
     DB.carts (db w') = DB.carts (db w1) /\
     session_key w' = session_key w1 /\ cart_session_key w' = cart_session_key w1 /\
     ((filter (fun r => CartItem.cart r = Cart.id cart /\ CartItem.product r = product_id)
              (DB.cart_items (db w)) = [] /\
       DB.cart_items (db w')
       = DB.cart_items (db w)
         ++ [CartItem.mk (next_pk (CartItem.id <$> DB.cart_items (db w)))
                         (Cart.id cart) product_id q]) \/
      (exists i,
         filter (fun r => CartItem.cart r = Cart.id cart /\ CartItem.product r = product_id)
                (DB.cart_items (db w)) = [i] /\
         DB.cart_items (db w')
         = saved_items (CartItem.quantity i + q) i (DB.cart_items (db w))))).
Proof.
  unfold add_to_cart. rewrite bind_gets. unfold id. intros H.
  apply bind_inv in H as [(e & H & ->)|(product & w0 & Hprod & H)].
  { apply or_raise_same in H. rewrite H.
    split; [apply cart_tables_only_refl|left; split; [reflexivity|discriminate]]. }
  apply or_raise_inr in Hprod as [_ ->].
  apply bind_inv in H as [(e & H & ->)|(cart & w1 & Hcart & H)].
  { apply cart_tables_only_lookup in H as [? ?].
    split; [assumption|left; split; [assumption|discriminate]]. }
  destruct (cart_tables_only_lookup _ _ _ _ Hcart) as [Hfr Hci].
  destruct Hfr as (Hp & Hus & Ho & Hoi & Ha).
  apply bind_inv in H as [(e & H & ->)|(q & w2 & Hq & H)].
  { apply or_raise_same in H.
    split; [repeat split; congruence|left; split; [congruence|discriminate]]. }
  apply or_raise_inr in Hq as [Hq ->].
  destruct (_ <? _).
  { cbn in H. inversion H; subst; clear H. cbn.
    split; [repeat split; assumption|left; split; [assumption|discriminate]]. }
  rewrite bind_gets in H. rewrite Hci in H.
  destruct (filter _ _) as [|i [|i' l]] eqn:E; cbn in H; inversion H; subst; clear H; cbn.
  - split; [repeat split; assumption|].
    right. exists cart, w1, q. split_and!; auto. left. rewrite Hci. auto.
  - split; [repeat split; assumption|].
    right. exists cart, w1, q. split_and!; auto. right. exists i. rewrite Hci. auto.
  - split; [repeat split; assumption|left; split; [assumption|discriminate]].
Qed.

(** ** Invariants of the cart views *)

Lemma saved_items_proj {B} (f : CartItem.t -> B) q i l :
  NoDup (CartItem.id <$> l) -> i ∈ l ->
  f (CartItem.with_quantity q i) = f i ->
  f <$> saved_items q i l = f <$> l.
Proof.
  intros Hnd Hi Hf. unfold saved_items.
  rewrite <- list_fmap_compose. apply list_fmap_ext. intros k r Hr. cbn.
  apply list_elem_of_lookup_2 in Hr.
  destruct (bool_decide (CartItem.id r = CartItem.id i)) eqn:E; [|reflexivity].
  apply bool_decide_eq_true in E.
  rewrite (NoDup_fmap_eq CartItem.id l r i Hnd Hr Hi E). exact Hf.
Qed.

Lemma saved_items_other (P : CartItem.t -> Prop) `{!forall x, Decision (P x)} q i l :
  NoDup (CartItem.id <$> l) -> i ∈ l ->
  ~ P i -> ~ P (CartItem.with_quantity q i) ->
  filter P (saved_items q i l) = filter P l.
Proof.
  intros Hnd Hi Hno Hno'. unfold saved_items.
  assert (forall r, r ∈ l -> CartItem.id r = CartItem.id i -> r = i) as Huniq
    by (intros r Hr; exact (NoDup_fmap_eq CartItem.id l r i Hnd Hr Hi)).
  clear Hnd Hi. induction l as [|r l IH]; [reflexivity|]. cbn [fmap list_fmap].
  rewrite !filter_cons, IH by (intros r' Hr'; apply Huniq; right; exact Hr').
  destruct (bool_decide (CartItem.id r = CartItem.id i)) eqn:E; [|reflexivity].
  apply bool_decide_eq_true in E. apply Huniq in E; [|left]. subst r.
  destruct (decide (P (CartItem.with_quantity q i))); [tauto|].
  destruct (decide (P i)); [tauto|reflexivity].
Qed.

Lemma deleted_items_other (P : CartItem.t -> Prop) `{!forall x, Decision (P x)} i l :
  NoDup (CartItem.id <$> l) -> i ∈ l -> ~ P i ->
  filter P (deleted_items i l) = filter P l.
Proof.
  intros Hnd Hi Hno. unfold deleted_items.
  assert (forall r, r ∈ l -> CartItem.id r = CartItem.id i -> r = i) as Huniq
    by (intros r Hr; exact (NoDup_fmap_eq CartItem.id l r i Hnd Hr Hi)).
  clear Hnd Hi. induction l as [|r l IH]; [reflexivity|].
  rewrite (filter_cons (fun r => CartItem.id r <> CartItem.id i)).
  rewrite (filter_cons P r l).
  assert (filter P (filter (fun r => CartItem.id r <> CartItem.id i) l) = filter P l) as IH'
    by (apply IH; intros r' Hr'; apply Huniq; right; exact Hr').
  destruct (decide (CartItem.id r <> CartItem.id i)) as [Hd|Hd].
  - rewrite filter_cons, IH'. reflexivity.
  - assert (r = i) as ->
      by (apply Huniq; [left|]; destruct (decide (CartItem.id r = CartItem.id i)); tauto).
    destruct (decide (P i)); [tauto|exact IH'].
Qed.

Lemma NoDup_fmap_filter {A B} (f : A -> B) (P : A -> Prop) `{!forall x, Decision (P x)} l :
  NoDup (f <$> l) -> NoDup (f <$> filter P l).
Proof.
  induction l as [|x l IH]; [auto|]. cbn [fmap list_fmap]. intros Hnd.
  apply NoDup_cons in Hnd as [Hx Hnd]. rewrite filter_cons.
  destruct (decide (P x)); [|auto]. cbn [fmap list_fmap]. apply NoDup_cons. split; [|auto].
  intros Hin. apply Hx. apply list_elem_of_fmap in Hin as (y & -> & Hy).
  apply list_elem_of_filter in Hy as [_ Hy]. apply list_elem_of_fmap. eauto.
Qed.

(** What one of the cart views makes of the cart items: nothing, a new row
    for the cart, a row of the cart saved with another quantity, or a row of
    the cart deleted. *)
Lemma cart_edit_cases request x w r w' :
  add_to_cart request x w = (r, w') \/ update_cart request x w = (r, w') \/
  remove_from_cart request x w = (r, w') ->
  cart_tables_only (db w) (db w') /\
  (DB.cart_items (db w') = DB.cart_items (db w) \/
   exists cart w1,
     get_or_create_cart request w = (inr cart, w1) /\
     ((exists q,
         filter (fun r => CartItem.cart r = Cart.id cart /\ CartItem.product r = x)
                (DB.cart_items (db w)) = [] /\
         DB.cart_items (db w')
         = DB.cart_items (db w)
           ++ [CartItem.mk (next_pk (CartItem.id <$> DB.cart_items (db w)))
                           (Cart.id cart) x q]) \/
      (exists i q,
         i ∈ DB.cart_items (db w) /\ CartItem.cart i = Cart.id cart /\
         DB.cart_items (db w') = saved_items q i (DB.cart_items (db w))) \/
      (exists i,
         i ∈ DB.cart_items (db w) /\ CartItem.cart i = Cart.id cart /\
         DB.cart_items (db w') = deleted_items i (DB.cart_items (db w))))).
Proof.
  intros [H|[H|H]].
  - apply add_to_cart_db in H as [Hfr [[H _]|(cart & w1 & q & Hcart & _ & _ & _ & _ & H)]];
      (split; [exact Hfr|]); [left; exact H|].
    right. exists cart, w1. split; [exact Hcart|].
    destruct H as [[Hnone H]|(i & Hone & H)]; [left; eauto|].
    right. left. exists i, (CartItem.quantity i + q).
    assert (i ∈ filter (fun r => CartItem.cart r = Cart.id cart /\ CartItem.product r = x)
                       (DB.cart_items (db w))) as Hin by (rewrite Hone; left).
    apply list_elem_of_filter in Hin as [[Hc _] Hin]. auto.
  - apply update_cart_db in H as [Hfr [H|(cart & w1 & i & Hcart & Hin & _ & Hc & H)]];
      (split; [exact Hfr|]); [left; exact H|].
    right. exists cart, w1. split; [exact Hcart|]. right.
    destruct H as [(p & _ & _ & H)|[[_ H]|[_ H]]]; eauto 6.
  - apply remove_from_cart_db in H as [Hfr [H|(cart & w1 & i & Hcart & Hin & _ & Hc & H)]];
      (split; [exact Hfr|]); [left; exact H|].
    right. exists cart, w1. split; [exact Hcart|]. right. right. eauto.
Qed.

(** X12: the cart views write to the requester's cart only: whatever
    [add_to_cart], [update_cart] or [remove_from_cart] answers, the items of
    every other cart are as they were, and so are the products, users, orders,
    order items and activities, in a table of cart items with unique primary
    keys. *)
Theorem cart_edits_touch_own_cart_only request x w r w' cart w1 :
  NoDup (CartItem.id <$> DB.cart_items (db w)) ->
  get_or_create_cart request w = (inr cart, w1) ->
  add_to_cart request x w = (r, w') \/ update_cart request x w = (r, w') \/
  remove_from_cart request x w = (r, w') ->
  (forall c, Cart.id c <> Cart.id cart -> items_all (db w') c = items_all (db w) c) /\
  cart_tables_only (db w) (db w').
Proof.
  intros Hnd Hcart H.
  apply cart_edit_cases in H as [Hfr [H|(cart' & w1' & Hcart' & H)]];
    (split; [|exact Hfr]); intros c Hc; unfold items_all.
  { rewrite H. reflexivity. }
  rewrite Hcart in Hcart'. inversion Hcart'; subst cart' w1'; clear Hcart'.
  destruct H as [(q & _ & ->)|[(i & q & Hin & Hi & ->)|(i & Hin & Hi & ->)]].
  - rewrite filter_app, filter_cons, filter_nil.
    destruct (decide _) as [Heq|_]; [|apply app_nil_r].
    cbn in Heq. congruence.
  - apply saved_items_other; try assumption; cbn; congruence.
  - apply deleted_items_other; try assumption; congruence.
Qed.

Lemma cart_edit_keeps_wf request x w r w' :
  cart_items_wf (db w) ->
  add_to_cart request x w = (r, w') \/ update_cart request x w = (r, w') \/
  remove_from_cart request x w = (r, w') ->
  cart_items_wf (db w').
Proof.
  unfold cart_items_wf, unique_together. intros [Hid Hpair] H.
  apply cart_edit_cases in H as [_ [H|(cart & w1 & _ & H)]].
  { rewrite H. auto. }
  destruct H as [(q & Hnone & ->)|[(i & q & Hin & Hi & ->)|(i & Hin & Hi & ->)]].
  - rewrite !fmap_app. cbn [fmap list_fmap]. split.
    + apply NoDup_app. split; [exact Hid|]. split; [|apply NoDup_singleton].
      intros pk Hpk Hnew. apply list_elem_of_singleton in Hnew. cbn in Hnew.
      apply next_pk_fresh in Hpk. lia.
    + apply NoDup_app. split; [exact Hpair|]. split; [|apply NoDup_singleton].
      intros pr Hpr Hnew. apply list_elem_of_singleton in Hnew. cbn in Hnew. subst pr.
      apply list_elem_of_fmap in Hpr as (r0 & Heq & Hr0). inversion Heq.
      assert (r0 ∈ filter (fun r => CartItem.cart r = Cart.id cart /\ CartItem.product r = x)
                          (DB.cart_items (db w))) as Hf
        by (apply list_elem_of_filter; auto).
      rewrite Hnone in Hf. inversion Hf.
  - rewrite !saved_items_proj by (assumption || reflexivity). auto.
  - unfold deleted_items. split; apply NoDup_fmap_filter; assumption.
Qed.

(** X13: the cart views keep the cart items well-formed: if primary keys are
    unique and no cart holds a product twice (the [unique_together] of
    [CartItem]) before [add_to_cart], [update_cart] or [remove_from_cart],
    the same holds afterwards, whatever the view answers. *)
Theorem cart_edits_keep_items_unique request x w r w' :
  cart_items_wf (db w) ->
  add_to_cart request x w = (r, w') \/ update_cart request x w = (r, w') \/
  remove_from_cart request x w = (r, w') ->
  cart_items_wf (db w').
Proof. apply cart_edit_keeps_wf. Qed.

Lemma saved_items_elem q i l r :
  r ∈ saved_items q i l -> r ∈ l \/ r = CartItem.with_quantity q i.
Proof.
  unfold saved_items. intros Hr. apply list_elem_of_fmap in Hr as (r0 & -> & Hr0).
  destruct (bool_decide _); auto.
Qed.

(** X14: [update_cart] and [remove_from_cart] never take a line above the
    stock: if no cart line asks for more than its product has in stock before
    the view, none does afterwards; an increase at the stock level answers
    with a message instead. *)
Theorem cart_edits_stay_within_stock request item_id w r w' :
  within_stock (db w) ->
  update_cart request item_id w = (r, w') \/ remove_from_cart request item_id w = (r, w') ->
  within_stock (db w').
Proof.
  unfold within_stock. intros Hws H j pj Hj Hpj.
  assert (cart_tables_only (db w) (db w') /\
          (j ∈ DB.cart_items (db w) \/
           exists i q, i ∈ DB.cart_items (db w) /\ j = CartItem.with_quantity q i /\
             (q <= CartItem.quantity i \/
              exists p, DB.products (db w) !! CartItem.product i = Some p /\
                        q <= Product.stock p))) as [(Hp & _) Hcases].
  { destruct H as [H|H].
    - apply update_cart_db in H as [Hfr [H|(cart & w1 & i & _ & Hin & _ & _ & H)]];
        (split; [exact Hfr|]); [left; rewrite <- H; exact Hj|].
      destruct H as [(p & Hprod & Hlt & H)|[[Hlt H]|[_ H]]]; rewrite H in Hj.
      + apply saved_items_elem in Hj as [Hj|Hj]; [auto|].
        right. exists i, (CartItem.quantity i + 1). split_and!; auto.
        right. exists p. split; [exact Hprod|lia].
      + apply saved_items_elem in Hj as [Hj|Hj]; [auto|].
        right. exists i, (CartItem.quantity i - 1). split_and!; auto. left. lia.
      + left. apply list_elem_of_filter in Hj as [_ Hj]. exact Hj.
    - apply remove_from_cart_db in H as [Hfr [H|(cart & w1 & i & _ & Hin & _ & _ & H)]];
        (split; [exact Hfr|]); left; rewrite H in Hj; [exact Hj|].
      apply list_elem_of_filter in Hj as [_ Hj]. exact Hj. }
  rewrite Hp in Hpj.
  destruct Hcases as [Hin|(i & q & Hin & -> & Hq)]; [eauto|]. cbn in *.
  destruct Hq as [Hq|(p & Hprod & Hq)].
  - specialize (Hws i pj Hin Hpj). lia.
  - rewrite Hprod in Hpj. inversion Hpj; subst. exact Hq.
Qed.

(** X15: [update_cart] and [remove_from_cart] never leave a line with a
    quantity below one: if every cart item has a quantity of at least one
    before the view, every cart item has one afterwards; a decrease at
    quantity one deletes the line. *)
Theorem cart_edits_keep_quantities_positive request item_id w r w' :
  positive_quantities (db w) ->
  update_cart request item_id w = (r, w') \/ remove_from_cart request item_id w = (r, w') ->
  positive_quantities (db w').
Proof.
  intros Hpos [H|H].
  - pose proof (update_cart_keeps_quantities request item_id w Hpos) as Hk.
    rewrite H in Hk. destruct r; exact Hk.
  - pose proof (remove_from_cart_keeps_quantities request item_id w Hpos) as Hk.
    rewrite H in Hk. destruct r; exact Hk.
Qed.

(** X16: an item of somebody else's cart cannot be changed: when no cart item
    with the given id belongs to the requester's cart, [update_cart] and
    [remove_from_cart] raise [Http404] and leave the cart items as they
    were, whatever the posted action. *)
Theorem cart_edits_hide_foreign_items request item_id w cart w1 :
  get_or_create_cart request w = (inr cart, w1) ->
  (forall i, i ∈ DB.cart_items (db w) -> CartItem.id i = item_id ->
             CartItem.cart i <> Cart.id cart) ->
  update_cart request item_id w = (inl Http404, w1) /\
  remove_from_cart request item_id w = (inl Http404, w1) /\
  DB.cart_items (db w1) = DB.cart_items (db w).
Proof.
  intros Hcart Hforeign.
  destruct (cart_tables_only_lookup _ _ _ _ Hcart) as [_ Hci].
  assert (get_cart_item_or_404 item_id cart w1 = (inl Http404, w1)) as Hget.
  { unfold get_cart_item_or_404. rewrite bind_gets, Hci.
    rewrite filter_none; [reflexivity|].
    intros i Hi [Hid Hc]. exact (Hforeign i Hi Hid Hc). }
  unfold update_cart, remove_from_cart.
  rewrite !(bind_eq _ _ _ _ _ Hcart), !(bind_inl _ _ _ _ _ Hget). auto.
Qed.

(** ** The cart badge and the cart page *)

Lemma sum_int_from (l : list Z) : forall acc, fold_left Z.add l acc = acc + Py.sum_int l.
Proof.
  unfold Py.sum_int. induction l as [|x l IH]; intros acc; cbn [fold_left]; [lia|].
  rewrite (IH (acc + x)), (IH (0 + x)). lia.
Qed.

Lemma sum_int_cons x l : Py.sum_int (x :: l) = x + Py.sum_int l.
Proof. unfold Py.sum_int at 1. cbn [fold_left]. rewrite sum_int_from. lia. Qed.

Lemma sum_int_app l1 l2 : Py.sum_int (l1 ++ l2) = Py.sum_int l1 + Py.sum_int l2.
Proof.
  induction l1 as [|x l1 IH]; [reflexivity|].
  cbn [app]. rewrite !sum_int_cons, IH. lia.
Qed.

Lemma cart_count_after_lookup request w cart w1 w2 :
  get_or_create_cart request w = (inr cart, w1) ->
  DB.carts (db w2) = DB.carts (db w1) ->
  (Request.user request = None -> cart_session_key w2 = cart_session_key w1) ->
  cart_count request w2 = (inr (count_in (db w2) cart), w2).
Proof.
  intros H Hcarts Hkey. apply get_or_create_cart_found in H. unfold cart_count, count_of.
  destruct (Request.user request) as [uid|].
  - destruct H as [Hf _]. rewrite bind_gets, Hcarts, Hf. reflexivity.
  - destruct H as (k & _ & Hf & Hw1). specialize (Hkey eq_refl).
    rewrite Hw1 in Hkey, Hcarts. cbn [db cart_session_key] in *.
    unfold mbind at 1, M_bind at 1. rewrite Hkey.
    rewrite bind_gets, Hcarts, Hf. reflexivity.
Qed.

Lemma saved_items_fresh q i l :
  (forall r, r ∈ l -> CartItem.id r <> CartItem.id i) -> saved_items q i l = l.
Proof.
  intros Hfresh. unfold saved_items. rewrite <- (list_fmap_id l) at 2.
  apply list_fmap_ext. intros k r Hr. apply list_elem_of_lookup_2 in Hr.
  rewrite bool_decide_eq_false_2; [reflexivity|]. apply Hfresh. exact Hr.
Qed.

Lemma saved_items_count q i l c :
  NoDup (CartItem.id <$> l) -> i ∈ l -> CartItem.cart i = c ->
  Py.sum_int (CartItem.quantity <$> filter (fun r => CartItem.cart r = c) (saved_items q i l))
  = Py.sum_int (CartItem.quantity <$> filter (fun r => CartItem.cart r = c) l)
    + (q - CartItem.quantity i).
Proof.
  intros Hnd Hi Hc. induction l as [|r l IH]; [inversion Hi|].
  cbn [fmap list_fmap] in Hnd. apply NoDup_cons in Hnd as [Hr Hnd].
  change (saved_items q i (r :: l))
    with ((if bool_decide (CartItem.id r = CartItem.id i)
           then CartItem.with_quantity q i else r) :: saved_items q i l).
  destruct (decide (CartItem.id r = CartItem.id i)) as [Hid|Hid].
  - rewrite bool_decide_eq_true_2 by exact Hid.
    assert (r = i) as ->.
    { apply elem_of_cons in Hi as [->|Hi]; [reflexivity|].
      exfalso. apply Hr. rewrite Hid. apply list_elem_of_fmap. eauto. }
    rewrite saved_items_fresh.
    2:{ intros r' Hr' Heq. apply Hr. rewrite <- Heq. apply list_elem_of_fmap. eauto. }
    rewrite !filter_cons. cbn [CartItem.with_quantity CartItem.cart].
    destruct (decide (CartItem.cart i = c)); [|tauto].
    cbn [fmap list_fmap]. rewrite !sum_int_cons. cbn. lia.
  - rewrite bool_decide_eq_false_2 by exact Hid.
    apply elem_of_cons in Hi as [->|Hi]; [congruence|].
    rewrite !filter_cons. destruct (decide (CartItem.cart r = c)).
    + cbn [fmap list_fmap]. rewrite !sum_int_cons, IH by assumption. lia.
    + apply IH; assumption.
Qed.

(** X17: the cart badge grows by what was added: after [add_to_cart] has
    answered with its redirect for a posted quantity [q], [cart_count] for the
    same request is the number of items the cart had before plus [q], whether
    the product was new to the cart or already in it. *)
Theorem add_to_cart_adds_to_count request product_id w to w' cart w1 q :
  NoDup (CartItem.id <$> DB.cart_items (db w)) ->
  get_or_create_cart request w = (inr cart, w1) ->
  posted_quantity request = Some q ->
  add_to_cart request product_id w = (inr (Redirect to None), w') ->
  cart_count request w' = (inr (count_in (db w) cart + q), w').
Proof.
  intros Hnd Hcart Hq H.
  apply add_to_cart_db in H
    as [_ [[_ H]|(cart' & w1' & q' & Hcart' & Hq' & Hcarts & _ & Hkey & H)]].
  { exfalso. exact (H to eq_refl). }
  rewrite Hcart in Hcart'. inversion Hcart'; subst cart' w1'; clear Hcart'.
  rewrite Hq in Hq'. inversion Hq'; subst q'; clear Hq'.
  rewrite (cart_count_after_lookup request w cart w1 w' Hcart Hcarts (fun _ => Hkey)).
  do 2 f_equal. unfold count_in, items_all.
  destruct H as [[_ ->]|(i & Hone & ->)].
  - rewrite filter_app, filter_cons, filter_nil.
    destruct (decide _) as [_|Hno]; [|exfalso; apply Hno; reflexivity].
    rewrite fmap_app, sum_int_app. cbn [fmap list_fmap]. rewrite sum_int_cons. cbn. lia.
  - assert (i ∈ filter (fun r => CartItem.cart r = Cart.id cart /\
                                 CartItem.product r = product_id)
                       (DB.cart_items (db w))) as Hin by (rewrite Hone; left).
    apply list_elem_of_filter in Hin as [[Hc _] Hin].
    rewrite saved_items_count by assumption. lia.
Qed.

(** X18: the cart badge is back to zero after a checkout: following a
    successful [checkout_view], [cart_count] for the same request answers 0. *)
Theorem checkout_empties_cart_count clean slugify send request w n w' :
  checkout_view clean slugify send request w
    = (inr (Redirect "orders:order_confirmation" (Some n)), w') ->
  cart_count request w' = (inr 0, w').
Proof.
  intros H.
  apply checkout_success_spec in H
    as (uid & user & cart & w1 & form & co2 & f & g & H). cbn zeta in H.
  destruct H as (Hu & _ & Hcart & _ & _ & _ & _ & _ & _ & _ & _ & _ & _ & _ & _ & _ & Hdb).
  rewrite (cart_count_after_lookup request w cart w1 w' Hcart).
  - do 2 f_equal. unfold count_in, items_all. rewrite Hdb. cbn [checkout_db DB.cart_items].
    rewrite cleared_cart_has_no_items. reflexivity.
  - rewrite Hdb. reflexivity.
  - congruence.
Qed.

Lemma cart_view_inv request w ctx w' :
  cart_view request w = (inr ctx, w') ->
  let cart := cart_ctx_cart ctx in
  exists w1,
    get_or_create_cart request w = (inr cart, w1) /\
    DB.carts (db w') = DB.carts (db w1) /\
    nothing_placed (db w) (db w') /\
    messages w' = messages w /\
    mapM (subtotal (db w')) (items_all (db w') cart)
    = Some ((fun line => Dec.mk (line_cents line) (-2)) <$> cart_ctx_items ctx) /\
    (cart_ctx_items ctx).*1 = items_all (db w') cart /\
    cart_ctx_items ctx = select_related_product (db w') (items_all (db w') cart) /\
    total_price cart w' = (inr (cart_ctx_total_price ctx), w') /\
    total_eco_points cart w' = (inr (cart_ctx_total_eco_points ctx), w') /\
    cart_ctx_total_items ctx = count_in (db w') cart.
Proof.
  unfold cart_view. intros H.
  apply bind_inr in H as (cart & w1 & Hcart & H).
  apply bind_inr in H as ([] & w2 & Htrack & H).
  apply bind_inr in H as (price & w3 & Hprice & H).
  apply bind_inr in H as (items & w4 & Hitems & H).
  apply bind_inr in H as (points & w5 & Hpoints & H).
  rewrite bind_gets in H. unfold mret, M_ret in H.
  apply total_price_inr in Hprice as (-> & subs & Hsubs & ->).
  unfold total_items, gets in Hitems. inversion Hitems; subst items w4; clear Hitems.
  apply total_eco_points_inr in Hpoints as (-> & eps & Heps & ->).
  inversion H; subst; clear H.
  cbn [cart_ctx_cart cart_ctx_items cart_ctx_total_price cart_ctx_total_items
       cart_ctx_total_eco_points].
  pose proof (get_or_create_cart_frame _ _ _ _ Hcart)
    as ((Hci & Hpr & Hus & Ho & Hoi & _) & Hm & _).
  assert (DB.carts (db w') = DB.carts (db w1) /\ nothing_placed (db w1) (db w')
          /\ messages w' = messages w1) as (Hcarts & Hnp & Hm').
  { destruct (Request.user request) as [uid|].
    - unfold track_user_activity, modify in Htrack. inversion Htrack.
      cbn. repeat split.
    - unfold mret, M_ret in Htrack. inversion Htrack. repeat split. }
  exists w1. pose proof (mapM_subtotal_lines _ _ _ Hsubs) as [Hfst ->].
  split_and!; try assumption; try reflexivity.
  - etransitivity; [|exact Hnp]. repeat split; assumption.
  - congruence.
  - unfold total_price. rewrite bind_gets. unfold id. rewrite Hsubs. reflexivity.
  - unfold total_eco_points. rewrite bind_gets. unfold id. rewrite Heps. reflexivity.
Qed.

(** X19: the totals of the cart page are those of the lines it lists: when
    [cart_view] renders its page, nothing but a cart row and an activity row
    has been written, every item of the cart is listed with its product, the
    total price is the sum of price times quantity over the lines, the number
    of items the sum of the quantities and the eco points the sum of eco
    score times quantity. *)
Theorem cart_page_totals request w ctx w' :
  cart_view request w = (inr ctx, w') ->
  nothing_placed (db w) (db w') /\
  (cart_ctx_items ctx).*1 = items_all (db w) (cart_ctx_cart ctx) /\
  cart_ctx_total_price ctx
    = Py.sum_dec ((fun line => Dec.mk (line_cents line) (-2)) <$> cart_ctx_items ctx) /\
  cart_ctx_total_items ctx = Py.sum_int (CartItem.quantity <$> (cart_ctx_items ctx).*1) /\
  cart_ctx_total_eco_points ctx = Py.sum_int (line_points <$> cart_ctx_items ctx).
Proof.
  intros H. apply cart_view_inv in H. cbn zeta in H.
  destruct H as (w1 & _ & _ & Hnp & _ & Hsubs & Hfst & Hlines & Hprice & Hpoints & Hcount).
  pose proof Hnp as (_ & _ & _ & _ & Hci).
  split_and!.
  - exact Hnp.
  - rewrite Hfst. apply items_all_same. exact Hci.
  - unfold total_price in Hprice. rewrite bind_gets in Hprice. unfold id in Hprice.
    rewrite Hsubs in Hprice. cbn in Hprice. inversion Hprice. reflexivity.
  - rewrite Hfst. exact Hcount.
  - apply total_eco_points_inr in Hpoints as (_ & eps & Heps & ->).
    apply mapM_eco_lines in Heps. rewrite Heps, Hlines. reflexivity.
Qed.

(** X20: the cart page shows what the checkout charges: when [cart_view] has
    rendered the cart and the next request of the same user is a successful
    checkout, the subtotal of the order row is the total price the page
    showed, the eco points earned are the eco points it showed, and the
    quantities of the order items created add up to the number of items it
    showed. *)
Theorem cart_page_shows_what_checkout_charges clean slugify send request w ctx w1 n w' :
  cart_view request w = (inr ctx, w1) ->
  checkout_view clean slugify send request w1
    = (inr (Redirect "orders:order_confirmation" (Some n)), w') ->
  exists row new_items,
    DB.orders (db w') = DB.orders (db w1) ++ [row] /\
    DB.order_items (db w') = DB.order_items (db w1) ++ new_items /\
    cart_ctx_total_price ctx = Dec.of_cents (Order.r_subtotal row) /\
    cart_ctx_total_eco_points ctx = Order.r_eco_points_earned row /\
    cart_ctx_total_items ctx = Py.sum_int (OrderItem.quantity <$> new_items).
Proof.
  intros Hview H. apply cart_view_inv in Hview. cbn zeta in Hview.
  destruct Hview as (w0 & Hlookup & Hcarts & _ & _ & _ & Hfst & Hlines & Hprice & Hpoints
                     & Hcount).
  apply checkout_success_spec in H
    as (uid & user & cart & w2 & form & co2 & f & g & H). cbn zeta in H.
  destruct H as (Hu & _ & Hcart & _ & _ & _ & _ & _ & _ & _ & Htp & Hep & _ & _ & _ & _ & Hdb).
  assert (get_or_create_cart request w1 = (inr (cart_ctx_cart ctx), w1)) as Hagain.
  { apply (get_or_create_cart_existing _ _ uid); [exact Hu|].
    apply get_or_create_cart_found in Hlookup. rewrite Hu in Hlookup.
    destruct Hlookup as [Hf _]. rewrite Hcarts. exact Hf. }
  rewrite Hagain in Hcart. inversion Hcart; subst cart w2; clear Hcart.
  rewrite Hprice in Htp. rewrite Hpoints in Hep.
  inversion Htp as [Hs]. inversion Hep as [Hpts]. clear Htp Hep.
  set (lines := select_related_product (db w1) (items_all (db w1) (cart_ctx_cart ctx))) in *.
  destruct (loop_order_items_spec (next_pk (Order.id <$> DB.orders (db w1))) lines
              (DB.order_items (db w1))) as (news & Hnews & Hsnap).
  eexists _, news. rewrite Hdb, checkout_db_orders, checkout_db_order_items.
  cbn [Order.id Order.r_subtotal Order.r_eco_points_earned].
  split_and!; try reflexivity; try assumption.
  rewrite Hcount. unfold count_in. rewrite <- Hfst, Hlines. fold lines. f_equal.
  clear -Hsnap. induction Hsnap as [|line oi ls ns (_ & _ & Hq & _) _ IH]; [reflexivity|].
  cbn. rewrite Hq, <- IH. reflexivity.
Qed.

(** ** What the checkout writes to the products *)

Lemma same_but_stock_refl slugify p : same_but_stock slugify p p.
Proof. unfold same_but_stock. auto 6. Qed.

Lemma saved_product_same_but_stock slugify line :
  same_but_stock slugify line.2 (saved_product slugify line).
Proof.
  unfold saved_product, same_but_stock. destruct line as [i p]. cbn.
  destruct (bool_decide (Product.slug p = "")) eqn:E; cbn; [|auto 6].
  apply bool_decide_eq_true in E. auto 7.
Qed.

Lemma loop_products_same_but_stock slugify (m0 : gmap Z Product.t) lines pk : forall m,
  Forall (fun line => m0 !! CartItem.product line.1 = Some line.2) lines ->
  option_Forall2 (same_but_stock slugify) (m0 !! pk) (m !! pk) ->
  option_Forall2 (same_but_stock slugify) (m0 !! pk) (loop_products slugify lines m !! pk).
Proof.
  induction lines as [|line lines IH]; intros m Hlines Hm; [exact Hm|].
  apply Forall_cons in Hlines as [Hline Hlines].
  change (loop_products slugify (line :: lines) m)
    with (loop_products slugify lines
            (<[CartItem.product line.1 := saved_product slugify line]> m)).
  apply IH; [exact Hlines|].
  destruct (decide (CartItem.product line.1 = pk)) as [<-|Hne].
  - rewrite lookup_insert_eq, Hline. constructor. apply saved_product_same_but_stock.
  - rewrite lookup_insert_ne by exact Hne. exact Hm.
Qed.

(** X21: the checkout changes the stock of products and nothing else about
    them: whatever [checkout_view] answers, it neither creates nor deletes a
    product, and every product keeps its name, price, eco score and active
    flag; its slug changes only if it was empty, to the slug of its name
    ([Product.save]). *)
Theorem checkout_changes_stock_only clean slugify send request w r w' pk :
  checkout_view clean slugify send request w = (r, w') ->
  option_Forall2 (same_but_stock slugify)
                 (DB.products (db w) !! pk) (DB.products (db w') !! pk).
Proof.
  intros H.
  assert (forall m : gmap Z Product.t,
            option_Forall2 (same_but_stock slugify) (m !! pk) (m !! pk)) as Hrefl.
  { intros m. destruct (m !! pk); constructor. apply same_but_stock_refl. }
  destruct (checkout_view_outcomes _ _ _ _ _ _ _ H) as [[n ->]|(_ & _ & Hp & _)].
  - apply checkout_success_spec in H
      as (uid & user & cart & w1 & form & co2 & f & g & H). cbn zeta in H.
    destruct H as (_ & _ & Hcart & _ & _ & _ & _ & _ & _ & _ & _ & _ & _ & _ & _ & _ & Hdb).
    apply get_or_create_cart_frame in Hcart as ((_ & Hp & _) & _).
    rewrite Hdb, checkout_db_products, <- Hp.
    apply loop_products_same_but_stock; [|apply Hrefl].
    apply Forall_forall. intros [item product] Hline.
    apply select_related_elem_inv in Hline as [_ Hline]. exact Hline.
  - rewrite Hp. apply Hrefl.
Qed.

(** ** The further properties on the worked scenario *)

Lemma scenario_unique_ids : NoDup (CartItem.id <$> DB.cart_items (db Example.world)).
Proof. apply (bool_decide_unpack _). vm_compute. exact I. Qed.

Lemma scenario_within_stock : within_stock (db Example.world).
Proof.
  intros i p Hi Hp. apply list_elem_of_In in Hi. vm_compute in Hi.
  destruct Hi as [<-|[<-|[]]]; vm_compute in Hp; inversion Hp; subst; vm_compute;
    discriminate.
Qed.

Lemma checkout_view_all_or_nothing_witness :
  (exists n, (inl IntegrityError : Exn + Response)
             = inr (Redirect "orders:order_confirmation" (Some n))) \/
  nothing_placed
    (db Scenario.refilled)
    (db (checkout_view Example.clean Example.slugify Example.mail_ok
                       (Example.post []) Scenario.refilled).2).
Proof.
  apply (checkout_view_all_or_nothing Example.clean Example.slugify Example.mail_ok
           (Example.post []) Scenario.refilled).
  vm_compute. reflexivity.
Defined.


Lemma checkout_keeps_stocks_nonneg_witness : stocks_nonneg (db Scenario.placed).
Proof.
  apply (checkout_keeps_stocks_nonneg Example.clean Example.slugify Example.mail_ok
           (Example.post []) Example.world
           (inr (Redirect "orders:order_confirmation" (Some "ECO-0123ABCD")))).
  - apply (bool_decide_unpack _). vm_compute. exact I.
  - vm_compute. reflexivity.
Defined.

Lemma order_items_add_up_to_subtotal_witness :
  exists row new_items,
    DB.orders (db Scenario.placed) = DB.orders (db Example.world) ++ [row] /\
    DB.order_items (db Scenario.placed) = DB.order_items (db Example.world) ++ new_items /\
    Forall (fun oi => OrderItem.order oi = Order.id row) new_items /\
    Py.sum_dec (OrderItem_subtotal <$> new_items) = Dec.of_cents (Order.r_subtotal row).
Proof.
  apply (order_items_add_up_to_subtotal Example.clean Example.slugify Example.mail_ok
           (Example.post []) Example.world "ECO-0123ABCD").
  vm_compute. reflexivity.
Defined.

Lemma checkout_leaves_others_alone_witness :
  exists uid cart w1,
    Request.user (Example.post []) = Some uid /\
    get_or_create_cart (Example.post []) Example.world = (inr cart, w1) /\
    (forall uid', uid' <> uid ->
       DB.users (db Scenario.placed) !! uid' = DB.users (db Example.world) !! uid') /\
    (forall c, Cart.id c <> Cart.id cart ->
       items_all (db Scenario.placed) c = items_all (db Example.world) c) /\
    DB.carts (db Scenario.placed) = DB.carts (db w1) /\
    DB.activities (db Scenario.placed) = DB.activities (db Example.world).
Proof.
  apply (checkout_leaves_others_alone Example.clean Example.slugify Example.mail_ok
           (Example.post []) Example.world "ECO-0123ABCD").
  vm_compute. reflexivity.
Defined.

Lemma order_pages_show_own_orders_witness :
  exists uid,
    Request.user Example.get = Some uid /\
    Order.r_user Scenario.placed_row = uid /\
    Order.r_order_number Scenario.placed_row = "ECO-0123ABCD" /\
    Scenario.placed_row ∈ DB.orders (db Scenario.placed) /\
    Scenario.placed_items = order_items_all (db Scenario.placed) Scenario.placed_row /\
    nothing_placed
      (db Scenario.placed)
      (db (order_detail_view Example.get "ECO-0123ABCD" Scenario.placed).2).
Proof.
  apply (order_pages_show_own_orders Example.get "ECO-0123ABCD" Scenario.placed
           "orders/order_detail.html" Scenario.placed_row Scenario.placed_items).
  right. vm_compute. reflexivity.
Defined.

Lemma order_pages_hide_foreign_orders_witness :
  let w := Scenario.with_visitor Scenario.placed in
  order_confirmation_view (Scenario.visitor []) "ECO-0123ABCD" w = (inl Http404, w) /\
  order_detail_view (Scenario.visitor []) "ECO-0123ABCD" w = (inl Http404, w).
Proof.
  apply (order_pages_hide_foreign_orders (Scenario.visitor []) "ECO-0123ABCD"
           (Scenario.with_visitor Scenario.placed) 8 (User.mk 0 0 0)).
  - reflexivity.
  - vm_compute. reflexivity.
  - intros o Ho _. apply list_elem_of_In in Ho. vm_compute in Ho.
    destruct Ho as [<-|[]]. vm_compute. discriminate.
Defined.

Lemma confirmation_shows_placed_order_witness :
  exists row new_items w'',
    DB.orders (db Scenario.placed) = DB.orders (db Example.world) ++ [row] /\
    DB.order_items (db Scenario.placed) = DB.order_items (db Example.world) ++ new_items /\
    order_confirmation_view (Example.post []) "ECO-0123ABCD" Scenario.placed
      = (inr (OrderPage "orders/order_confirmation.html" row new_items), w'') /\
    nothing_placed (db Scenario.placed) (db w'').
Proof.
  apply (confirmation_shows_placed_order Example.clean Example.slugify Example.mail_ok
           (Example.post []) Example.world "ECO-0123ABCD").
  - intros oi Hoi. apply list_elem_of_In in Hoi. vm_compute in Hoi. destruct Hoi.
  - vm_compute. reflexivity.
Defined.

Lemma checkout_succeeds_witness :
  exists w',
    checkout_view Example.clean Example.slugify Example.mail_down
                  (Example.post []) Example.world
    = (inr (Redirect "orders:order_confirmation"
              (Some (order_number_of (Example.post [])))), w').
Proof.
  apply (checkout_succeeds Example.clean Example.slugify Example.mail_down
           (Example.post []) Example.world 7 Example.shopper Example.cart1 Example.world
           Example.address (Dec.mk 284 (-2))).
  - reflexivity.
  - reflexivity.
  - reflexivity.
  - reflexivity.
  - reflexivity.
  - vm_compute. discriminate.
  - apply (bool_decide_unpack _). vm_compute. exact I.
  - apply (bool_decide_unpack _). vm_compute. exact I.
  - apply (bool_decide_unpack _). vm_compute. exact I.
  - vm_compute. reflexivity.
  - vm_compute. reflexivity.
  - vm_compute. reflexivity.
  - vm_compute. reflexivity.
  - vm_compute. eexists. reflexivity.
  - vm_compute. eexists. reflexivity.
Defined.

Lemma get_or_create_cart_idempotent_witness :
  let w1 := (get_or_create_cart Scenario.guest Example.world).2 in
  let cart := Cart.mk 2 None (Some "s3ss10n") in
  get_or_create_cart Scenario.guest w1 = (inr cart, w1) /\
  cart ∈ DB.carts (db w1) /\
  Cart.session_key cart = session_key w1 /\ cart_session_key w1 = session_key w1.
Proof.
  apply (get_or_create_cart_idempotent Scenario.guest Example.world
           (Cart.mk 2 None (Some "s3ss10n"))).
  vm_compute. reflexivity.
Defined.

Lemma cart_count_matches_cart_witness :
  let w1 := (get_or_create_cart Scenario.guest Example.world).2 in
  cart_count Scenario.guest w1
  = (inr (count_in (db w1) (Cart.mk 2 None (Some "s3ss10n"))), w1).
Proof.
  apply (cart_count_matches_cart Scenario.guest Example.world).
  vm_compute. reflexivity.
Defined.

Lemma cart_edits_touch_own_cart_only_witness :
  let w' := (update_cart (Example.post [("action", "increase")]) 1 Example.world).2 in
  (forall c, Cart.id c <> Cart.id Example.cart1 ->
     items_all (db w') c = items_all (db Example.world) c) /\
  cart_tables_only (db Example.world) (db w').
Proof.
  apply (cart_edits_touch_own_cart_only (Example.post [("action", "increase")]) 1
           Example.world (inr (Redirect "orders:cart" None)) _ Example.cart1 Example.world).
  - exact scenario_unique_ids.
  - reflexivity.
  - right. left. vm_compute. reflexivity.
Defined.

Lemma cart_edits_keep_items_unique_witness :
  cart_items_wf (db (add_to_cart (Example.post [("quantity", "2")]) 3 Example.world).2).
Proof.
  apply (cart_edits_keep_items_unique (Example.post [("quantity", "2")]) 3 Example.world
           (inr (Redirect "products:product_list" None))).
  - split; [exact scenario_unique_ids|exact example_unique_together].
  - left. vm_compute. reflexivity.
Defined.

Lemma cart_edits_stay_within_stock_witness :
  within_stock (db (update_cart (Example.post [("action", "increase")]) 1 Example.world).2).
Proof.
  apply (cart_edits_stay_within_stock (Example.post [("action", "increase")]) 1
           Example.world (inr (Redirect "orders:cart" None))).
  - exact scenario_within_stock.
  - left. vm_compute. reflexivity.
Defined.

Lemma cart_edits_keep_quantities_positive_witness :
  positive_quantities
    (db (update_cart (Example.post [("action", "decrease")]) 2 Example.world).2).
Proof.
  apply (cart_edits_keep_quantities_positive (Example.post [("action", "decrease")]) 2
           Example.world (inr (Redirect "orders:cart" None))).
  - apply (bool_decide_unpack _). vm_compute. exact I.
  - left. vm_compute. reflexivity.
Defined.

Lemma cart_edits_hide_foreign_items_witness :
  let request := Scenario.visitor [("action", "decrease")] in
  let w1 := (get_or_create_cart request Example.world).2 in
  update_cart request 1 Example.world = (inl Http404, w1) /\
  remove_from_cart request 1 Example.world = (inl Http404, w1) /\
  DB.cart_items (db w1) = DB.cart_items (db Example.world).
Proof.
  apply (cart_edits_hide_foreign_items (Scenario.visitor [("action", "decrease")]) 1
           Example.world (Cart.mk 2 (Some 8) None)).
  - vm_compute. reflexivity.
  - intros i Hi Hid. apply list_elem_of_In in Hi. vm_compute in Hi.
    destruct Hi as [<-|[<-|[]]]; vm_compute; discriminate.
Defined.

Lemma add_to_cart_adds_to_count_witness :
  let w' := (add_to_cart Scenario.guest 3 Example.world).2 in
  cart_count Scenario.guest w'
  = (inr (count_in (db Example.world) (Cart.mk 2 None (Some "s3ss10n")) + 2), w').
Proof.
  apply (add_to_cart_adds_to_count Scenario.guest 3 Example.world "products:product_list" _
           (Cart.mk 2 None (Some "s3ss10n"))
           (get_or_create_cart Scenario.guest Example.world).2 2).
  - exact scenario_unique_ids.
  - vm_compute. reflexivity.
  - vm_compute. reflexivity.
  - vm_compute. reflexivity.
Defined.

Lemma checkout_empties_cart_count_witness :
  cart_count (Example.post []) Scenario.placed = (inr 0, Scenario.placed).
Proof.
  apply (checkout_empties_cart_count Example.clean Example.slugify Example.mail_ok
           (Example.post []) Example.world "ECO-0123ABCD").
  vm_compute. reflexivity.
Defined.

Lemma cart_page_totals_witness :
  let ctx := mkCartContext Example.cart1
               [(CartItem.mk 1 1 1 2, Example.toothbrush);
                (CartItem.mk 2 1 2 1, Example.bottle)]
               (Dec.mk 5097 (-2)) 3 284 in
  let w' := (cart_view Example.get Example.world).2 in
  nothing_placed (db Example.world) (db w') /\
  (cart_ctx_items ctx).*1 = items_all (db Example.world) (cart_ctx_cart ctx) /\
  cart_ctx_total_price ctx
    = Py.sum_dec ((fun line => Dec.mk (line_cents line) (-2)) <$> cart_ctx_items ctx) /\
  cart_ctx_total_items ctx = Py.sum_int (CartItem.quantity <$> (cart_ctx_items ctx).*1) /\
  cart_ctx_total_eco_points ctx = Py.sum_int (line_points <$> cart_ctx_items ctx).
Proof.
  apply (cart_page_totals Example.get Example.world).
  vm_compute. reflexivity.
Defined.

Lemma cart_page_shows_what_checkout_charges_witness :
  let ctx := mkCartContext Example.cart1
               [(CartItem.mk 1 1 1 2, Example.toothbrush);
                (CartItem.mk 2 1 2 1, Example.bottle)]
               (Dec.mk 5097 (-2)) 3 284 in
  let w1 := (cart_view (Example.post []) Example.world).2 in
  let w' := (checkout_view Example.clean Example.slugify Example.mail_ok
                           (Example.post []) w1).2 in
  exists row new_items,
    DB.orders (db w') = DB.orders (db w1) ++ [row] /\
    DB.order_items (db w') = DB.order_items (db w1) ++ new_items /\
    cart_ctx_total_price ctx = Dec.of_cents (Order.r_subtotal row) /\
    cart_ctx_total_eco_points ctx = Order.r_eco_points_earned row /\
    cart_ctx_total_items ctx = Py.sum_int (OrderItem.quantity <$> new_items).
Proof.
  apply (cart_page_shows_what_checkout_charges
           Example.clean Example.slugify Example.mail_ok (Example.post []) Example.world
           _ _ "ECO-0123ABCD").
  - vm_compute. reflexivity.
  - vm_compute. reflexivity.
Defined.

Lemma checkout_changes_stock_only_witness :
  option_Forall2 (same_but_stock Example.slugify)
                 (DB.products (db Example.world) !! 1)
                 (DB.products (db Scenario.placed) !! 1).
Proof.
  apply (checkout_changes_stock_only Example.clean Example.slugify Example.mail_ok
           (Example.post []) Example.world
           (inr (Redirect "orders:order_confirmation" (Some "ECO-0123ABCD")))).
  vm_compute. reflexivity.
Defined.
